(** * The countdown engine of js/countdown.js

    A shallow embedding of [CountdownEngine] together with the part of the
    browser it talks to: the clock, the [Date] calendar of ECMA-262, the
    timer and animation-frame queues, and the two callbacks of the UI.

    Numbers.  A JavaScript number is modelled as an exact rational, or one
    of [NaN], [+Infinity], [-Infinity].  Every finite result is kept in
    lowest terms, so that two equal numbers are equal terms.  The rounding of
    IEEE doubles and the sign of zero are outside the model.

    Local time.  The host's zone is a constant offset [tza] (milliseconds
    east of UTC); daylight-saving transitions are outside the model. *)

From Stdlib Require Import ZArith QArith Qround Qabs List String Ascii Bool Lia Lqa.
From Stdlib Require Import DecimalString Sorting.Sorted.
From Stdlib Require Qcanon.
From Equations Require Import Equations.
Import ListNotations.

Local Open Scope Z_scope.

(* ------------------------------------------------------------------ *)
(** ** JavaScript numbers *)

Module JSNumber.

Inductive Num : Type :=
| Fin (q : Q)
| PInf
| NInf
| NaN.

(** A finite number in lowest terms. *)
Definition fin (q : Q) : Num := Fin (Qred q).

Definition ofZ (z : Z) : Num := Fin (inject_Z z).

Definition Qlt_bool (x y : Q) : bool := negb (Qle_bool y x).

Definition Qsign_pos (x : Q) : bool := Qlt_bool 0%Q x.
Definition Qsign_neg (x : Q) : bool := Qlt_bool x 0%Q.
Definition Qis_zero (x : Q) : bool := Qeq_bool x 0%Q.

(** [a < b]; any comparison with [NaN] is false. *)
Definition nlt (a b : Num) : bool :=
  match a, b with
  | NaN, _ | _, NaN => false
  | Fin x, Fin y => Qlt_bool x y
  | _, NInf => false
  | NInf, _ => true
  | PInf, _ => false
  | Fin _, PInf => true
  end.

(** [a <= b]. *)
Definition nle (a b : Num) : bool :=
  match a, b with
  | NaN, _ | _, NaN => false
  | Fin x, Fin y => Qle_bool x y
  | NInf, _ => true
  | _, PInf => true
  | _, NInf => false
  | PInf, _ => false
  end.

Definition ngt (a b : Num) : bool := nlt b a.
Definition nge (a b : Num) : bool := nle b a.

(** [a !== b] on numbers: [NaN] differs from everything. *)
Definition strict_neq (a b : Num) : bool :=
  match a, b with
  | Fin x, Fin y => negb (Qeq_bool x y)
  | PInf, PInf | NInf, NInf => false
  | _, _ => true
  end.

Definition nneg (a : Num) : Num :=
  match a with
  | Fin x => fin (- x)%Q
  | PInf => NInf
  | NInf => PInf
  | NaN => NaN
  end.

Definition nadd (a b : Num) : Num :=
  match a, b with
  | NaN, _ | _, NaN => NaN
  | Fin x, Fin y => fin (x + y)%Q
  | PInf, NInf | NInf, PInf => NaN
  | PInf, _ | _, PInf => PInf
  | NInf, _ | _, NInf => NInf
  end.

Definition nsub (a b : Num) : Num := nadd a (nneg b).

Definition nmul (a b : Num) : Num :=
  match a, b with
  | NaN, _ | _, NaN => NaN
  | Fin x, Fin y => fin (x * y)%Q
  | Fin x, PInf | PInf, Fin x =>
      if Qis_zero x then NaN else if Qsign_pos x then PInf else NInf
  | Fin x, NInf | NInf, Fin x =>
      if Qis_zero x then NaN else if Qsign_pos x then NInf else PInf
  | PInf, PInf | NInf, NInf => PInf
  | PInf, NInf | NInf, PInf => NInf
  end.

(** [a / b].  A finite number over zero is an infinity of the sign of the
    dividend (the zero is the positive one), zero over zero is [NaN]. *)
Definition ndiv (a b : Num) : Num :=
  match a, b with
  | NaN, _ | _, NaN => NaN
  | Fin x, Fin y =>
      if Qis_zero y then
        if Qis_zero x then NaN else if Qsign_pos x then PInf else NInf
      else fin (x / y)%Q
  | Fin _, (PInf | NInf) => Fin 0%Q
  | (PInf | NInf), (PInf | NInf) => NaN
  | PInf, Fin y => if Qsign_neg y then NInf else PInf
  | NInf, Fin y => if Qsign_neg y then PInf else NInf
  end.

(** Rounding toward zero. *)
Definition Qtrunc (x : Q) : Z :=
  if Qle_bool 0%Q x then Qfloor x else Qceiling x.

(** [a % b]: the remainder has the sign of the dividend. *)
Definition nrem (a b : Num) : Num :=
  match a, b with
  | Fin x, Fin y =>
      if Qis_zero y then NaN else fin (x - y * inject_Z (Qtrunc (x / y)))%Q
  | Fin x, (PInf | NInf) => Fin x
  | _, _ => NaN
  end.

(** [Math.floor]. *)
Definition nfloor (a : Num) : Num :=
  match a with
  | Fin x => ofZ (Qfloor x)
  | other => other
  end.

(** [Math.max] and [Math.min] of two numbers. *)
Definition nmax (a b : Num) : Num :=
  match a, b with
  | NaN, _ | _, NaN => NaN
  | _, _ => if nlt a b then b else a
  end.

Definition nmin (a b : Num) : Num :=
  match a, b with
  | NaN, _ | _, NaN => NaN
  | _, _ => if nlt b a then b else a
  end.

(** Truthiness of a number: [0] and [NaN] are falsy. *)
Definition truthy (a : Num) : bool :=
  match a with
  | Fin x => negb (Qis_zero x)
  | NaN => false
  | _ => true
  end.

Definition isIntegral (x : Q) : bool := Qeq_bool x (inject_Z (Qfloor x)).

Definition decimal (z : Z) : string := NilZero.string_of_int (Z.to_int z).

Definition digitChar (d : Z) : ascii := ascii_of_nat (48 + Z.to_nat d).

Definition twoDigits (m : Z) : string :=
  String (digitChar (m / 10)) (String (digitChar (m mod 10)) EmptyString).

(** [Number.prototype.toString] with radix 10.  Integers below 10^21 print as
    their decimal numeral; the digits of any other finite number are the
    host's shortest round-trip rendering, taken as [hostToString]. *)
Definition toString (hostToString : Q -> string) (a : Num) : string :=
  match a with
  | NaN => "NaN"
  | PInf => "Infinity"
  | NInf => "-Infinity"
  | Fin x =>
      if isIntegral x && Qlt_bool (Qabs x) (inject_Z (10 ^ 21))
      then decimal (Qfloor x)
      else hostToString x
  end%string.

(** [Number.prototype.toFixed(2)]: with n the integer nearest to 100*|x|
    (the larger one on a tie), the numeral of n with a point before its last
    two digits, behind a minus sign when x < 0. *)
Definition toFixed2 (hostToString : Q -> string) (a : Num) : string :=
  match a with
  | Fin x =>
      if Qlt_bool (Qabs x) (inject_Z (10 ^ 21)) then
        let n := Qfloor (Qabs x * 100 + (1 # 2))%Q in
        ((if Qsign_neg x then "-" else "")
           ++ decimal (n / 100) ++ "." ++ twoDigits (n mod 100))%string
      else toString hostToString a
  | other => toString hostToString other
  end.

End JSNumber.

Import JSNumber.

(* ------------------------------------------------------------------ *)
(** ** The calendar of [Date] (ECMA-262, Date objects) *)

Module Calendar.

Definition msPerDay : Z := 86400000.

Definition Day (t : Z) : Z := t / msPerDay.
Definition TimeWithinDay (t : Z) : Z := t mod msPerDay.

Definition DaysInYear (y : Z) : Z :=
  if negb (y mod 4 =? 0) then 365
  else if negb (y mod 100 =? 0) then 366
  else if negb (y mod 400 =? 0) then 365
  else 366.

Definition DayFromYear (y : Z) : Z :=
  365 * (y - 1970) + (y - 1969) / 4 - (y - 1901) / 100 + (y - 1601) / 400.

Definition TimeFromYear (y : Z) : Z := msPerDay * DayFromYear y.

(** The largest year whose first day is not after [t]: a first guess from
    the mean length of a year, moved by at most one year. *)
Definition YearFromTime (t : Z) : Z :=
  let d := Day t in
  let y0 := 1970 + (d * 400) / 146097 in
  if DayFromYear (y0 + 1) <=? d then y0 + 1
  else if DayFromYear y0 <=? d then y0
  else y0 - 1.

Definition leapDays (y : Z) : Z := DaysInYear y - 365.

Definition InLeapYear (t : Z) : Z := leapDays (YearFromTime t).

Definition DayWithinYear (t : Z) : Z := Day t - DayFromYear (YearFromTime t).

(** Number of days of the year before month [m] (0 = January). *)
Definition monthStart (m leap : Z) : Z :=
  match m with
  | 0 => 0
  | 1 => 31
  | 2 => 59 + leap
  | 3 => 90 + leap
  | 4 => 120 + leap
  | 5 => 151 + leap
  | 6 => 181 + leap
  | 7 => 212 + leap
  | 8 => 243 + leap
  | 9 => 273 + leap
  | 10 => 304 + leap
  | 11 => 334 + leap
  | _ => 365 + leap
  end.

Definition MonthFromTime (t : Z) : Z :=
  let d := DayWithinYear t in
  let leap := InLeapYear t in
  if d <? 31 then 0
  else if d <? 59 + leap then 1
  else if d <? 90 + leap then 2
  else if d <? 120 + leap then 3
  else if d <? 151 + leap then 4
  else if d <? 181 + leap then 5
  else if d <? 212 + leap then 6
  else if d <? 243 + leap then 7
  else if d <? 273 + leap then 8
  else if d <? 304 + leap then 9
  else if d <? 334 + leap then 10
  else 11.

Definition DateFromTime (t : Z) : Z :=
  DayWithinYear t - monthStart (MonthFromTime t) (InLeapYear t) + 1.

Definition WeekDay (t : Z) : Z := (Day t + 4) mod 7.

Definition MakeTime (hour min sec ms : Z) : Z :=
  hour * 3600000 + min * 60000 + sec * 1000 + ms.

Definition MakeDay (year month date : Z) : Z :=
  let ym := year + month / 12 in
  let mn := month mod 12 in
  DayFromYear ym + monthStart mn (leapDays ym) + date - 1.

Definition MakeDate (day time : Z) : Z := day * msPerDay + time.

Definition maxTime : Z := 8640000000000000.

Definition LocalTime (tza t : Z) : Z := t + tza.
Definition UTC (tza t : Z) : Z := t - tza.

(** A [Date] object: a time value in whole milliseconds, or the invalid
    date, whose time value is [NaN]. *)
Inductive JSDate : Type :=
| DateAt (t : Z)
| InvalidDate.

Definition TimeClip (t : Z) : JSDate :=
  if Z.abs t <=? maxTime then DateAt t else InvalidDate.

(** [date.getTime()], also the number a date turns into under [-] and [>]. *)
Definition getTime (d : JSDate) : Num :=
  match d with
  | DateAt t => ofZ t
  | InvalidDate => NaN
  end.

(** [new Date(year, month, date, hours, minutes, seconds, ms)] in local
    time; a year from 0 to 99 means 1900 + year. *)
Definition newDate (tza year month date hours minutes seconds ms : Z) : JSDate :=
  let yr := if (0 <=? year) && (year <=? 99) then 1900 + year else year in
  TimeClip (UTC tza (MakeDate (MakeDay yr month date)
                              (MakeTime hours minutes seconds ms))).

(** [date.getFullYear()] of a valid date. *)
Definition getFullYear (tza t : Z) : Z := YearFromTime (LocalTime tza t).
Definition getMonth (tza t : Z) : Z := MonthFromTime (LocalTime tza t).
Definition getDate (tza t : Z) : Z := DateFromTime (LocalTime tza t).
Definition getDay (tza t : Z) : Z := WeekDay (LocalTime tza t).

Definition weekdayName (d : Z) : string :=
  match d with
  | 0 => "Sunday" | 1 => "Monday" | 2 => "Tuesday" | 3 => "Wednesday"
  | 4 => "Thursday" | 5 => "Friday" | _ => "Saturday"
  end%string.

Definition monthName (m : Z) : string :=
  match m with
  | 0 => "January" | 1 => "February" | 2 => "March" | 3 => "April"
  | 4 => "May" | 5 => "June" | 6 => "July" | 7 => "August"
  | 8 => "September" | 9 => "October" | 10 => "November" | _ => "December"
  end%string.

(** [toLocaleDateString('en-US', { weekday: 'long' })]. *)
Definition localeWeekday (tza : Z) (d : JSDate) : string :=
  match d with
  | DateAt t => weekdayName (getDay tza t)
  | InvalidDate => "Invalid Date"
  end%string.

(** [toLocaleDateString('en-US', { weekday: 'long', year: 'numeric',
    month: 'long', day: 'numeric' })], as in "Saturday, December 26, 2026". *)
Definition localeLongDate (tza : Z) (d : JSDate) : string :=
  match d with
  | DateAt t =>
      (weekdayName (getDay tza t) ++ ", " ++ monthName (getMonth tza t) ++ " "
         ++ decimal (getDate tza t) ++ ", " ++ decimal (getFullYear tza t))%string
  | InvalidDate => "Invalid Date"
  end%string.

End Calendar.

Import Calendar.

(* ------------------------------------------------------------------ *)
(** ** The browser around the engine *)

(** What the page's host provides: the zone offset, [new Date(string)],
    whether [window.requestAnimationFrame] and [performance.now] exist, the
    time between two animation frames, and the rendering of numbers that are
    not small integers. *)
Record Host : Type := {
  tza : Z;
  dateParse : string -> JSDate;
  hasRAF : bool;
  hasPerformance : bool;
  frameMs : Q;
  hostToString : Q -> string;
  hostTimeZone : string
}.

(** A property value of the object [calculateTimeRemaining] returns. *)
Inductive Value : Type :=
| VUndefined
| VNumber (n : Num)
| VString (s : string).

(** The object returned by [calculateTimeRemaining].  [totalDays] is
    [VUndefined] where the object literal has no such property. *)
Record Remaining : Type := {
  total : Num;
  months : Num;
  weeks : Num;
  days : Num;
  hours : Num;
  minutes : Num;
  seconds : Num;
  milliseconds : Num;
  totalDays : Value;
  isComplete : bool;
  progress : Value
}.

Record YearRange : Type := { yr_start : Z; yr_end : Z }.

(** The fields of a [CountdownEngine]; [None] is [null] or [undefined]. *)
Record Engine : Type := {
  targetDate : option JSDate;
  targetYear : option Z;
  eventName : option string;
  timezone : string;
  intervalId : option positive;
  rafId : option positive;
  lastUpdateTime : Num;
  updateFrequency : Num;
  yearRange : YearRange;
  useHighPrecision : bool
}.

(** The functions the engine hands to the browser. *)
Inductive Callback : Type :=
| CbUpdate      (* () => this.update(), given to setInterval *)
| CbRafLoop     (* () => this.rafLoop(), given to requestAnimationFrame *)
| CbRollover.   (* the rollover closure, given to setTimeout *)

Inductive TaskKind : Type :=
| Interval (period : Q)
| Timeout
| AnimationFrame.

(** A callback waiting in the browser, due at time [due]. *)
Record Task : Type := {
  handle : positive;
  kind : TaskKind;
  due : Q;
  callback : Callback
}.

(** Calls received by the UI. *)
Inductive Event : Type :=
| OnUpdate (r : Remaining)
| OnComplete.

Record World : Type := {
  host : Host;
  clock : Q;                 (* milliseconds since the epoch *)
  engine : Engine;
  tasks : list Task;         (* in the order they were scheduled *)
  nextHandle : positive;
  trace : list Event         (* latest first *)
}.

Definition withEngine (e : Engine) (w : World) : World :=
  {| host := host w; clock := clock w; engine := e; tasks := tasks w;
     nextHandle := nextHandle w; trace := trace w |}.

Definition withTasks (ts : list Task) (w : World) : World :=
  {| host := host w; clock := clock w; engine := engine w; tasks := ts;
     nextHandle := nextHandle w; trace := trace w |}.

Definition withClock (c : Q) (w : World) : World :=
  {| host := host w; clock := c; engine := engine w; tasks := tasks w;
     nextHandle := nextHandle w; trace := trace w |}.

Definition emit (ev : Event) (w : World) : World :=
  {| host := host w; clock := clock w; engine := engine w; tasks := tasks w;
     nextHandle := nextHandle w; trace := ev :: trace w |}.

Definition isTimer (k : TaskKind) : bool :=
  match k with
  | AnimationFrame => false
  | _ => true
  end.

Definition isFrame (k : TaskKind) : bool := negb (isTimer k).

(** The delay of a timer, converted as the browser does: to a 32-bit
    integer, and to 0 when that is negative. *)
Definition timerDelay (n : Num) : Q :=
  match n with
  | Fin x =>
      let m := (Qtrunc x) mod 2 ^ 32 in
      let s := if 2 ^ 31 <=? m then m - 2 ^ 32 else m in
      inject_Z (Z.max s 0)
  | _ => 0%Q
  end.

Definition schedule (k : TaskKind) (d : Q) (cb : Callback) (w : World)
  : positive * World :=
  let h := nextHandle w in
  (h, {| host := host w; clock := clock w; engine := engine w;
         tasks := tasks w ++ [{| handle := h; kind := k; due := d; callback := cb |}];
         nextHandle := Pos.succ h; trace := trace w |}).

Definition setInterval (cb : Callback) (delay : Num) (w : World) : positive * World :=
  let p := timerDelay delay in
  schedule (Interval p) (clock w + p)%Q cb w.

Definition setTimeout (cb : Callback) (delay : Num) (w : World) : positive * World :=
  schedule Timeout (clock w + timerDelay delay)%Q cb w.

Definition requestAnimationFrame (cb : Callback) (w : World) : positive * World :=
  schedule AnimationFrame (clock w + frameMs (host w))%Q cb w.

(** [clearInterval(id)]: timers share one pool of handles. *)
Definition clearInterval (id : positive) (w : World) : World :=
  withTasks
    (filter (fun t => negb (isTimer (kind t) && Pos.eqb (handle t) id)) (tasks w)) w.

Definition cancelAnimationFrame (id : positive) (w : World) : World :=
  withTasks
    (filter (fun t => negb (isFrame (kind t) && Pos.eqb (handle t) id)) (tasks w)) w.

(** [new Date()]: the clock in whole milliseconds. *)
Definition currentDate (w : World) : Z := Qfloor (clock w).

(** [Date.now()] and [performance.timeOrigin + performance.now()], on a host
    that provides both [performance.timeOrigin] and [performance.now]. *)
Definition dateNow (w : World) : Num := ofZ (currentDate w).
Definition performanceTime (w : World) : Num := fin (clock w).

(* ------------------------------------------------------------------ *)
(** ** class CountdownEngine *)

Module CountdownEngine.

(** The [options] of the constructor that are data; the callbacks
    [onUpdate] and [onComplete] are the [trace] of the world. *)
Record Options : Type := {
  opt_timezone : option string;
  opt_updateFrequency : option Num
}.

Definition constructor (h : Host) (options : Options) : Engine :=
  {| targetDate := None;
     targetYear := None;
     eventName := None;
     timezone :=
       match opt_timezone options with
       | Some EmptyString | None => hostTimeZone h
       | Some tz => tz
       end;
     intervalId := None;
     rafId := None;
     lastUpdateTime := ofZ 0;
     updateFrequency :=
       match opt_updateFrequency options with
       | Some f => if truthy f then f else ofZ 1000
       | None => ofZ 1000
       end;
     yearRange := {| yr_start := 2024; yr_end := 2035 |};
     useHighPrecision := hasPerformance h |}.

Definition setTarget (d : JSDate) (y : option Z) (e : Engine) : Engine :=
  {| targetDate := Some d; targetYear := y; eventName := eventName e;
     timezone := timezone e; intervalId := intervalId e; rafId := rafId e;
     lastUpdateTime := lastUpdateTime e; updateFrequency := updateFrequency e;
     yearRange := yearRange e; useHighPrecision := useHighPrecision e |}.

Definition setEventName (n : string) (e : Engine) : Engine :=
  {| targetDate := targetDate e; targetYear := targetYear e; eventName := Some n;
     timezone := timezone e; intervalId := intervalId e; rafId := rafId e;
     lastUpdateTime := lastUpdateTime e; updateFrequency := updateFrequency e;
     yearRange := yearRange e; useHighPrecision := useHighPrecision e |}.

Definition setIntervalId (i : option positive) (e : Engine) : Engine :=
  {| targetDate := targetDate e; targetYear := targetYear e;
     eventName := eventName e; timezone := timezone e; intervalId := i;
     rafId := rafId e; lastUpdateTime := lastUpdateTime e;
     updateFrequency := updateFrequency e; yearRange := yearRange e;
     useHighPrecision := useHighPrecision e |}.

Definition setRafId (i : option positive) (e : Engine) : Engine :=
  {| targetDate := targetDate e; targetYear := targetYear e;
     eventName := eventName e; timezone := timezone e;
     intervalId := intervalId e; rafId := i;
     lastUpdateTime := lastUpdateTime e; updateFrequency := updateFrequency e;
     yearRange := yearRange e; useHighPrecision := useHighPrecision e |}.

Definition setLastUpdateTime (n : Num) (e : Engine) : Engine :=
  {| targetDate := targetDate e; targetYear := targetYear e;
     eventName := eventName e; timezone := timezone e;
     intervalId := intervalId e; rafId := rafId e; lastUpdateTime := n;
     updateFrequency := updateFrequency e; yearRange := yearRange e;
     useHighPrecision := useHighPrecision e |}.

Definition getHighPrecisionTime (w : World) : Num :=
  if useHighPrecision (engine w) then performanceTime w else dateNow w.

(** The Boxing Day of a year: [new Date(year, 11, 26, 0, 0, 0, 0)]. *)
Definition boxingDay (tz year : Z) : JSDate := newDate tz year 11 26 0 0 0 0.

(** [setBoxingDay(year = null)]; a year that is [null] or 0 is falsy. *)
Definition setBoxingDay (year : option Z) (w : World) : World :=
  let now := currentDate w in
  let given := match year with Some y => negb (y =? 0) | None => false end in
  let targetYear0 :=
    match year with
    | Some y => if y =? 0 then getFullYear (tza (host w)) now else y
    | None => getFullYear (tza (host w)) now
    end in
  let target0 := boxingDay (tza (host w)) targetYear0 in
  if negb given && ngt (ofZ now) (getTime target0) then
    let targetYear1 := targetYear0 + 1 in
    withEngine (setTarget (boxingDay (tza (host w)) targetYear1)
                          (Some targetYear1) (engine w)) w
  else
    withEngine (setTarget target0 (Some targetYear0) (engine w)) w.

(** [setCustomDate(dateString, name = 'Custom Event')]; [targetYear] is
    left as it was. *)
Definition setCustomDate (dateString : string) (name : option string) (w : World)
  : World :=
  let n := match name with Some s => s | None => "Custom Event"%string end in
  withEngine
    (setEventName n
       (setTarget (dateParse (host w) dateString) (targetYear (engine w)) (engine w)))
    w.

(** [this.targetDate.getTime()], read once [targetDate] is set. *)
Definition targetTime (e : Engine) : Num :=
  match targetDate e with
  | Some d => getTime d
  | None => NaN
  end.

Definition completeRemaining : Remaining :=
  {| total := ofZ 0; months := ofZ 0; weeks := ofZ 0; days := ofZ 0;
     hours := ofZ 0; minutes := ofZ 0; seconds := ofZ 0; milliseconds := ofZ 0;
     totalDays := VUndefined; isComplete := true;
     progress := VNumber (ofZ 100) |}.

(** The year of [yearStart]: [this.targetYear || new Date().getFullYear()]. *)
Definition progressYear (w : World) : Z :=
  match targetYear (engine w) with
  | Some y => if y =? 0 then getFullYear (tza (host w)) (currentDate w) else y
  | None => getFullYear (tza (host w)) (currentDate w)
  end.

Definition calculateTimeRemaining (w : World) : Remaining * World :=
  let w :=
    match targetDate (engine w) with
    | None => setBoxingDay None w
    | Some _ => w
    end in
  let now := getHighPrecisionTime w in
  let target := targetTime (engine w) in
  let diff := nsub target now in
  if nle diff (ofZ 0) then (completeRemaining, w)
  else
    let seconds := nfloor (nrem (ndiv diff (ofZ 1000)) (ofZ 60)) in
    let minutes := nfloor (nrem (ndiv diff (ofZ (1000 * 60))) (ofZ 60)) in
    let hours := nfloor (nrem (ndiv diff (ofZ (1000 * 60 * 60))) (ofZ 24)) in
    let totalDays := nfloor (ndiv diff (ofZ (1000 * 60 * 60 * 24))) in
    let days := nrem totalDays (ofZ 7) in
    let weeks := nrem (nfloor (ndiv totalDays (ofZ 7))) (ofZ 4) in
    let months := nfloor (ndiv totalDays (ofZ 30)) in
    let milliseconds := nrem diff (ofZ 1000) in
    let yearStart := newDate (tza (host w)) (progressYear w) 0 1 0 0 0 0 in
    let totalYearDuration := nsub target (getTime yearStart) in
    let elapsed := nsub now (getTime yearStart) in
    let progress :=
      nmin (ofZ 100) (nmax (ofZ 0) (nmul (ndiv elapsed totalYearDuration) (ofZ 100))) in
    ({| total := diff; months := months; weeks := weeks; days := days;
        hours := hours; minutes := minutes; seconds := seconds;
        milliseconds := milliseconds; totalDays := VNumber totalDays;
        isComplete := false;
        progress := VString (toFixed2 (hostToString (host w)) progress) |}, w).

Definition stop (w : World) : World :=
  let w :=
    match intervalId (engine w) with
    | Some id =>
        let w := clearInterval id w in
        withEngine (setIntervalId None (engine w)) w
    | None => w
    end in
  match rafId (engine w) with
  | Some id =>
      let w := cancelAnimationFrame id w in
      withEngine (setRafId None (engine w)) w
  | None => w
  end.

(** [this.targetYear < this.yearRange.end]; false when [targetYear] is
    [undefined]. *)
Definition beforeRangeEnd (e : Engine) : bool :=
  match targetYear e with
  | Some y => y <? yr_end (yearRange e)
  | None => false
  end.

Definition update (w : World) : World :=
  let (remaining, w) := calculateTimeRemaining w in
  let w := emit (OnUpdate remaining) w in
  if isComplete remaining then
    let w := stop w in
    let w := emit OnComplete w in
    if beforeRangeEnd (engine w)
    then snd (setTimeout CbRollover (ofZ 5000) w)
    else w
  else w.

Definition rafLoop (w : World) : World :=
  let now := getHighPrecisionTime w in
  let w :=
    if nge (nsub now (lastUpdateTime (engine w))) (updateFrequency (engine w))
    then
      let w := update w in
      withEngine (setLastUpdateTime now (engine w)) w
    else w in
  let (id, w) := requestAnimationFrame CbRafLoop w in
  withEngine (setRafId (Some id) (engine w)) w.

Definition start (w : World) : World :=
  let w :=
    match intervalId (engine w) with
    | Some _ => stop w
    | None => w
    end in
  let w := update w in
  if hasRAF (host w) && nlt (updateFrequency (engine w)) (ofZ 100) then rafLoop w
  else
    let (id, w) := setInterval CbUpdate (updateFrequency (engine w)) w in
    withEngine (setIntervalId (Some id) (engine w)) w.

(** The closure given to [setTimeout] in [update]:
    [this.setBoxingDay(this.targetYear + 1); this.start()]. *)
Definition rollover (w : World) : World :=
  let year :=
    match targetYear (engine w) with
    | Some y => Some (y + 1)
    | None => None       (* undefined + 1 is NaN, which is falsy *)
    end in
  start (setBoxingDay year w).

Definition getBoxingDayDate (tz year : Z) : JSDate := newDate tz year 11 26 0 0 0 0.

(** An entry of [getAllBoxingDays]. *)
Record Occurrence : Type := {
  year : Z;
  date : JSDate;
  dayOfWeek : string;
  formatted : string
}.

Definition occurrence (tz y : Z) : Occurrence :=
  let d := getBoxingDayDate tz y in
  {| year := y; date := d; dayOfWeek := localeWeekday tz d;
     formatted := localeLongDate tz d |}.

(** [for (let year = start; year <= end; year++) dates.push(...)]. *)
Equations? forYears (tz y yend : Z) : list Occurrence
  by wf (Z.to_nat (yend + 1 - y)) lt :=
  forYears tz y yend with Z_le_gt_dec y yend => {
    | left _ => occurrence tz y :: forYears tz (y + 1) yend
    | right _ => []
  }.
Proof. lia. Qed.

Definition getAllBoxingDays (w : World) : list Occurrence * World :=
  (forYears (tza (host w)) (yr_start (yearRange (engine w)))
            (yr_end (yearRange (engine w))), w).




(** [`${n} unit${n !== 1 ? 's' : ''}`]. *)
Definition part (h : Host) (n : Num) (unit : string) : string :=
  (toString (hostToString h) n ++ " " ++ unit
     ++ (if strict_neq n (ofZ 1) then "s" else ""))%string.

Definition pushIf (c : bool) (s : string) (parts : list string) : list string :=
  if c then parts ++ [s] else parts.

Fixpoint join (sep : string) (parts : list string) : string :=
  match parts with
  | [] => ""
  | [s] => s
  | s :: rest => s ++ sep ++ join sep rest
  end%string.

Definition readable (h : Host) (r : Remaining) : string :=
  if isComplete r then "It's Boxing Day!"%string
  else
    let parts := [] in
    let parts := pushIf (ngt (months r) (ofZ 0)) (part h (months r) "month") parts in
    let parts := pushIf (ngt (weeks r) (ofZ 0)) (part h (weeks r) "week") parts in
    let parts := pushIf (ngt (days r) (ofZ 0)) (part h (days r) "day") parts in
    let parts := pushIf (ngt (hours r) (ofZ 0)) (part h (hours r) "hour") parts in
    let parts := pushIf (ngt (minutes r) (ofZ 0)) (part h (minutes r) "minute") parts in
    let parts := pushIf (ngt (seconds r) (ofZ 0)) (part h (seconds r) "second") parts in
    join ", " parts.

(** [getReadableTime(remaining = null)]. *)
Definition getReadableTime (remaining : option Remaining) (w : World)
  : string * World :=
  let (r, w) :=
    match remaining with
    | Some r => (r, w)
    | None => calculateTimeRemaining w
    end in
  (readable (host w) r, w).

End CountdownEngine.

Import CountdownEngine.

(* ------------------------------------------------------------------ *)
(** ** The event loop *)

Module EventLoop.

Definition runCallback (cb : Callback) (w : World) : World :=
  match cb with
  | CbUpdate => update w
  | CbRafLoop => rafLoop w
  | CbRollover => rollover w
  end.

(** The task that is due first; among tasks due together, the one
    scheduled first. *)
Fixpoint earliest (ts : list Task) : option Task :=
  match ts with
  | [] => None
  | t :: rest =>
      match earliest rest with
      | Some r => if Qlt_bool (due r) (due t) then Some r else Some t
      | None => Some t
      end
  end.

Definition sameTask (t u : Task) : bool := Pos.eqb (handle t) (handle u).

(** A timeout or a frame callback runs once; an interval is due again one
    period later. *)
Definition requeue (t : Task) (ts : list Task) : list Task :=
  match kind t with
  | Interval p =>
      map (fun u =>
             if sameTask t u
             then {| handle := handle u; kind := kind u; due := (due u + p)%Q;
                     callback := callback u |}
             else u) ts
  | _ => filter (fun u => negb (sameTask t u)) ts
  end.

Definition fire (t : Task) (w : World) : World :=
  let c := if Qle_bool (clock w) (due t) then due t else clock w in
  runCallback (callback t) (withClock c (withTasks (requeue t (tasks w)) w)).

(** One turn of the loop: run the first task due by [limit], if any. *)
Definition turn (limit : Q) (w : World) : option World :=
  match earliest (tasks w) with
  | Some t => if Qle_bool (due t) limit then Some (fire t w) else None
  | None => None
  end.

(** Let time pass until [limit], running at most [fuel] tasks. *)
Fixpoint runUntil (fuel : nat) (limit : Q) (w : World) : World :=
  match fuel with
  | O => w
  | S n =>
      match turn limit w with
      | Some w' => runUntil n limit w'
      | None => withClock (if Qle_bool (clock w) limit then limit else clock w) w
      end
  end.

Definition pendingOf (p : Task -> bool) (w : World) : list Task :=
  filter p (tasks w).

(** The engine's scheduling primitives that are alive: interval timers and
    frame callbacks whose callback ticks the engine. *)
Definition isTicker (t : Task) : bool :=
  match kind t, callback t with
  | Interval _, CbUpdate => true
  | AnimationFrame, CbRafLoop => true
  | _, _ => false
  end.

Definition isRollover (t : Task) : bool :=
  match kind t, callback t with
  | Timeout, CbRollover => true
  | _, _ => false
  end.

Definition activePrimitives (w : World) : list Task := pendingOf isTicker w.
Definition pendingRollovers (w : World) : list Task := pendingOf isRollover w.

(** Number of [onUpdate] calls the UI has received. *)
Definition tickCount (w : World) : nat :=
  List.length (filter (fun ev => match ev with OnUpdate _ => true | _ => false end)
                      (trace w)).

Definition completeCount (w : World) : nat :=
  List.length (filter (fun ev => match ev with OnComplete => true | _ => false end)
                      (trace w)).

End EventLoop.

Import EventLoop.

(* ------------------------------------------------------------------ *)
(** ** A concrete host *)

Module DemoHost.

Definition digitValue (c : ascii) : option Z :=
  let n := Z.of_nat (nat_of_ascii c) in
  if (48 <=? n) && (n <=? 57) then Some (n - 48) else None.

Fixpoint numeral (acc : Z) (s : string) : option Z :=
  match s with
  | EmptyString => Some acc
  | String c rest =>
      match digitValue c with
      | Some d => numeral (10 * acc + d) rest
      | None => None
      end
  end.

Definition field (s : string) (pos len : nat) : option Z :=
  let f := substring pos len s in
  if Nat.eqb (String.length f) len then numeral 0 f else None.

Definition charAt (s : string) (pos : nat) (c : ascii) : bool :=
  match String.get pos s with
  | Some d => Ascii.eqb c d
  | None => false
  end.

Definition daysInMonth (y m : Z) : Z :=
  monthStart m (leapDays y) - monthStart (m - 1) (leapDays y).

Definition bind {A B : Type} (o : option A) (k : A -> option B) : option B :=
  match o with
  | Some a => k a
  | None => None
  end.

Notation "x <- o ;; k" := (bind o (fun x => k))
  (at level 61, o at next level, right associativity).

Definition guard (b : bool) : option unit := if b then Some tt else None.

Definition isoDay (s : string) : option Z :=
  y <- field s 0 4 ;;
  _ <- guard (charAt s 4 "-") ;;
  m <- field s 5 2 ;;
  _ <- guard (charAt s 7 "-") ;;
  d <- field s 8 2 ;;
  _ <- guard ((1 <=? m) && (m <=? 12) && (1 <=? d) && (d <=? daysInMonth y m)) ;;
  Some (MakeDay y (m - 1) d).

Definition isoClock (s : string) (withSeconds : bool) : option Z :=
  _ <- guard (charAt s 10 "T") ;;
  hh <- field s 11 2 ;;
  _ <- guard (charAt s 13 ":") ;;
  mm <- field s 14 2 ;;
  ss <- (if withSeconds
         then (_ <- guard (charAt s 16 ":") ;; field s 17 2)
         else Some 0) ;;
  _ <- guard ((hh <=? 23) && (mm <=? 59) && (ss <=? 59)) ;;
  Some (MakeTime hh mm ss 0).

(** [new Date(string)] on the ISO forms every host reads alike:
    YYYY-MM-DD is midnight UTC, YYYY-MM-DDTHH:mm and YYYY-MM-DDTHH:mm:ss are
    local time.  Any other text is not a date for this host. *)
Definition isoParse (tz : Z) (s : string) : JSDate :=
  match String.length s with
  | 10%nat =>
      match isoDay s with
      | Some d => TimeClip (MakeDate d 0)
      | None => InvalidDate
      end
  | 16%nat =>
      match isoDay s, isoClock s false with
      | Some d, Some t => TimeClip (UTC tz (MakeDate d t))
      | _, _ => InvalidDate
      end
  | 19%nat =>
      match isoDay s, isoClock s true with
      | Some d, Some t => TimeClip (UTC tz (MakeDate d t))
      | _, _ => InvalidDate
      end
  | _ => InvalidDate
  end.

(** A browser with animation frames every 16 ms and a high-resolution
    clock, [tz] milliseconds east of UTC. *)
Definition browser (tz : Z) : Host :=
  {| tza := tz;
     dateParse := isoParse tz;
     hasRAF := true;
     hasPerformance := true;
     frameMs := 16;
     hostToString := fun _ => "?"%string;
     hostTimeZone := "UTC" |}.

(** A page that has just built its engine, with the clock at [now]. *)
Definition page (h : Host) (options : Options) (now : Q) : World :=
  {| host := h; clock := now; engine := constructor h options; tasks := [];
     nextHandle := 1%positive; trace := [] |}.

Definition defaults : Options :=
  {| opt_timezone := None; opt_updateFrequency := None |}.

Definition fast : Options :=
  {| opt_timezone := None; opt_updateFrequency := Some (ofZ 50) |}.

End DemoHost.

Import DemoHost.

(* ------------------------------------------------------------------ *)
(** ** The documented behaviour, in the words of the specification *)

(** The decomposition of a positive difference [diff] (milliseconds) as the
    specification words it: whole days, then days modulo 7, weeks modulo 4,
    months of 30 days, and the modulo chain of the clock fields. *)
Definition documentedDecomposition (diff : Q) (r : Remaining) : Prop :=
  let D := Qfloor (diff / inject_Z 86400000) in
  totalDays r = VNumber (ofZ D) /\
  days r = ofZ (D mod 7) /\
  weeks r = ofZ ((D / 7) mod 4) /\
  months r = ofZ (D / 30) /\
  milliseconds r = fin (diff - inject_Z (1000 * Qfloor (diff / inject_Z 1000))) /\
  seconds r = ofZ (Qfloor (diff / inject_Z 1000) mod 60) /\
  minutes r = ofZ (Qfloor (diff / inject_Z 60000) mod 60) /\
  hours r = ofZ (Qfloor (diff / inject_Z 3600000) mod 24).

(** Length of month [m] (0 = January) of year [y]. *)
Definition daysOfMonth (y m : Z) : Z :=
  monthStart (m + 1) (leapDays y) - monthStart m (leapDays y).

Definition isDigit (c : ascii) : bool :=
  let n := nat_of_ascii c in (Nat.leb 48 n && Nat.leb n 57)%bool.

Fixpoint allDigits (s : string) : bool :=
  match s with
  | EmptyString => true
  | String c rest => isDigit c && allDigits rest
  end.

(** One or more digits, a point, and exactly two digits. *)
Fixpoint fixedTwo (seen : bool) (s : string) : bool :=
  match s with
  | EmptyString => false
  | String c rest =>
      if isDigit c then fixedTwo true rest
      else if Ascii.eqb c "."
           then seen && match rest with
                        | String a (String b EmptyString) => isDigit a && isDigit b
                        | _ => false
                        end
           else false
  end.

(** What no tick, start or stop changes: the host, the clock, and every
    field of the engine but the two handles and [lastUpdateTime]. *)
Definition sameSetting (w w' : World) : Prop :=
  host w' = host w /\ clock w' = clock w /\
  targetDate (engine w') = targetDate (engine w) /\
  targetYear (engine w') = targetYear (engine w) /\
  eventName (engine w') = eventName (engine w) /\
  timezone (engine w') = timezone (engine w) /\
  updateFrequency (engine w') = updateFrequency (engine w) /\
  yearRange (engine w') = yearRange (engine w) /\
  useHighPrecision (engine w') = useHighPrecision (engine w).

(** The engine counts as running when it holds a timer or a frame handle. *)
Definition running (e : Engine) : Prop :=
  intervalId e <> None \/ rafId e <> None.

(** ** Scenarios on a browser in UTC *)

Module Scenario.

(** 2026-12-26T00:00:00 and 2026-11-26T00:00:00, in milliseconds. *)
Definition boxing2026 : Z := 1798243200000.
Definition nov26 : Z := 1795651200000.

(** A page counting down to Boxing Day 2026, one month ahead. *)
Definition monthAhead : World :=
  setBoxingDay None (page (browser 0) defaults (inject_Z nov26)).

(** The same page, 400.5 ms before the target. *)
Definition lastSecond : World :=
  withClock (inject_Z boxing2026 - (801 # 2))%Q monthAhead.

(** The page at the very instant of the target. *)
Definition atTarget : World :=
  setBoxingDay (Some 2026) (page (browser 0) defaults (inject_Z boxing2026)).

(** Started at the target: the tick completes and schedules the rollover. *)
Definition completed : World := start atTarget.

(** [stop()] half a second into the five-second window, then the window
    runs out. *)
Definition stoppedInWindow : World :=
  stop (runUntil 10 (inject_Z (boxing2026 + 500)) completed).
Definition afterWindow : World :=
  runUntil 10 (inject_Z (boxing2026 + 5000)) stoppedInWindow.

(** An engine with a 50 ms update frequency, started twice. *)
Definition fastPage : World :=
  setBoxingDay None (page (browser 0) fast (inject_Z nov26)).
Definition startedOnce : World := start fastPage.
Definition startedTwice : World := start (start fastPage).

(** A custom target set after the recurring one, reached at its instant
    (2026-06-01T00:00:00Z is 1780272000000). *)
Definition junePage : World :=
  setCustomDate "2026-06-01" (Some "Party"%string)
    (setBoxingDay (Some 2026) (page (browser 0) defaults (inject_Z 1780272000000))).
Definition juneCompleted : World := start junePage.
Definition juneLater : World :=
  runUntil 10 (inject_Z (1780272000000 + 5000)) juneCompleted.

(** A custom target on an engine that never had a recurring one. *)
Definition freshCustom : World :=
  setCustomDate "2026-06-01" None
    (page (browser 0) defaults (inject_Z 1780272000000)).

(** A custom date that is no date. *)
Definition garbage : World :=
  setCustomDate "not a date" None (page (browser 0) defaults (inject_Z nov26)).

(** A year beyond the range of [Date], then a custom target in 2030
    (2030-01-01T00:00:00Z is 1893456000000). *)
Definition farYear : World :=
  setCustomDate "2030-01-01" None
    (setBoxingDay (Some 300000) (page (browser 0) defaults (inject_Z nov26))).

(** The clock on 27 and on 25 December 2026, at noon. *)
Definition dec27 : World :=
  page (browser 0) defaults (inject_Z (boxing2026 + 86400000 + 43200000)).
Definition dec25 : World :=
  page (browser 0) defaults (inject_Z (boxing2026 - 43200000)).

End Scenario.

(** The state the error-handling section asks of an invalid target: not
    complete, and every unit field zero. *)
Definition zeroedIncomplete (r : Remaining) : Prop :=
  isComplete r = false /\ total r = ofZ 0 /\ months r = ofZ 0 /\ weeks r = ofZ 0 /\
  days r = ofZ 0 /\ hours r = ofZ 0 /\ minutes r = ofZ 0 /\ seconds r = ofZ 0 /\
  milliseconds r = ofZ 0.

(** The rollover did not fire between two states: the target year is the
    same and the engine is not running. *)
Definition rolloverSuppressed (before after : World) : Prop :=
  targetYear (engine after) = targetYear (engine before) /\
  targetDate (engine after) = targetDate (engine before) /\
  intervalId (engine after) = None /\ rafId (engine after) = None.

(** Whether [stop()] cancels a pending task: a timer under the handle in
    [intervalId], or a frame callback under the handle in [rafId]. *)
Definition holds (id : option positive) (t : Task) : bool :=
  match id with
  | Some i => Pos.eqb (handle t) i
  | None => false
  end.

Definition cancelledByStop (e : Engine) (t : Task) : bool :=
  (isTimer (kind t) && holds (intervalId e) t)
  || (isFrame (kind t) && holds (rafId e) t).

(** Every ticking task pending in the browser is the one the engine holds
    the handle of. *)
Definition tracked (w : World) : Prop :=
  forall t, In t (tasks w) -> isTicker t = true -> cancelledByStop (engine w) t = true.

(** The branch [start()] takes: the frame loop, or the interval timer. *)
Definition frameBranch (w : World) : bool :=
  hasRAF (host w) && nlt (updateFrequency (engine w)) (ofZ 100).

(** The test of [rafLoop]: at least [updateFrequency] has gone by since
    [lastUpdateTime]. *)
Definition rafDue (w : World) : bool :=
  nge (nsub (getHighPrecisionTime w) (lastUpdateTime (engine w)))
      (updateFrequency (engine w)).

(** The frame request [rafLoop] ends with. *)
Definition frameTask (w : World) : Task :=
  {| handle := nextHandle w; kind := AnimationFrame;
     due := (clock w + frameMs (host w))%Q; callback := CbRafLoop |}.

(** The timer [start] creates in the interval branch. *)
Definition intervalTask (w : World) : Task :=
  {| handle := nextHandle w;
     kind := Interval (timerDelay (updateFrequency (engine w)));
     due := (clock w + timerDelay (updateFrequency (engine w)))%Q;
     callback := CbUpdate |}.

(** Handles are handed out in increasing order: every pending task and
    every handle the engine holds is below the next handle, and the task
    under the engine's interval handle, if still pending, is a ticker. *)
Definition handlesFresh (w : World) : Prop :=
  (forall t, In t (tasks w) -> (handle t < nextHandle w)%positive) /\
  (forall i, intervalId (engine w) = Some i -> (i < nextHandle w)%positive) /\
  (forall i, rafId (engine w) = Some i -> (i < nextHandle w)%positive) /\
  (forall t, In t (tasks w) -> intervalId (engine w) = Some (handle t) ->
             isTicker t = true).

(** What can happen to a page: the UI calls a method of the engine, time
    passes, or the browser runs a pending callback. *)
Inductive step : World -> World -> Prop :=
| StepSetBoxingDay (y : option Z) (w : World) : step w (setBoxingDay y w)
| StepSetCustomDate (s : string) (n : option string) (w : World) :
    step w (setCustomDate s n w)
| StepCalculate (w : World) : step w (snd (calculateTimeRemaining w))
| StepReadable (r : option Remaining) (w : World) : step w (snd (getReadableTime r w))
| StepOccurrences (w : World) : step w (snd (getAllBoxingDays w))
| StepStart (w : World) : step w (start w)
| StepStop (w : World) : step w (stop w)
| StepTime (c : Q) (w : World) : (clock w <= c)%Q -> step w (withClock c w)
| StepFire (t : Task) (w : World) : In t (tasks w) -> step w (fire t w).

Inductive reachable : World -> Prop :=
| ReachPage (h : Host) (options : Options) (now : Q) : reachable (page h options now)
| ReachStep (w w' : World) : reachable w -> step w w' -> reachable w'.

(** The configuration of a page: what the constructor fixes. *)
Definition sameConfig (w w' : World) : Prop :=
  host w' = host w /\
  updateFrequency (engine w') = updateFrequency (engine w) /\
  yearRange (engine w') = yearRange (engine w) /\
  useHighPrecision (engine w') = useHighPrecision (engine w).

(** ** The year selector of js/app.js *)

Module App.

(** [array.findIndex(p)]: the first index at which [p] holds, or -1. *)
Fixpoint findIndexFrom {A : Type} (p : A -> bool) (l : list A) (i : Z) : Z :=
  match l with
  | [] => -1
  | a :: rest => if p a then i else findIndexFrom p rest (i + 1)
  end.

Definition findIndex {A : Type} (p : A -> bool) (l : list A) : Z :=
  findIndexFrom p l 0.

(** The year [showYearSelector] moves to:
    [years[(years.findIndex(y => y.year === this.currentYear) + 1) % years.length]].
    With no entries the index is NaN and reading [.year] throws: [None]. *)
Definition nextYear (currentYear : option Z) (years : list Occurrence) : option Z :=
  let currentIndex :=
    findIndex (fun y => match currentYear with
                        | Some c => year y =? c
                        | None => false
                        end) years in
  match years with
  | [] => None
  | _ => option_map year
           (nth_error years
              (Z.to_nat ((currentIndex + 1) mod Z.of_nat (List.length years))))
  end.

(** [showYearSelector], up to the calls that redraw the title and show the
    toast: the new [currentYear] and the engine after
    [stop(); setBoxingDay(currentYear); start()]. *)
Definition showYearSelector (currentYear : option Z) (w : World)
  : option (Z * World) :=
  let (years, w) := getAllBoxingDays w in
  match nextYear currentYear years with
  | Some y => Some (y, start (setBoxingDay (Some y) (stop w)))
  | None => None
  end.

End App.

(** The task [update] hands to [setTimeout] on completion. *)
Definition rolloverTask (w : World) : Task :=
  {| handle := nextHandle w; kind := Timeout; due := (clock w + inject_Z 5000)%Q;
     callback := CbRollover |}.

(** An entry of the year list is the Boxing Day of its year: its date is a
    valid date that reads, in local time, 26 December of that year at
    midnight, and its two labels name the weekday of that date. *)
Definition isBoxingDayOf (tz : Z) (o : Occurrence) : Prop :=
  exists t,
    date o = DateAt t /\
    getFullYear tz t = year o /\ getMonth tz t = 11 /\ getDate tz t = 26 /\
    TimeWithinDay (LocalTime tz t) = 0 /\
    dayOfWeek o = weekdayName (getDay tz t) /\
    formatted o
    = (weekdayName (getDay tz t) ++ ", December 26, " ++ decimal (year o))%string.

(* ------------------------------------------------------------------ *)
(** ** Facts about numbers *)

Lemma Qred_inject_Z (z : Z) : Qred (inject_Z z) = inject_Z z.
Proof.
  apply Qcanon.Qred_identity. simpl. apply Z.gcd_1_r.
Qed.

Lemma fin_ofZ (x : Q) (z : Z) : (x == inject_Z z)%Q -> fin x = ofZ z.
Proof.
  intros H. unfold fin, ofZ. f_equal.
  rewrite <- (Qred_inject_Z z). apply Qred_complete. exact H.
Qed.

Lemma Qfloor_unique (x : Q) (z : Z) :
  (inject_Z z <= x)%Q -> (x < inject_Z (z + 1))%Q -> Qfloor x = z.
Proof.
  intros Hlo Hhi.
  assert (z <= Qfloor x) by (rewrite <- (Qfloor_Z z); apply Qfloor_resp_le; exact Hlo).
  assert (Qfloor x < z + 1).
  { rewrite Zlt_Qlt. eapply Qle_lt_trans; [apply Qfloor_le | exact Hhi]. }
  lia.
Qed.

Lemma Qfloor_bounds (x : Q) : (inject_Z (Qfloor x) <= x < inject_Z (Qfloor x + 1))%Q.
Proof. split; [apply Qfloor_le | apply Qlt_floor]. Qed.

Lemma Qfloor_div_pos (a : Q) (k : Z) :
  0 < k -> Qfloor (a / inject_Z k) = Qfloor a / k.
Proof.
  intros Hk.
  assert (Hkq : (0 < inject_Z k)%Q) by (unfold Qlt; simpl; lia).
  destruct (Qfloor_bounds a) as [Hlo Hhi].
  set (n := Qfloor a) in *.
  pose proof (Z.div_mod n k ltac:(lia)) as Hdm.
  pose proof (Z.mod_pos_bound n k Hk) as Hr.
  apply Qfloor_unique.
  - apply Qle_shift_div_l; [exact Hkq|].
    eapply Qle_trans; [|exact Hlo].
    rewrite <- inject_Z_mult, <- Zle_Qle. lia.
  - apply Qlt_shift_div_r; [exact Hkq|].
    eapply Qlt_le_trans; [exact Hhi|].
    rewrite <- inject_Z_mult, <- Zle_Qle. lia.
Qed.

Lemma fin_compat (x y : Q) : (x == y)%Q -> fin x = fin y.
Proof. intros H. unfold fin. f_equal. apply Qred_complete, H. Qed.

Lemma Qtrunc_nonneg (x : Q) : (0 <= x)%Q -> Qtrunc x = Qfloor x.
Proof.
  intros H. unfold Qtrunc.
  apply Qle_bool_iff in H. rewrite H. reflexivity.
Qed.

Lemma inject_Z_pos (k : Z) : 0 < k -> (0 < inject_Z k)%Q.
Proof. intros H. unfold Qlt; simpl; lia. Qed.

Lemma Qis_zero_inject_Z (k : Z) : k <> 0 -> Qis_zero (inject_Z k) = false.
Proof.
  intros H. unfold Qis_zero.
  destruct (Qeq_bool (inject_Z k) 0) eqn:E; [|reflexivity].
  apply Qeq_bool_eq in E. unfold Qeq in E. simpl in E. lia.
Qed.

Lemma Qdiv_nonneg (a : Q) (k : Z) : (0 <= a)%Q -> 0 < k -> (0 <= a / inject_Z k)%Q.
Proof.
  intros Ha Hk. apply Qle_shift_div_l; [apply inject_Z_pos, Hk|].
  rewrite Qmult_0_l. exact Ha.
Qed.

Lemma nsub_fin (a b : Q) : nsub (Fin a) (Fin b) = fin (a - b).
Proof.
  unfold nsub, nneg, nadd, fin. f_equal. apply Qred_complete.
  rewrite Qred_correct. reflexivity.
Qed.

Lemma ndiv_fin (d : Q) (k : Z) : k <> 0 -> ndiv (Fin d) (ofZ k) = fin (d / inject_Z k).
Proof.
  intros Hk. unfold ndiv, ofZ. rewrite (Qis_zero_inject_Z k Hk). reflexivity.
Qed.

Lemma nfloor_fin (x : Q) : nfloor (fin x) = ofZ (Qfloor x).
Proof. unfold nfloor, fin. rewrite Qred_correct. reflexivity. Qed.

Lemma nrem_fin (a : Q) (k : Z) :
  (0 <= a)%Q -> 0 < k ->
  nrem (Fin a) (ofZ k) = fin (a - inject_Z (k * (Qfloor a / k))).
Proof.
  intros Ha Hk. unfold nrem, ofZ.
  rewrite (Qis_zero_inject_Z k) by lia.
  apply fin_compat.
  rewrite Qtrunc_nonneg by (apply Qdiv_nonneg; assumption).
  rewrite Qfloor_div_pos by exact Hk.
  rewrite inject_Z_mult. reflexivity.
Qed.

Lemma Qfloor_minus_Z (a : Q) (z : Z) : Qfloor (a - inject_Z z) = Qfloor a - z.
Proof.
  destruct (Qfloor_bounds a) as [Hlo Hhi].
  apply Qfloor_unique.
  - unfold Z.sub. rewrite inject_Z_plus, inject_Z_opp. lra.
  - replace (Qfloor a - z + 1) with (Qfloor a + 1 - z) by lia.
    unfold Z.sub at 1. rewrite inject_Z_plus, inject_Z_opp. lra.
Qed.

Lemma nfloor_nrem (a : Q) (k : Z) :
  (0 <= a)%Q -> 0 < k ->
  nfloor (nrem (Fin a) (ofZ k)) = ofZ (Qfloor a mod k).
Proof.
  intros Ha Hk. rewrite nrem_fin by assumption.
  rewrite nfloor_fin, Qfloor_minus_Z. f_equal.
  rewrite Z.mod_eq by lia. reflexivity.
Qed.

Lemma nrem_ofZ (n k : Z) : 0 <= n -> 0 < k -> nrem (ofZ n) (ofZ k) = ofZ (n mod k).
Proof.
  intros Hn Hk. change (ofZ n) with (Fin (inject_Z n)). rewrite nrem_fin; [|unfold Qle; simpl; lia|exact Hk].
  apply fin_ofZ. rewrite Qfloor_Z.
  unfold Qminus. rewrite <- inject_Z_opp, <- inject_Z_plus.
  rewrite Z.mod_eq by lia. reflexivity.
Qed.

Lemma nfloor_ndiv_ofZ (n k : Z) : 0 < k -> nfloor (ndiv (ofZ n) (ofZ k)) = ofZ (n / k).
Proof.
  intros Hk. change (ofZ n) with (Fin (inject_Z n)). rewrite ndiv_fin by lia.
  rewrite nfloor_fin. f_equal. symmetry. apply Zdiv_Qdiv.
Qed.


Lemma nle_fin_pos (d : Q) : (0 < d)%Q -> nle (fin d) (ofZ 0) = false.
Proof.
  intros H. unfold nle, fin, ofZ.
  destruct (Qle_bool (Qred d) (inject_Z 0)) eqn:E; [|reflexivity].
  apply Qle_bool_iff in E. rewrite Qred_correct in E.
  change (inject_Z 0) with 0%Q in E. lra.
Qed.

Lemma ndiv_fin_fin (d : Q) (k : Z) :
  k <> 0 -> ndiv (fin d) (ofZ k) = fin (d / inject_Z k).
Proof.
  intros Hk. unfold fin at 1. rewrite ndiv_fin by exact Hk.
  apply fin_compat. rewrite Qred_correct. reflexivity.
Qed.

Lemma nfloor_ndiv_fin (d : Q) (k : Z) :
  k <> 0 -> nfloor (ndiv (fin d) (ofZ k)) = ofZ (Qfloor (d / inject_Z k)).
Proof. intros Hk. rewrite ndiv_fin_fin by exact Hk. apply nfloor_fin. Qed.

Lemma nfloor_nrem_fin (x : Q) (m : Z) :
  (0 <= x)%Q -> 0 < m -> nfloor (nrem (fin x) (ofZ m)) = ofZ (Qfloor x mod m).
Proof.
  intros Hx Hm. unfold fin.
  rewrite nfloor_nrem; [|rewrite Qred_correct; exact Hx|exact Hm].
  rewrite Qred_correct. reflexivity.
Qed.

Lemma nrem_fin_fin (x : Q) (k : Z) :
  (0 <= x)%Q -> 0 < k ->
  nrem (fin x) (ofZ k) = fin (x - inject_Z (k * Qfloor (x / inject_Z k))).
Proof.
  intros Hx Hk. unfold fin at 1.
  rewrite nrem_fin; [|rewrite Qred_correct; exact Hx|exact Hk].
  apply fin_compat. rewrite <- Qfloor_div_pos by exact Hk.
  replace (Qfloor (Qred x / inject_Z k)) with (Qfloor (x / inject_Z k)).
  - apply Qplus_comp; [apply Qred_correct | reflexivity].
  - apply Qfloor_comp. apply Qdiv_comp; [symmetry; apply Qred_correct | reflexivity].
Qed.

Lemma decomposition_general (w : World) (T : Z) (c : Q) :
  targetDate (engine w) = Some (DateAt T) ->
  getHighPrecisionTime w = Fin c ->
  (c < inject_Z T)%Q ->
  let r := fst (calculateTimeRemaining w) in
  isComplete r = false /\ total r = fin (inject_Z T - c) /\
  documentedDecomposition (inject_Z T - c) r.
Proof.
  intros Ht Hn Hlt. unfold calculateTimeRemaining.
  rewrite Ht. cbv zeta. rewrite Hn. unfold targetTime. rewrite Ht.
  cbn [getTime]. change (ofZ T) with (Fin (inject_Z T)). rewrite nsub_fin.
  set (d := (inject_Z T - c)%Q).
  assert (Hd : (0 < d)%Q) by (unfold d; lra).
  rewrite (nle_fin_pos d Hd). cbn [fst isComplete total].
  split; [reflexivity|]. split; [reflexivity|].
  unfold documentedDecomposition.
  cbn [totalDays days weeks months milliseconds seconds minutes hours].
  assert (Hd0 : (0 <= d)%Q) by lra.
  assert (HD : 0 <= Qfloor (d / inject_Z 86400000)).
  { rewrite <- (Qfloor_Z 0). apply Qfloor_resp_le.
    apply Qdiv_nonneg; [lra | lia]. }
  change (1000 * 60 * 60 * 24) with 86400000.
  change (1000 * 60 * 60) with 3600000.
  change (1000 * 60) with 60000.
  rewrite (nfloor_ndiv_fin d 86400000) by discriminate.
  rewrite (ndiv_fin_fin d 1000), (ndiv_fin_fin d 60000), (ndiv_fin_fin d 3600000)
    by discriminate.
  repeat split.
  - apply nrem_ofZ; [exact HD | reflexivity].
  - rewrite nfloor_ndiv_ofZ by reflexivity.
    apply nrem_ofZ; [apply Z.div_pos; [exact HD | reflexivity] | reflexivity].
  - apply nfloor_ndiv_ofZ. reflexivity.
  - apply nrem_fin_fin; [exact Hd0 | reflexivity].
  - apply nfloor_nrem_fin; [apply Qdiv_nonneg; [exact Hd0 | reflexivity] | reflexivity].
  - apply nfloor_nrem_fin; [apply Qdiv_nonneg; [exact Hd0 | reflexivity] | reflexivity].
  - apply nfloor_nrem_fin; [apply Qdiv_nonneg; [exact Hd0 | reflexivity] | reflexivity].
Qed.

(* ------------------------------------------------------------------ *)
(** ** Facts about the calendar *)

Lemma DayFromYear_succ (y : Z) : DayFromYear (y + 1) = DayFromYear y + DaysInYear y.
Proof.
  unfold DayFromYear, DaysInYear.
  destruct (y mod 4 =? 0) eqn:E4; destruct (y mod 100 =? 0) eqn:E100;
    destruct (y mod 400 =? 0) eqn:E400; cbn [negb];
    rewrite ?Z.eqb_eq, ?Z.eqb_neq in *; Z.to_euclidean_division_equations; lia.
Qed.

Lemma DaysInYear_range (y : Z) : DaysInYear y = 365 \/ DaysInYear y = 366.
Proof.
  unfold DaysInYear.
  destruct (y mod 4 =? 0), (y mod 100 =? 0), (y mod 400 =? 0); cbn; auto.
Qed.

Lemma DayFromYear_lt (y1 y2 : Z) : y1 < y2 -> DayFromYear y1 < DayFromYear y2.
Proof. unfold DayFromYear. Z.to_euclidean_division_equations. lia. Qed.

Lemma YearFromTime_bounds (t : Z) :
  DayFromYear (YearFromTime t) <= Day t < DayFromYear (YearFromTime t + 1).
Proof.
  unfold YearFromTime. cbv zeta.
  set (d := Day t). set (y0 := 1970 + d * 400 / 146097).
  assert (H1 : DayFromYear (y0 - 1) <= d) by (unfold DayFromYear, y0; Z.to_euclidean_division_equations; lia).
  assert (H2 : d < DayFromYear (y0 + 2)) by (unfold DayFromYear, y0; Z.to_euclidean_division_equations; lia).
  destruct (DayFromYear (y0 + 1) <=? d) eqn:E1.
  - apply Z.leb_le in E1. replace (y0 + 1 + 1) with (y0 + 2) by lia. lia.
  - apply Z.leb_gt in E1. destruct (DayFromYear y0 <=? d) eqn:E0.
    + apply Z.leb_le in E0. lia.
    + apply Z.leb_gt in E0. replace (y0 - 1 + 1) with y0 by lia. lia.
Qed.

Lemma YearFromTime_unique (t y : Z) :
  DayFromYear y <= Day t < DayFromYear (y + 1) -> YearFromTime t = y.
Proof.
  intros H. pose proof (YearFromTime_bounds t) as B.
  destruct (Z.lt_trichotomy (YearFromTime t) y) as [L | [E | G]]; [|exact E|].
  - assert (DayFromYear (YearFromTime t + 1) <= DayFromYear y).
    { destruct (Z.eq_dec (YearFromTime t + 1) y) as [->|]; [lia|].
      apply Z.lt_le_incl, DayFromYear_lt. lia. }
    lia.
  - assert (DayFromYear (y + 1) <= DayFromYear (YearFromTime t)).
    { destruct (Z.eq_dec (y + 1) (YearFromTime t)) as [->|]; [lia|].
      apply Z.lt_le_incl, DayFromYear_lt. lia. }
    lia.
Qed.

Lemma leapDays_range (y : Z) : leapDays y = 0 \/ leapDays y = 1.
Proof. unfold leapDays. destruct (DaysInYear_range y); lia. Qed.

Lemma DayFromYear_next (y : Z) : DayFromYear (y + 1) = DayFromYear y + 365 + leapDays y.
Proof. rewrite DayFromYear_succ. unfold leapDays. lia. Qed.

Lemma Day_MakeDate (d tm : Z) : 0 <= tm < msPerDay -> Day (MakeDate d tm) = d.
Proof.
  intros H. unfold Day, MakeDate. symmetry.
  apply (Z.div_unique _ _ d tm); [left; exact H | ring].
Qed.

Lemma TimeWithinDay_MakeDate (d tm : Z) :
  0 <= tm < msPerDay -> TimeWithinDay (MakeDate d tm) = tm.
Proof.
  intros H. unfold TimeWithinDay, MakeDate. symmetry.
  apply (Z.mod_unique _ _ d tm); [left; exact H | ring].
Qed.


Lemma MakeDay_within (y m d : Z) :
  0 <= m <= 11 -> MakeDay y m d = DayFromYear y + monthStart m (leapDays y) + d - 1.
Proof.
  intros Hm. unfold MakeDay. cbv zeta.
  rewrite Z.div_small, Z.mod_small by lia.
  replace (y + 0) with y by lia. reflexivity.
Qed.

Lemma monthStart_cases (m l : Z) :
  0 <= m <= 11 -> l = 0 \/ l = 1 ->
  (m = 0 /\ monthStart m l = 0 /\ monthStart (m + 1) l = 31) \/
  (m = 1 /\ monthStart m l = 31 /\ monthStart (m + 1) l = 59 + l) \/
  (m = 2 /\ monthStart m l = 59 + l /\ monthStart (m + 1) l = 90 + l) \/
  (m = 3 /\ monthStart m l = 90 + l /\ monthStart (m + 1) l = 120 + l) \/
  (m = 4 /\ monthStart m l = 120 + l /\ monthStart (m + 1) l = 151 + l) \/
  (m = 5 /\ monthStart m l = 151 + l /\ monthStart (m + 1) l = 181 + l) \/
  (m = 6 /\ monthStart m l = 181 + l /\ monthStart (m + 1) l = 212 + l) \/
  (m = 7 /\ monthStart m l = 212 + l /\ monthStart (m + 1) l = 243 + l) \/
  (m = 8 /\ monthStart m l = 243 + l /\ monthStart (m + 1) l = 273 + l) \/
  (m = 9 /\ monthStart m l = 273 + l /\ monthStart (m + 1) l = 304 + l) \/
  (m = 10 /\ monthStart m l = 304 + l /\ monthStart (m + 1) l = 334 + l) \/
  (m = 11 /\ monthStart m l = 334 + l /\ monthStart (m + 1) l = 365 + l).
Proof.
  intros Hm Hl.
  assert (Hc : m = 0 \/ m = 1 \/ m = 2 \/ m = 3 \/ m = 4 \/ m = 5 \/ m = 6 \/
               m = 7 \/ m = 8 \/ m = 9 \/ m = 10 \/ m = 11) by lia.
  repeat (destruct Hc as [-> | Hc]); try subst m; tauto.
Qed.

Lemma calendar_roundtrip (y m d tm : Z) :
  0 <= m <= 11 -> 1 <= d <= daysOfMonth y m -> 0 <= tm < msPerDay ->
  let t := MakeDate (MakeDay y m d) tm in
  YearFromTime t = y /\ MonthFromTime t = m /\ DateFromTime t = d /\
  TimeWithinDay t = tm.
Proof.
  intros Hm Hd Htm t.
  assert (HDay : Day t = DayFromYear y + monthStart m (leapDays y) + d - 1).
  { unfold t. rewrite Day_MakeDate by exact Htm. apply MakeDay_within, Hm. }
  pose proof (leapDays_range y) as Hleap.
  pose proof (monthStart_cases m (leapDays y) Hm Hleap) as Hc.
  unfold daysOfMonth in Hd.
  assert (HY : YearFromTime t = y).
  { apply YearFromTime_unique. rewrite HDay, DayFromYear_next. lia. }
  assert (HW : DayWithinYear t = monthStart m (leapDays y) + d - 1).
  { unfold DayWithinYear. rewrite HY, HDay. lia. }
  assert (HM : MonthFromTime t = m).
  { unfold MonthFromTime, InLeapYear. cbv zeta. rewrite HW, HY.
    repeat match goal with
           | |- context [?a <? ?b] => destruct (Z.ltb_spec a b); try lia
           end. }
  repeat split; try assumption.
  - unfold DateFromTime, InLeapYear. rewrite HM, HW, HY. lia.
  - unfold t. apply TimeWithinDay_MakeDate, Htm.
Qed.

(* ------------------------------------------------------------------ *)
(** ** Facts about calculateTimeRemaining *)

Lemma documentedDecomposition_compat (d1 d2 : Q) (r : Remaining) :
  (d1 == d2)%Q -> documentedDecomposition d1 r -> documentedDecomposition d2 r.
Proof.
  intros E. unfold documentedDecomposition. cbv zeta.
  assert (F : forall k, Qfloor (d1 / inject_Z k) = Qfloor (d2 / inject_Z k)).
  { intros k. apply Qfloor_comp. apply Qdiv_comp; [exact E | reflexivity]. }
  rewrite !F.
  assert (M : fin (d1 - inject_Z (1000 * Qfloor (d2 / inject_Z 1000)))
              = fin (d2 - inject_Z (1000 * Qfloor (d2 / inject_Z 1000)))).
  { apply fin_compat. apply Qplus_comp; [exact E | reflexivity]. }
  rewrite M. tauto.
Qed.

Lemma TimeClip_valid (t : Z) : Z.abs t <= maxTime -> TimeClip t = DateAt t.
Proof. intros H. unfold TimeClip. apply Z.leb_le in H. rewrite H. reflexivity. Qed.

Lemma newDate_valid (tz y m d hh mi ss ms : Z) :
  ~ 0 <= y <= 99 ->
  Z.abs (MakeDate (MakeDay y m d) (MakeTime hh mi ss ms) - tz) <= maxTime ->
  newDate tz y m d hh mi ss ms
  = DateAt (MakeDate (MakeDay y m d) (MakeTime hh mi ss ms) - tz).
Proof.
  intros Hy H. unfold newDate.
  replace ((0 <=? y) && (y <=? 99)) with false
    by (symmetry; apply andb_false_iff; rewrite Z.leb_gt, Z.leb_gt; lia).
  apply TimeClip_valid. exact H.
Qed.

Lemma example_2026 (w : World) :
  Z.abs (tza (host w)) <= msPerDay ->
  targetDate (engine w) = Some (newDate (tza (host w)) 2026 11 26 0 0 0 0) ->
  getHighPrecisionTime w = getTime (newDate (tza (host w)) 2026 10 26 0 0 0 0) ->
  let r := fst (calculateTimeRemaining w) in
  totalDays r = VNumber (ofZ 30) /\ weeks r = ofZ 0 /\ days r = ofZ 2 /\
  months r = ofZ 1 /\ hours r = ofZ 0 /\ minutes r = ofZ 0 /\ seconds r = ofZ 0.
Proof.
  intros Htz Ht Hn.
  rewrite newDate_valid in Ht, Hn
    by (try (intros [? ?]; lia);
        match goal with |- Z.abs (?x - _) <= _ =>
          let v := eval vm_compute in x in change x with v end;
        unfold msPerDay, maxTime in *; lia).
  match type of Ht with context [DateAt (?x - _)] =>
    let v := eval vm_compute in x in change x with v in Ht end.
  match type of Hn with context [DateAt (?x - _)] =>
    let v := eval vm_compute in x in change x with v in Hn end.
  cbn [getTime] in Hn. unfold ofZ in Hn.
  destruct (decomposition_general w _ _ Ht Hn) as (_ & _ & D).
  { rewrite <- Zlt_Qlt. lia. }
  apply (documentedDecomposition_compat _ (inject_Z 2592000000)) in D.
  2:{ unfold Qminus. rewrite <- inject_Z_opp, <- inject_Z_plus.
      apply inject_Z_injective. lia. }
  destruct D as (D1 & D2 & D3 & D4 & _ & D6 & D7 & D8).
  cbv zeta. rewrite D1, D2, D3, D4, D6, D7, D8. repeat split; reflexivity.
Qed.

Lemma nle_fin_nonpos (d : Q) : (d <= 0)%Q -> nle (fin d) (ofZ 0) = true.
Proof.
  intros H. unfold nle, fin, ofZ. apply Qle_bool_iff.
  rewrite Qred_correct. exact H.
Qed.

Lemma complete_general (w : World) (T : Z) (c : Q) :
  targetDate (engine w) = Some (DateAt T) ->
  getHighPrecisionTime w = Fin c ->
  (inject_Z T <= c)%Q ->
  calculateTimeRemaining w = (completeRemaining, w).
Proof.
  intros Ht Hn Hle. unfold calculateTimeRemaining.
  rewrite Ht. cbv zeta. rewrite Hn. unfold targetTime. rewrite Ht.
  cbn [getTime]. change (ofZ T) with (Fin (inject_Z T)). rewrite nsub_fin.
  rewrite nle_fin_nonpos by lra. reflexivity.
Qed.

(* toFixed(2) on a clamped ratio *)

Lemma isDigit_digitChar (d : Z) : 0 <= d <= 9 -> isDigit (digitChar d) = true.
Proof.
  intros H. assert (C : d = 0 \/ d = 1 \/ d = 2 \/ d = 3 \/ d = 4 \/ d = 5 \/
                        d = 6 \/ d = 7 \/ d = 8 \/ d = 9) by lia.
  repeat (destruct C as [-> | C]); try subst d; reflexivity.
Qed.

Lemma allDigits_uint (d : Decimal.uint) : allDigits (NilEmpty.string_of_uint d) = true.
Proof. induction d; cbn; auto. Qed.

Lemma decimal_nonneg (z : Z) :
  0 <= z -> allDigits (decimal z) = true /\ decimal z <> EmptyString.
Proof.
  intros H. unfold decimal. destruct z as [|p|p]; [cbn; split; [reflexivity|discriminate] | | lia].
  cbn [Z.to_int NilZero.string_of_int].
  unfold NilZero.string_of_uint.
  pose proof (allDigits_uint (Pos.to_uint p)) as A.
  destruct (Pos.to_uint p) eqn:E; cbn in *; split; try reflexivity; try discriminate; exact A.
Qed.

Lemma fixedTwo_append (s : string) (a b : ascii) (seen : bool) :
  allDigits s = true -> (seen = true \/ s <> EmptyString) ->
  isDigit a = true -> isDigit b = true ->
  fixedTwo seen (s ++ String "." (String a (String b EmptyString))) = true.
Proof.
  revert seen. induction s as [|c s IH]; intros seen Hs Hne Ha Hb.
  - destruct Hne as [-> | Hne]; [|congruence].
    cbn. rewrite Ha, Hb. reflexivity.
  - cbn in Hs. apply andb_true_iff in Hs as [Hc Hs].
    cbn [append fixedTwo]. rewrite Hc. apply IH; auto.
Qed.

Lemma Qabs_nonneg_eq (q : Q) : (0 <= q)%Q -> Qabs q = q.
Proof.
  destruct q as [n d]. unfold Qle, Qabs. cbn. intros H.
  rewrite Z.abs_eq by lia. reflexivity.
Qed.

Lemma toFixed2_shape (h : Q -> string) (q : Q) :
  (0 <= q <= 100)%Q -> fixedTwo false (toFixed2 h (Fin q)) = true.
Proof.
  intros [Hlo Hhi]. unfold toFixed2.
  rewrite (Qabs_nonneg_eq q Hlo).
  assert (B : Qlt_bool q (inject_Z (10 ^ 21)) = true).
  { unfold Qlt_bool. apply negb_true_iff.
    destruct (Qle_bool (inject_Z (10 ^ 21)) q) eqn:E; [|reflexivity].
    apply Qle_bool_iff in E.
    assert (inject_Z 100 < inject_Z (10 ^ 21))%Q by (rewrite <- Zlt_Qlt; reflexivity).
    change (inject_Z 100) with 100%Q in *. lra. }
  rewrite B. cbv zeta.
  assert (S : Qsign_neg q = false).
  { unfold Qsign_neg, Qlt_bool. apply negb_false_iff. apply Qle_bool_iff. exact Hlo. }
  rewrite S. cbn [append].
  set (n := Qfloor (q * 100 + (1 # 2))).
  assert (Hn : 0 <= n <= 10000).
  { unfold n. split.
    - rewrite <- (Qfloor_Z 0). apply Qfloor_resp_le. change (inject_Z 0) with 0%Q. lra.
    - assert (Qfloor (q * 100 + (1 # 2)) < 10001); [|lia].
      rewrite Zlt_Qlt. eapply Qle_lt_trans; [apply Qfloor_le|].
      change (inject_Z 10001) with 10001%Q. lra. }
  destruct (decimal_nonneg (n / 100)) as [A N]; [apply Z.div_pos; lia|].
  unfold twoDigits.
  apply fixedTwo_append; auto.
  - apply isDigit_digitChar.
    pose proof (Z.mod_pos_bound n 100 ltac:(lia)).
    split; [apply Z.div_pos; lia |].
    assert (n mod 100 / 10 < 10) by (apply Z.div_lt_upper_bound; lia). lia.
  - apply isDigit_digitChar.
    pose proof (Z.mod_pos_bound (n mod 100) 10 ltac:(lia)). lia.
Qed.

Lemma Qlt_bool_true (x y : Q) : Qlt_bool x y = true <-> (x < y)%Q.
Proof.
  unfold Qlt_bool. rewrite negb_true_iff. split; intros H.
  - apply Qnot_le_lt. intros L. apply Qle_bool_iff in L. congruence.
  - destruct (Qle_bool y x) eqn:E; [|reflexivity].
    apply Qle_bool_iff in E. apply Qle_not_lt in E. contradiction.
Qed.

Lemma Qlt_bool_false (x y : Q) : Qlt_bool x y = false <-> (y <= x)%Q.
Proof.
  unfold Qlt_bool. rewrite negb_false_iff. apply Qle_bool_iff.
Qed.

Lemma clamp_range (X : Num) :
  X <> NaN ->
  exists q, nmin (ofZ 100) (nmax (ofZ 0) X) = Fin q /\ (0 <= q <= 100)%Q.
Proof.
  intros HX. destruct X as [x | | |]; [| | |congruence].
  - unfold nmax, ofZ, nlt.
    destruct (Qlt_bool (inject_Z 0) x) eqn:E0.
    + apply Qlt_bool_true in E0. unfold nmin, nlt.
      destruct (Qlt_bool x (inject_Z 100)) eqn:E1.
      * apply Qlt_bool_true in E1. exists x. split; [reflexivity|].
        change (inject_Z 0) with 0%Q in E0. change (inject_Z 100) with 100%Q in E1. lra.
      * exists (inject_Z 100). split; [reflexivity|]. split; discriminate.
    + exists (inject_Z 0). split; [reflexivity|]. split; discriminate.
  - exists (inject_Z 100). split; [reflexivity|]. split; discriminate.
  - exists (inject_Z 0). split; [reflexivity|]. split; discriminate.
Qed.

Lemma ratio_not_NaN (e t : Q) :
  ~ (e == 0 /\ t == 0)%Q -> nmul (ndiv (fin e) (fin t)) (ofZ 100) <> NaN.
Proof.
  intros H. unfold fin, ndiv.
  destruct (Qis_zero (Qred t)) eqn:Zt.
  - destruct (Qis_zero (Qred e)) eqn:Ze.
    + exfalso. apply H. unfold Qis_zero in *.
      apply Qeq_bool_eq in Zt, Ze. rewrite Qred_correct in Zt, Ze. auto.
    + destruct (Qsign_pos (Qred e)); cbn; discriminate.
  - cbn. discriminate.
Qed.

Lemma progress_general (w : World) (T : Z) (c : Q) :
  targetDate (engine w) = Some (DateAt T) ->
  getHighPrecisionTime w = Fin c ->
  (c < inject_Z T)%Q ->
  let start := getTime (newDate (tza (host w)) (progressYear w) 0 1 0 0 0 0) in
  progress (fst (calculateTimeRemaining w))
  = VString (toFixed2 (hostToString (host w))
               (nmin (ofZ 100)
                  (nmax (ofZ 0)
                     (nmul (ndiv (nsub (Fin c) start) (nsub (ofZ T) start)) (ofZ 100))))).
Proof.
  intros Ht Hn Hlt. unfold calculateTimeRemaining.
  rewrite Ht. cbv zeta. rewrite Hn. unfold targetTime. rewrite Ht.
  cbn [getTime]. change (ofZ T) with (Fin (inject_Z T)). rewrite nsub_fin.
  rewrite nle_fin_pos by lra. reflexivity.
Qed.

Lemma progress_valid (w : World) (T s0 : Z) (c : Q) :
  targetDate (engine w) = Some (DateAt T) ->
  getHighPrecisionTime w = Fin c ->
  (c < inject_Z T)%Q ->
  newDate (tza (host w)) (progressYear w) 0 1 0 0 0 0 = DateAt s0 ->
  exists q, (0 <= q <= 100)%Q /\
    progress (fst (calculateTimeRemaining w))
    = VString (toFixed2 (hostToString (host w)) (Fin q)).
Proof.
  intros Ht Hn Hlt Hs. rewrite (progress_general w T c Ht Hn Hlt). cbv zeta.
  rewrite Hs. cbn [getTime].
  change (ofZ s0) with (Fin (inject_Z s0)). change (ofZ T) with (Fin (inject_Z T)).
  rewrite !nsub_fin.
  destruct (clamp_range
              (nmul (ndiv (fin (c - inject_Z s0)) (fin (inject_Z T - inject_Z s0)))
                    (ofZ 100))) as (q & E & R).
  { apply ratio_not_NaN. intros [E1 E2]. lra. }
  exists q. split; [exact R|]. rewrite E. reflexivity.
Qed.

Lemma progress_invalid (w : World) (T : Z) (c : Q) :
  targetDate (engine w) = Some (DateAt T) ->
  getHighPrecisionTime w = Fin c ->
  (c < inject_Z T)%Q ->
  newDate (tza (host w)) (progressYear w) 0 1 0 0 0 0 = InvalidDate ->
  progress (fst (calculateTimeRemaining w)) = VString "NaN".
Proof.
  intros Ht Hn Hlt Hs. rewrite (progress_general w T c Ht Hn Hlt). cbv zeta.
  rewrite Hs. reflexivity.
Qed.

(* ------------------------------------------------------------------ *)
(** ** Facts about setBoxingDay *)

Lemma TimeClip_inv (t t' : Z) : TimeClip t = DateAt t' -> t' = t.
Proof. unfold TimeClip. destruct (Z.abs t <=? maxTime); congruence. Qed.

Lemma full_year (y : Z) : ~ 0 <= y <= 99 -> (0 <=? y) && (y <=? 99) = false.
Proof.
  intros H. destruct (Z.leb_spec 0 y), (Z.leb_spec y 99); try reflexivity. lia.
Qed.

Lemma newDate_local (tz y m d hh mi ss ms t : Z) :
  ~ 0 <= y <= 99 ->
  newDate tz y m d hh mi ss ms = DateAt t ->
  LocalTime tz t = MakeDate (MakeDay y m d) (MakeTime hh mi ss ms).
Proof.
  intros Hy H. unfold newDate in H.
  rewrite (full_year y Hy) in H.
  apply TimeClip_inv in H. subst t. unfold LocalTime, UTC. ring.
Qed.

Lemma daysOfMonth_december (y : Z) : daysOfMonth y 11 = 31.
Proof. unfold daysOfMonth. change (11 + 1) with 12. cbn [monthStart]. lia. Qed.

Lemma boxingDay_fields (tz y t : Z) :
  ~ 0 <= y <= 99 ->
  boxingDay tz y = DateAt t ->
  getFullYear tz t = y /\ getMonth tz t = 11 /\ getDate tz t = 26 /\
  TimeWithinDay (LocalTime tz t) = 0.
Proof.
  intros Hy H. unfold getFullYear, getMonth, getDate.
  rewrite (newDate_local _ _ _ _ _ _ _ _ _ Hy H).
  change (MakeTime 0 0 0 0) with 0.
  apply calendar_roundtrip; [lia | rewrite daysOfMonth_december; lia | unfold msPerDay; lia].
Qed.

(* where a local date falls relative to the Boxing Day of its year *)
Lemma december_day (L : Z) (d : Z) :
  MonthFromTime L = 11 -> DateFromTime L = d ->
  Day L = DayFromYear (YearFromTime L) + 334 + leapDays (YearFromTime L) + d - 1.
Proof.
  intros HM HD. unfold DateFromTime in HD. rewrite HM in HD.
  unfold InLeapYear in HD. cbn [monthStart] in HD.
  unfold DayWithinYear in HD. lia.
Qed.

Lemma Day_bounds (t : Z) : Day t * msPerDay <= t < (Day t + 1) * msPerDay.
Proof. unfold Day, msPerDay. Z.to_euclidean_division_equations. lia. Qed.

Lemma setBoxingDay_none (w : World) :
  let tz := tza (host w) in
  let now := currentDate w in
  let Y := getFullYear tz now in
  let e := engine (setBoxingDay None w) in
  (ngt (ofZ now) (getTime (boxingDay tz Y)) = false ->
   targetDate e = Some (boxingDay tz Y) /\ targetYear e = Some Y) /\
  (ngt (ofZ now) (getTime (boxingDay tz Y)) = true ->
   targetDate e = Some (boxingDay tz (Y + 1)) /\ targetYear e = Some (Y + 1)).
Proof.
  cbv zeta. unfold setBoxingDay. cbv zeta. cbn [negb andb].
  destruct (ngt (ofZ (currentDate w))
                (getTime (boxingDay (tza (host w))
                                    (getFullYear (tza (host w)) (currentDate w))))) eqn:E;
    cbn; split; intros; try discriminate; auto.
Qed.

Lemma ngt_ofZ (a b : Z) : ngt (ofZ a) (ofZ b) = (b <? a).
Proof.
  unfold ngt, nlt, ofZ.
  destruct (Z.ltb_spec b a) as [H | H].
  - apply Qlt_bool_true. rewrite <- Zlt_Qlt. exact H.
  - apply Qlt_bool_false. rewrite <- Zle_Qle. exact H.
Qed.

Lemma boxingDay_localDay (tz y t : Z) :
  ~ 0 <= y <= 99 -> boxingDay tz y = DateAt t ->
  t + tz = (DayFromYear y + 334 + leapDays y + 25) * msPerDay.
Proof.
  intros Hy H. pose proof (newDate_local _ _ _ _ _ _ _ _ _ Hy H) as L.
  unfold LocalTime in L. rewrite L. unfold MakeDate.
  rewrite MakeDay_within by lia. change (MakeTime 0 0 0 0) with 0.
  cbn [monthStart]. ring.
Qed.

Lemma setBoxingDay_default_general (w : World) (tY : Z) :
  let tz := tza (host w) in
  let now := currentDate w in
  let Y := getFullYear tz now in
  ~ 0 <= Y <= 99 ->
  boxingDay tz Y = DateAt tY ->
  let e := engine (setBoxingDay None w) in
  (getFullYear tz tY = Y /\ getMonth tz tY = 11 /\ getDate tz tY = 26 /\
   TimeWithinDay (LocalTime tz tY) = 0) /\
  (now <= tY -> targetDate e = Some (DateAt tY) /\ targetYear e = Some Y) /\
  (tY < now ->
   targetDate e = Some (boxingDay tz (Y + 1)) /\ targetYear e = Some (Y + 1)) /\
  (forall t1, Y <> -1 -> boxingDay tz (Y + 1) = DateAt t1 ->
     getFullYear tz t1 = Y + 1 /\ getMonth tz t1 = 11 /\ getDate tz t1 = 26 /\
     TimeWithinDay (LocalTime tz t1) = 0) /\
  (getMonth tz now = 11 -> getDate tz now = 27 -> targetYear e = Some (Y + 1)) /\
  (getMonth tz now = 11 -> getDate tz now = 25 -> targetYear e = Some Y).
Proof.
  intros tz now Y HY HB e.
  pose proof (setBoxingDay_none w) as S. cbv zeta in S.
  fold tz now Y e in S. rewrite HB in S. cbn [getTime] in S.
  rewrite ngt_ofZ in S. destruct S as [S1 S2].
  assert (P1 : now <= tY -> targetDate e = Some (DateAt tY) /\ targetYear e = Some Y).
  { intros H. apply S1. apply Z.ltb_ge. exact H. }
  assert (P2 : tY < now ->
               targetDate e = Some (boxingDay tz (Y + 1)) /\ targetYear e = Some (Y + 1)).
  { intros H. apply S2. apply Z.ltb_lt. exact H. }
  pose proof (boxingDay_localDay tz Y tY HY HB) as HL.
  pose proof (Day_bounds (LocalTime tz now)) as DB. unfold LocalTime in DB.
  split; [apply boxingDay_fields; assumption|].
  split; [exact P1|]. split; [exact P2|].
  split; [intros t1 Hm1 H1; apply boxingDay_fields; [lia | exact H1]|].
  split.
  - intros HM HD. apply P2.
    pose proof (december_day (LocalTime tz now) 27 HM HD) as D.
    change (YearFromTime (LocalTime tz now)) with Y in D. unfold LocalTime in D.
    unfold msPerDay in *. lia.
  - intros HM HD. apply P1.
    pose proof (december_day (LocalTime tz now) 25 HM HD) as D.
    change (YearFromTime (LocalTime tz now)) with Y in D. unfold LocalTime in D.
    unfold msPerDay in *. lia.
Qed.

(* ------------------------------------------------------------------ *)
(** ** Facts about getAllBoxingDays and getReadableTime *)

Lemma forYears_le (tz y yend : Z) :
  y <= yend -> forYears tz y yend = occurrence tz y :: forYears tz (y + 1) yend.
Proof.
  intros H. rewrite forYears_equation_1.
  destruct (Z_le_gt_dec y yend); [reflexivity | lia].
Qed.

Lemma forYears_gt (tz y yend : Z) : y > yend -> forYears tz y yend = [].
Proof.
  intros H. rewrite forYears_equation_1.
  destruct (Z_le_gt_dec y yend); [lia | reflexivity].
Qed.

Lemma forYears_ind (tz yend : Z) (P : Z -> list Occurrence -> Prop) :
  (forall y, y > yend -> P y []) ->
  (forall y, y <= yend -> P (y + 1) (forYears tz (y + 1) yend) ->
             P y (occurrence tz y :: forYears tz (y + 1) yend)) ->
  forall y, P y (forYears tz y yend).
Proof.
  intros Hnil Hcons y.
  remember (Z.to_nat (yend + 1 - y)) as n eqn:En. revert y En.
  induction n as [|n IH]; intros y En.
  - rewrite forYears_gt by lia. apply Hnil. lia.
  - rewrite forYears_le by lia. apply Hcons; [lia|]. apply IH. lia.
Qed.

Lemma forYears_length (tz y yend : Z) :
  List.length (forYears tz y yend) = Z.to_nat (yend + 1 - y).
Proof.
  apply (forYears_ind tz yend
           (fun y l => List.length l = Z.to_nat (yend + 1 - y))).
  - intros. cbn. lia.
  - intros y0 H IH. cbn [List.length]. rewrite IH. lia.
Qed.

Lemma forYears_In (tz y yend : Z) (o : Occurrence) :
  In o (forYears tz y yend) <-> (y <= year o <= yend /\ o = occurrence tz (year o)).
Proof.
  apply (forYears_ind tz yend
           (fun y l => In o l <-> (y <= year o <= yend /\ o = occurrence tz (year o)))).
  - intros y0 H. cbn. split; [tauto | lia].
  - intros y0 H IH. cbn [In]. rewrite IH. split.
    + intros [E | [R E]].
      * subst o. cbn. split; [lia | reflexivity].
      * split; [lia | exact E].
    + intros [R E]. destruct (Z.eq_dec (year o) y0) as [Ey | Ny].
      * left. rewrite E, Ey. reflexivity.
      * right. split; [lia | exact E].
Qed.

Lemma forYears_sorted (tz y yend : Z) :
  StronglySorted Z.lt (map year (forYears tz y yend)).
Proof.
  apply (forYears_ind tz yend (fun _ l => StronglySorted Z.lt (map year l))).
  - intros. constructor.
  - intros y0 H IH. cbn [map]. constructor; [exact IH|].
    apply Forall_forall. intros z Hz. apply in_map_iff in Hz as (o & <- & Ho).
    apply forYears_In in Ho. cbn. lia.
Qed.

Lemma sorted_NoDup (l : list Z) : StronglySorted Z.lt l -> NoDup l.
Proof.
  induction 1 as [|a l S IH F]; constructor; [|exact IH].
  intros Hin. rewrite Forall_forall in F. specialize (F a Hin). lia.
Qed.

Lemma readable_complete (h : Host) (r : Remaining) :
  isComplete r = true -> readable h r = "It's Boxing Day!"%string.
Proof. intros H. unfold readable. rewrite H. reflexivity. Qed.

Lemma readable_all_zero (h : Host) (r : Remaining) :
  isComplete r = false ->
  months r = ofZ 0 -> weeks r = ofZ 0 -> days r = ofZ 0 ->
  hours r = ofZ 0 -> minutes r = ofZ 0 -> seconds r = ofZ 0 ->
  readable h r = EmptyString.
Proof.
  intros Hc Hmo Hw Hd Hh Hmi Hs. unfold readable.
  rewrite Hc, Hmo, Hw, Hd, Hh, Hmi, Hs. reflexivity.
Qed.

Lemma Qfloor_small (d : Q) (k : Z) :
  (0 <= d)%Q -> (d < inject_Z k)%Q -> Qfloor (d / inject_Z k) = 0.
Proof.
  intros H0 H1.
  assert (Hk : (0 < inject_Z k)%Q) by (eapply Qle_lt_trans; eauto).
  apply Qfloor_unique.
  - apply Qle_shift_div_l; [exact Hk|]. change (inject_Z 0) with 0%Q. lra.
  - apply Qlt_shift_div_r; [exact Hk|]. change (inject_Z (0 + 1)) with 1%Q. lra.
Qed.

Lemma subsecond_fields (w : World) (T : Z) (c : Q) :
  targetDate (engine w) = Some (DateAt T) ->
  getHighPrecisionTime w = Fin c ->
  (c < inject_Z T)%Q -> (inject_Z T - c < 1000)%Q ->
  let r := fst (calculateTimeRemaining w) in
  isComplete r = false /\
  months r = ofZ 0 /\ weeks r = ofZ 0 /\ days r = ofZ 0 /\
  hours r = ofZ 0 /\ minutes r = ofZ 0 /\ seconds r = ofZ 0.
Proof.
  intros Ht Hn Hlt Hsub.
  destruct (decomposition_general w T c Ht Hn Hlt) as (Hc & _ & D).
  destruct D as (_ & D2 & D3 & D4 & _ & D6 & D7 & D8).
  set (d := (inject_Z T - c)%Q) in *.
  assert (F : forall k, 1000 <= k -> Qfloor (d / inject_Z k) = 0).
  { intros k Hk. apply Qfloor_small; [unfold d; lra|].
    eapply Qlt_le_trans; [exact Hsub|].
    change 1000%Q with (inject_Z 1000). rewrite <- Zle_Qle. exact Hk. }
  rewrite !F in * by lia.
  cbv zeta. rewrite Hc, D2, D3, D4, D6, D7, D8. repeat split; reflexivity.
Qed.

Lemma DayFromYear_bound (y : Z) :
  -200000 <= y <= 200000 -> -74000000 <= DayFromYear y <= 74000000.
Proof. intros H. unfold DayFromYear. Z.to_euclidean_division_equations. lia. Qed.

Lemma getBoxingDayDate_valid (tz y : Z) :
  ~ 0 <= y <= 99 -> -200000 <= y <= 200000 -> Z.abs tz <= msPerDay ->
  exists t,
    getBoxingDayDate tz y = DateAt t /\
    getFullYear tz t = y /\ getMonth tz t = 11 /\ getDate tz t = 26 /\
    TimeWithinDay (LocalTime tz t) = 0.
Proof.
  intros Hy Hr Htz.
  assert (V : getBoxingDayDate tz y
              = DateAt (MakeDate (MakeDay y 11 26) (MakeTime 0 0 0 0) - tz)).
  { unfold getBoxingDayDate. apply newDate_valid; [exact Hy|].
    unfold MakeDate. rewrite MakeDay_within by lia. change (MakeTime 0 0 0 0) with 0.
    cbn [monthStart].
    pose proof (DayFromYear_bound y Hr) as B.
    pose proof (leapDays_range y) as L.
    unfold msPerDay, maxTime in *. lia. }
  eexists. split; [exact V|].
  apply boxingDay_fields; [exact Hy | exact V].
Qed.

Lemma occurrence_labels (tz y t : Z) :
  getBoxingDayDate tz y = DateAt t ->
  getFullYear tz t = y -> getMonth tz t = 11 -> getDate tz t = 26 ->
  dayOfWeek (occurrence tz y) = weekdayName (getDay tz t) /\
  formatted (occurrence tz y)
  = (weekdayName (getDay tz t) ++ ", December 26, " ++ decimal y)%string.
Proof.
  intros V Fy Fm Fd. unfold occurrence. cbv zeta. cbn [dayOfWeek formatted].
  rewrite V. unfold localeWeekday, localeLongDate. rewrite Fy, Fm, Fd.
  split; [reflexivity|].
  change (monthName 11) with "December"%string.
  change (decimal 26) with "26"%string.
  generalize (weekdayName (getDay tz t)). intros s.
  induction s as [|c s IH]; cbn [append]; [reflexivity | congruence].
Qed.

Lemma getReadableTime_none (w : World) :
  getReadableTime None w
  = getReadableTime (Some (fst (calculateTimeRemaining w)))
                    (snd (calculateTimeRemaining w)).
Proof.
  unfold getReadableTime. destruct (calculateTimeRemaining w) as [r w1]. reflexivity.
Qed.

Lemma getReadableTime_reached (w : World) (T : Z) (c : Q) :
  targetDate (engine w) = Some (DateAt T) ->
  getHighPrecisionTime w = Fin c ->
  (inject_Z T <= c)%Q ->
  getReadableTime None w = ("It's Boxing Day!"%string, w).
Proof.
  intros Ht Hn Hle. unfold getReadableTime.
  rewrite (complete_general w T c Ht Hn Hle). reflexivity.
Qed.

Lemma occurrence_isBoxingDay (tz y : Z) :
  ~ 0 <= y <= 99 -> -200000 <= y <= 200000 -> Z.abs tz <= msPerDay ->
  isBoxingDayOf tz (occurrence tz y).
Proof.
  intros Hy Hr Htz.
  destruct (getBoxingDayDate_valid tz y Hy Hr Htz) as (t & V & Fy & Fm & Fd & Ft).
  destruct (occurrence_labels tz y t V Fy Fm Fd) as [L1 L2].
  exists t. cbn [date year occurrence].
  split; [exact V|]. split; [exact Fy|]. split; [exact Fm|]. split; [exact Fd|].
  split; [exact Ft|]. split; [exact L1 | exact L2].
Qed.

(* ------------------------------------------------------------------ *)
(** ** Facts about the tick cycle *)

Lemma sameSetting_refl (w : World) : sameSetting w w.
Proof. unfold sameSetting. tauto. Qed.

Lemma sameSetting_trans (a b c : World) :
  sameSetting a b -> sameSetting b c -> sameSetting a c.
Proof.
  unfold sameSetting. intros H1 H2.
  decompose [and] H1. decompose [and] H2. repeat split; congruence.
Qed.

Lemma stop_sameSetting (w : World) : sameSetting w (stop w).
Proof.
  unfold stop, sameSetting.
  destruct (intervalId (engine w)); cbn;
    match goal with |- context [match ?x with _ => _ end] => destruct x end;
    cbn; tauto.
Qed.

Lemma calculate_unchanged (w : World) (d : JSDate) :
  targetDate (engine w) = Some d -> snd (calculateTimeRemaining w) = w.
Proof.
  intros H. unfold calculateTimeRemaining. rewrite H. cbv zeta.
  destruct (nle _ _); reflexivity.
Qed.

Lemma setBoxingDay_target (y : option Z) (w : World) :
  exists d y', targetDate (engine (setBoxingDay y w)) = Some d /\
               targetYear (engine (setBoxingDay y w)) = Some y'.
Proof.
  unfold setBoxingDay. cbv zeta.
  match goal with |- context [if ?c then _ else _] => destruct c end;
    cbn; eauto.
Qed.

Lemma setBoxingDay_frame (y : option Z) (w : World) :
  host (setBoxingDay y w) = host w /\ clock (setBoxingDay y w) = clock w /\
  tasks (setBoxingDay y w) = tasks w /\ nextHandle (setBoxingDay y w) = nextHandle w /\
  trace (setBoxingDay y w) = trace w /\
  intervalId (engine (setBoxingDay y w)) = intervalId (engine w) /\
  rafId (engine (setBoxingDay y w)) = rafId (engine w) /\
  updateFrequency (engine (setBoxingDay y w)) = updateFrequency (engine w) /\
  yearRange (engine (setBoxingDay y w)) = yearRange (engine w) /\
  useHighPrecision (engine (setBoxingDay y w)) = useHighPrecision (engine w) /\
  lastUpdateTime (engine (setBoxingDay y w)) = lastUpdateTime (engine w).
Proof.
  unfold setBoxingDay. cbv zeta.
  match goal with |- context [if ?c then _ else _] => destruct c end;
    cbn; tauto.
Qed.

Lemma setBoxingDay_given (y : Z) (w : World) :
  y <> 0 ->
  targetDate (engine (setBoxingDay (Some y) w)) = Some (boxingDay (tza (host w)) y) /\
  targetYear (engine (setBoxingDay (Some y) w)) = Some y.
Proof.
  intros H. unfold setBoxingDay. cbv zeta.
  apply Z.eqb_neq in H. rewrite H. cbn. tauto.
Qed.

Lemma update_unfold (w : World) (d : JSDate) :
  targetDate (engine w) = Some d ->
  update w =
  let r := fst (calculateTimeRemaining w) in
  let w2 := emit (OnUpdate r) w in
  if isComplete r then
    let w4 := emit OnComplete (stop w2) in
    if beforeRangeEnd (engine w4)
    then snd (setTimeout CbRollover (ofZ 5000) w4)
    else w4
  else w2.
Proof.
  intros H. unfold update.
  pose proof (calculate_unchanged w d H) as E.
  destruct (calculateTimeRemaining w) as [r w1]. cbn in E. subst w1. reflexivity.
Qed.

Lemma emit_sameSetting (ev : Event) (w : World) : sameSetting w (emit ev w).
Proof. unfold sameSetting. cbn. tauto. Qed.

Lemma schedule_sameSetting (k : TaskKind) (q : Q) (cb : Callback) (w : World) :
  sameSetting w (snd (schedule k q cb w)).
Proof. unfold sameSetting. cbn. tauto. Qed.

Lemma update_sameSetting (w : World) (d : JSDate) :
  targetDate (engine w) = Some d -> sameSetting w (update w).
Proof.
  intros H. rewrite (update_unfold w d H). cbv zeta.
  set (r := fst (calculateTimeRemaining w)).
  destruct (isComplete r).
  - assert (S : sameSetting w (emit OnComplete (stop (emit (OnUpdate r) w)))).
    { eapply sameSetting_trans; [apply emit_sameSetting|].
      eapply sameSetting_trans; [apply stop_sameSetting|]. apply emit_sameSetting. }
    destruct (beforeRangeEnd _); [|exact S].
    eapply sameSetting_trans; [exact S|]. apply schedule_sameSetting.
  - apply emit_sameSetting.
Qed.

Lemma withEngine_handles_sameSetting (w : World) (e : Engine) :
  targetDate e = targetDate (engine w) -> targetYear e = targetYear (engine w) ->
  eventName e = eventName (engine w) -> timezone e = timezone (engine w) ->
  updateFrequency e = updateFrequency (engine w) ->
  yearRange e = yearRange (engine w) ->
  useHighPrecision e = useHighPrecision (engine w) ->
  sameSetting w (withEngine e w).
Proof. unfold sameSetting. cbn. tauto. Qed.

Lemma rafLoop_sameSetting (w : World) (d : JSDate) :
  targetDate (engine w) = Some d -> sameSetting w (rafLoop w).
Proof.
  intros H. unfold rafLoop. cbv zeta.
  set (w1 := if nge _ _ then _ else w).
  assert (S1 : sameSetting w w1).
  { unfold w1. destruct (nge _ _); [|apply sameSetting_refl].
    eapply sameSetting_trans; [apply (update_sameSetting w d H)|].
    apply withEngine_handles_sameSetting; reflexivity. }
  unfold requestAnimationFrame, schedule. cbn.
  eapply sameSetting_trans; [exact S1|].
  unfold sameSetting. cbn. tauto.
Qed.

Lemma start_sameSetting (w : World) (d : JSDate) :
  targetDate (engine w) = Some d -> sameSetting w (start w).
Proof.
  intros H. unfold start. cbv zeta.
  set (w1 := match intervalId (engine w) with Some _ => stop w | None => w end).
  assert (S1 : sameSetting w w1).
  { unfold w1. destruct (intervalId (engine w)); [apply stop_sameSetting | apply sameSetting_refl]. }
  assert (H1 : targetDate (engine w1) = Some d).
  { destruct S1 as (_ & _ & E & _). congruence. }
  pose proof (update_sameSetting w1 d H1) as S2.
  assert (H2 : targetDate (engine (update w1)) = Some d).
  { destruct S2 as (_ & _ & E & _). congruence. }
  destruct (hasRAF _ && nlt _ _).
  - eapply sameSetting_trans; [exact S1|].
    eapply sameSetting_trans; [exact S2|]. apply rafLoop_sameSetting with d. exact H2.
  - unfold setInterval, schedule. cbn.
    eapply sameSetting_trans; [exact S1|].
    eapply sameSetting_trans; [exact S2|].
    unfold sameSetting. cbn. tauto.
Qed.

Lemma start_running (w : World) : running (engine (start w)).
Proof.
  unfold start, running. cbv zeta.
  destruct (hasRAF _ && nlt _ _).
  - right. unfold rafLoop. cbv zeta. cbn. discriminate.
  - left. cbn. discriminate.
Qed.


Lemma stop_tasks_incl (w : World) : incl (tasks (stop w)) (tasks w).
Proof.
  intros t. unfold stop.
  destruct (intervalId (engine w)) as [i|]; cbn;
    match goal with |- context [match ?x with _ => _ end] => destruct x end;
    cbn; rewrite ?filter_In; tauto.
Qed.

Lemma stop_frame (w : World) :
  host (stop w) = host w /\ clock (stop w) = clock w /\
  nextHandle (stop w) = nextHandle w /\ trace (stop w) = trace w /\
  intervalId (engine (stop w)) = None /\ rafId (engine (stop w)) = None /\
  lastUpdateTime (engine (stop w)) = lastUpdateTime (engine w).
Proof.
  unfold stop.
  destruct (intervalId (engine w)) as [i|] eqn:Ei; cbn;
    destruct (rafId (engine w)) as [r|] eqn:Er; cbn; tauto.
Qed.

Lemma stop_keeps_timeout (w : World) (t : Task) :
  In t (tasks w) -> kind t = Timeout ->
  intervalId (engine w) <> Some (handle t) ->
  In t (tasks (stop w)).
Proof.
  intros Hin Hk Hid. unfold stop.
  assert (F : forall id, isFrame (kind t) && Pos.eqb (handle t) id = false)
    by (intros; rewrite Hk; reflexivity).
  destruct (intervalId (engine w)) as [i|]; cbn.
  - assert (Hi : isTimer (kind t) && Pos.eqb (handle t) i = false).
    { rewrite Hk. cbn. apply Pos.eqb_neq. congruence. }
    destruct (rafId (engine w)); cbn; rewrite ?filter_In, ?Hi, ?F; auto.
  - destruct (rafId (engine w)); cbn; rewrite ?filter_In, ?F; auto.
Qed.

Lemma stop_emit (ev : Event) (w : World) : stop (emit ev w) = emit ev (stop w).
Proof.
  unfold stop. cbn.
  destruct (intervalId (engine w)); cbn; destruct (rafId (engine w)); reflexivity.
Qed.

Lemma isRollover_inv (t : Task) :
  isRollover t = true -> kind t = Timeout /\ callback t = CbRollover.
Proof.
  unfold isRollover. destruct (kind t), (callback t); try discriminate; auto.
Qed.

Lemma beforeRangeEnd_sameSetting (w w' : World) :
  sameSetting w w' -> beforeRangeEnd (engine w') = beforeRangeEnd (engine w).
Proof.
  intros (_ & _ & _ & Hy & _ & _ & _ & Hr & _). unfold beforeRangeEnd.
  rewrite Hy, Hr. reflexivity.
Qed.

Lemma update_quiet (w : World) (d : JSDate) :
  targetDate (engine w) = Some d ->
  beforeRangeEnd (engine w) = false ->
  nextHandle (update w) = nextHandle w /\ incl (tasks (update w)) (tasks w).
Proof.
  intros H B. rewrite (update_unfold w d H). cbv zeta.
  set (r := fst (calculateTimeRemaining w)).
  destruct (isComplete r); [|cbn; split; [reflexivity | apply incl_refl]].
  rewrite stop_emit.
  replace (beforeRangeEnd (engine (emit OnComplete (emit (OnUpdate r) (stop w)))))
    with false
    by (symmetry; rewrite <- B; apply beforeRangeEnd_sameSetting;
        cbn; apply stop_sameSetting).
  cbn. split; [apply stop_frame | apply stop_tasks_incl].
Qed.

Lemma update_schedules (w : World) (d : JSDate) :
  targetDate (engine w) = Some d ->
  beforeRangeEnd (engine w) = true ->
  isComplete (fst (calculateTimeRemaining w)) = true ->
  tasks (update w) = tasks (stop w) ++ [rolloverTask w] /\
  engine (update w) = engine (stop w).
Proof.
  intros H B C. rewrite (update_unfold w d H). cbv zeta. rewrite C.
  rewrite stop_emit.
  replace (beforeRangeEnd
             (engine (emit OnComplete
                        (emit (OnUpdate (fst (calculateTimeRemaining w))) (stop w)))))
    with true
    by (symmetry; rewrite <- B; apply beforeRangeEnd_sameSetting;
        cbn; apply stop_sameSetting).
  unfold setTimeout, schedule, rolloverTask. cbn.
  destruct (stop_frame w) as (_ & Hc & Hn & _). rewrite Hc, Hn.
  split; reflexivity.
Qed.

Lemma rollover_result (w : World) (y : Z) :
  targetYear (engine w) = Some y -> y <> -1 ->
  let w' := rollover w in
  targetYear (engine w') = Some (y + 1) /\
  targetDate (engine w') = Some (boxingDay (tza (host w)) (y + 1)) /\
  running (engine w').
Proof.
  intros Hy Hne. unfold rollover. rewrite Hy. cbv zeta.
  destruct (setBoxingDay_given (y + 1) w ltac:(lia)) as [Hd Hyr].
  pose proof (start_sameSetting _ _ Hd) as (_ & _ & Ed & Ey & _).
  split; [congruence|]. split; [congruence|]. apply start_running.
Qed.

Lemma stop_then_rollover (w : World) (t : Task) (y : Z) :
  In t (tasks w) -> isRollover t = true ->
  intervalId (engine w) <> Some (handle t) ->
  targetYear (engine w) = Some y -> y <> -1 ->
  In t (tasks (stop w)) /\
  let w' := fire t (stop w) in
  targetYear (engine w') = Some (y + 1) /\
  targetDate (engine w') = Some (boxingDay (tza (host w)) (y + 1)) /\
  running (engine w').
Proof.
  intros Hin Hr Hid Hy Hne.
  destruct (isRollover_inv t Hr) as [Hk Hcb].
  split; [apply stop_keeps_timeout; assumption|].
  unfold fire. rewrite Hcb. cbn [runCallback].
  destruct (stop_sameSetting w) as (Hh & _ & _ & Ey & _).
  set (w1 := withClock _ _).
  assert (E1 : targetYear (engine w1) = Some y) by (unfold w1; cbn; congruence).
  assert (E2 : host w1 = host w) by (unfold w1; cbn; congruence).
  rewrite <- E2. apply rollover_result; assumption.
Qed.

(* ------------------------------------------------------------------ *)
(** ** Facts about custom targets *)

Lemma getHighPrecisionTime_finite (w : World) :
  exists c, getHighPrecisionTime w = Fin c.
Proof.
  unfold getHighPrecisionTime, performanceTime, dateNow, fin, ofZ.
  destruct (useHighPrecision (engine w)); eauto.
Qed.

Lemma invalid_target_result (w : World) :
  targetDate (engine w) = Some InvalidDate ->
  calculateTimeRemaining w =
  ({| total := NaN; months := NaN; weeks := NaN; days := NaN; hours := NaN;
      minutes := NaN; seconds := NaN; milliseconds := NaN;
      totalDays := VNumber NaN; isComplete := false;
      progress := VString "NaN" |}, w).
Proof.
  intros H. unfold calculateTimeRemaining. rewrite H. cbv zeta.
  unfold targetTime. rewrite H. cbn [getTime].
  destruct (getHighPrecisionTime_finite w) as [c ->].
  cbn. destruct (getTime _); reflexivity.
Qed.

Lemma setCustomDate_frame (s : string) (name : option string) (w : World) :
  let w' := setCustomDate s name w in
  targetDate (engine w') = Some (dateParse (host w) s) /\
  targetYear (engine w') = targetYear (engine w) /\
  yearRange (engine w') = yearRange (engine w) /\
  tasks w' = tasks w /\ nextHandle w' = nextHandle w /\ clock w' = clock w /\
  host w' = host w /\ trace w' = trace w /\
  intervalId (engine w') = intervalId (engine w) /\
  rafId (engine w') = rafId (engine w).
Proof. cbn. tauto. Qed.

(* ------------------------------------------------------------------ *)
(** ** The claims *)

Import Scenario.


(** C1.  For a valid target T and a clock reading c with T - c > 0,
    [calculateTimeRemaining] reports the difference decomposed as documented:
    totalDays = floor(diff / 86,400,000), days = totalDays mod 7,
    weeks = floor(totalDays / 7) mod 4, months = floor(totalDays / 30),
    milliseconds = diff mod 1000, and seconds, minutes, hours the floors of
    diff over 1000, 60000, 3600000 modulo 60, 60, 24.  In particular, from
    2026-11-26T00:00 local to 2026-12-26T00:00 local: totalDays = 30,
    weeks = 0, days = 2, months = 1, hours = minutes = seconds = 0. *)
Theorem calculateTimeRemaining_decomposition :
  (forall (w : World) (T : Z) (c : Q),
      targetDate (engine w) = Some (DateAt T) ->
      getHighPrecisionTime w = Fin c ->
      (c < inject_Z T)%Q ->
      let r := fst (calculateTimeRemaining w) in
      isComplete r = false /\ total r = fin (inject_Z T - c) /\
      documentedDecomposition (inject_Z T - c) r) /\
  (forall w : World,
      Z.abs (tza (host w)) <= msPerDay ->
      targetDate (engine w) = Some (newDate (tza (host w)) 2026 11 26 0 0 0 0) ->
      getHighPrecisionTime w = getTime (newDate (tza (host w)) 2026 10 26 0 0 0 0) ->
      let r := fst (calculateTimeRemaining w) in
      totalDays r = VNumber (ofZ 30) /\ weeks r = ofZ 0 /\ days r = ofZ 2 /\
      months r = ofZ 1 /\ hours r = ofZ 0 /\ minutes r = ofZ 0 /\ seconds r = ofZ 0).
Proof.
  split.
  - exact decomposition_general.
  - exact example_2026.
Qed.

Lemma calculateTimeRemaining_decomposition_witness :
  targetDate (engine lastSecond) = Some (DateAt boxing2026) /\
  getHighPrecisionTime lastSecond = Fin (inject_Z boxing2026 - (801 # 2)) /\
  (inject_Z boxing2026 - (801 # 2) < inject_Z boxing2026)%Q /\
  documentedDecomposition (inject_Z boxing2026 - (inject_Z boxing2026 - (801 # 2)))
    (fst (calculateTimeRemaining lastSecond)).
Proof.
  assert (H1 : targetDate (engine lastSecond) = Some (DateAt boxing2026))
    by reflexivity.
  assert (H2 : getHighPrecisionTime lastSecond = Fin (inject_Z boxing2026 - (801 # 2)))
    by (vm_compute; reflexivity).
  assert (H3 : (inject_Z boxing2026 - (801 # 2) < inject_Z boxing2026)%Q)
    by (vm_compute; reflexivity).
  split; [exact H1|]. split; [exact H2|]. split; [exact H3|].
  apply (proj1 calculateTimeRemaining_decomposition lastSecond boxing2026 _ H1 H2 H3).
Defined.

(** C2.  When the target is at or before the clock reading, the result is
    complete with progress 100 and total, months, weeks, days, hours, minutes,
    seconds and milliseconds all zero; but it has no totalDays property: that
    field is undefined, not zero. *)
Theorem complete_result_lacks_totalDays (w : World) (T : Z) (c : Q) :
  targetDate (engine w) = Some (DateAt T) ->
  getHighPrecisionTime w = Fin c ->
  (inject_Z T <= c)%Q ->
  let r := fst (calculateTimeRemaining w) in
  isComplete r = true /\ progress r = VNumber (ofZ 100) /\
  total r = ofZ 0 /\ months r = ofZ 0 /\ weeks r = ofZ 0 /\ days r = ofZ 0 /\
  hours r = ofZ 0 /\ minutes r = ofZ 0 /\ seconds r = ofZ 0 /\
  milliseconds r = ofZ 0 /\
  totalDays r = VUndefined /\ totalDays r <> VNumber (ofZ 0).
Proof.
  intros Ht Hn Hle. rewrite (complete_general w T c Ht Hn Hle). cbn.
  repeat split. discriminate.
Qed.

Lemma complete_result_lacks_totalDays_witness :
  targetDate (engine atTarget) = Some (DateAt boxing2026) /\
  getHighPrecisionTime atTarget = Fin (inject_Z boxing2026) /\
  (inject_Z boxing2026 <= inject_Z boxing2026)%Q /\
  totalDays (fst (calculateTimeRemaining atTarget)) = VUndefined.
Proof.
  assert (H1 : targetDate (engine atTarget) = Some (DateAt boxing2026)) by reflexivity.
  assert (H2 : getHighPrecisionTime atTarget = Fin (inject_Z boxing2026))
    by (vm_compute; reflexivity).
  assert (H3 : (inject_Z boxing2026 <= inject_Z boxing2026)%Q) by apply Qle_refl.
  split; [exact H1|]. split; [exact H2|]. split; [exact H3|].
  apply (complete_result_lacks_totalDays atTarget boxing2026 _ H1 H2 H3).
Defined.

(** C3, counterexample.  The text "not a date" is no date for the host;
    [setCustomDate] stores the invalid date without signalling anything, and
    [calculateTimeRemaining] does not answer the zeroed, incomplete state. *)
Lemma invalid_custom_date_not_reported :
  dateParse (browser 0) "not a date" = InvalidDate /\
  targetDate (engine garbage) = Some InvalidDate /\
  ~ zeroedIncomplete (fst (calculateTimeRemaining garbage)).
Proof.
  split; [reflexivity|]. split; [reflexivity|].
  intros (_ & Ht & _). vm_compute in Ht. discriminate.
Qed.

(** C3, amended.  For an unparseable date string [setCustomDate] stores the
    invalid instant without an error, and [calculateTimeRemaining] then
    computes from it: isComplete is false, total and every unit field are NaN,
    progress is the string "NaN", and there is no validity flag. *)
Theorem invalid_custom_date_computes_NaN (w : World) (s : string) (name : option string) :
  dateParse (host w) s = InvalidDate ->
  let w' := setCustomDate s name w in
  targetDate (engine w') = Some InvalidDate /\
  calculateTimeRemaining w' =
  ({| total := NaN; months := NaN; weeks := NaN; days := NaN; hours := NaN;
      minutes := NaN; seconds := NaN; milliseconds := NaN;
      totalDays := VNumber NaN; isComplete := false;
      progress := VString "NaN" |}, w').
Proof.
  intros H w'.
  assert (E : targetDate (engine w') = Some InvalidDate).
  { unfold w'. cbn. rewrite H. reflexivity. }
  split; [exact E|]. apply invalid_target_result. exact E.
Qed.

Lemma invalid_custom_date_computes_NaN_witness :
  dateParse (host (page (browser 0) defaults (inject_Z nov26))) "not a date"
  = InvalidDate /\
  total (fst (calculateTimeRemaining garbage)) = NaN.
Proof.
  assert (H : dateParse (host (page (browser 0) defaults (inject_Z nov26)))
                "not a date" = InvalidDate) by reflexivity.
  split; [exact H|].
  pose proof (invalid_custom_date_computes_NaN
                (page (browser 0) defaults (inject_Z nov26)) "not a date" None H) as P.
  cbv zeta in P. destruct P as [_ P]. unfold garbage. rewrite P. reflexivity.
Defined.

(** C4, counterexample.  A recurring target completes at its instant and the
    rollover is scheduled; [stop()] is called half a second later; when the
    five seconds are over the rollover has fired all the same: the target is
    Boxing Day 2027 and a new interval timer runs. *)
Lemma stop_in_window_rollover_fires :
  pendingRollovers completed <> [] /\
  targetYear (engine stoppedInWindow) = Some 2026 /\
  running (engine afterWindow) /\
  targetYear (engine afterWindow) = Some 2027 /\
  ~ rolloverSuppressed stoppedInWindow afterWindow.
Proof.
  split; [vm_compute; discriminate|]. split; [reflexivity|].
  split; [left; vm_compute; discriminate|]. split; [vm_compute; reflexivity|].
  intros (H & _). vm_compute in H. discriminate.
Qed.

(** C4, amended.  [stop()] does not cancel a scheduled rollover: a pending
    rollover timeout (whose handle is not the interval's) is still pending
    after [stop()], and when it fires the target becomes Boxing Day of the
    following year and the engine runs again. *)
Theorem stop_leaves_rollover_pending (w : World) (t : Task) (y : Z) :
  In t (tasks w) -> isRollover t = true ->
  intervalId (engine w) <> Some (handle t) ->
  targetYear (engine w) = Some y -> y <> -1 ->
  In t (tasks (stop w)) /\
  let w' := fire t (stop w) in
  targetYear (engine w') = Some (y + 1) /\
  targetDate (engine w') = Some (boxingDay (tza (host w)) (y + 1)) /\
  running (engine w').
Proof. exact (stop_then_rollover w t y). Qed.

Lemma stop_leaves_rollover_pending_witness :
  let t := {| handle := 1; kind := Timeout; due := inject_Z (boxing2026 + 5000);
              callback := CbRollover |} in
  In t (tasks completed) /\ isRollover t = true /\
  intervalId (engine completed) <> Some (handle t) /\
  targetYear (engine completed) = Some 2026 /\
  In t (tasks (stop completed)) /\
  targetYear (engine (fire t (stop completed))) = Some 2027.
Proof.
  intros t.
  assert (H1 : In t (tasks completed)) by (left; reflexivity).
  assert (H2 : isRollover t = true) by reflexivity.
  assert (H3 : intervalId (engine completed) <> Some (handle t))
    by (vm_compute; discriminate).
  assert (H4 : targetYear (engine completed) = Some 2026) by reflexivity.
  assert (H5 : 2026 <> -1) by discriminate.
  destruct (stop_leaves_rollover_pending completed t 2026 H1 H2 H3 H4 H5)
    as [P1 [P2 _]].
  split; [exact H1|]. split; [exact H2|]. split; [exact H3|].
  split; [exact H4|]. split; [exact P1|exact P2].
Defined.

(** C5, the failing input.  With a 50 ms update frequency on a browser with
    animation frames, [start()] twice leaves two frame callbacks pending and
    no interval; [stop()] then cancels only the later one, and the other
    keeps ticking: 15 more ticks in the next second. *)
Theorem double_start_two_frame_loops :
  List.length (activePrimitives startedOnce) = 1%nat /\
  List.length (activePrimitives startedTwice) = 2%nat /\
  map kind (activePrimitives startedTwice) = [AnimationFrame; AnimationFrame] /\
  intervalId (engine startedTwice) = None /\
  List.length (activePrimitives (stop startedTwice)) = 1%nat /\
  tickCount (stop startedTwice) = 3%nat /\
  tickCount (runUntil 1000 (inject_Z (nov26 + 1000)) (stop startedTwice)) = 18%nat.
Proof. vm_compute. repeat split. Qed.

(** C6, counterexample.  The recurring target of 2026 is set, then a custom
    target replaces it; the custom target completes, a rollover is scheduled,
    and five seconds later the target is Boxing Day 2027 and the engine runs. *)
Lemma custom_target_rolls_over :
  targetDate (engine junePage) = Some (dateParse (browser 0) "2026-06-01") /\
  isComplete (fst (calculateTimeRemaining junePage)) = true /\
  pendingRollovers juneCompleted <> [] /\
  targetDate (engine juneLater) = Some (boxingDay 0 2027) /\
  running (engine juneLater) /\
  ~ rolloverSuppressed junePage juneLater.
Proof.
  split; [reflexivity|]. split; [vm_compute; reflexivity|].
  split; [vm_compute; discriminate|]. split; [vm_compute; reflexivity|].
  split; [left; vm_compute; discriminate|].
  intros (H & _). vm_compute in H. discriminate.
Qed.

(** C6, amended.  [setCustomDate] keeps the recorded target year.  A tick on
    a custom target schedules nothing when no year is recorded or the
    recorded year is not below the end of the year range; when the recorded
    year is below the end of the range and the custom target is complete, the
    tick schedules the rollover. *)
Theorem custom_completion_rollover (w : World) (s : string) (name : option string) :
  let w' := setCustomDate s name w in
  targetYear (engine w') = targetYear (engine w) /\
  (beforeRangeEnd (engine w) = false ->
   nextHandle (update w') = nextHandle w' /\ incl (tasks (update w')) (tasks w')) /\
  (beforeRangeEnd (engine w) = true ->
   isComplete (fst (calculateTimeRemaining w')) = true ->
   In (rolloverTask w') (tasks (update w'))).
Proof.
  intros w'.
  assert (Hd : targetDate (engine w') = Some (dateParse (host w) s)) by reflexivity.
  assert (Hb : beforeRangeEnd (engine w') = beforeRangeEnd (engine w)) by reflexivity.
  split; [reflexivity|]. split.
  - intros B. apply (update_quiet w' _ Hd). congruence.
  - intros B C.
    destruct (update_schedules w' _ Hd ltac:(congruence) C) as [E _].
    rewrite E. apply in_or_app. right. left. reflexivity.
Qed.

Lemma custom_completion_rollover_witness :
  (beforeRangeEnd (engine (page (browser 0) defaults (inject_Z 1780272000000))) = false /\
   nextHandle (update freshCustom) = nextHandle freshCustom /\
   incl (tasks (update freshCustom)) (tasks freshCustom)) /\
  (beforeRangeEnd
     (engine (setBoxingDay (Some 2026)
                (page (browser 0) defaults (inject_Z 1780272000000)))) = true /\
   isComplete (fst (calculateTimeRemaining junePage)) = true /\
   In (rolloverTask junePage) (tasks (update junePage))).
Proof.
  assert (H : beforeRangeEnd
                (engine (page (browser 0) defaults (inject_Z 1780272000000))) = false)
    by reflexivity.
  assert (B : beforeRangeEnd
                (engine (setBoxingDay (Some 2026)
                           (page (browser 0) defaults (inject_Z 1780272000000)))) = true)
    by reflexivity.
  assert (C : isComplete (fst (calculateTimeRemaining junePage)) = true)
    by (vm_compute; reflexivity).
  split.
  - split; [exact H|].
    exact (proj1 (proj2 (custom_completion_rollover
                           (page (browser 0) defaults (inject_Z 1780272000000))
                           "2026-06-01" None)) H).
  - split; [exact B|]. split; [exact C|].
    exact (proj2 (proj2 (custom_completion_rollover
                           (setBoxingDay (Some 2026)
                              (page (browser 0) defaults (inject_Z 1780272000000)))
                           "2026-06-01" (Some "Party"%string))) B C).
Defined.

(** C7.  [setBoxingDay()] without a year, at clock reading now in local year
    Y (not one of the years 0 to 99, which [Date] reads as 1900 + Y): the
    Boxing Day of Y is 26 December of Y at local midnight; if now is not
    after it, it becomes the target and Y the recorded year; otherwise the
    target is the Boxing Day of Y + 1 and Y + 1 is recorded.  On 27 December
    of Y the recorded year is Y + 1, on 25 December of Y it is Y. *)
Theorem setBoxingDay_default (w : World) (tY : Z) :
  let tz := tza (host w) in
  let now := currentDate w in
  let Y := getFullYear tz now in
  ~ 0 <= Y <= 99 ->
  boxingDay tz Y = DateAt tY ->
  let e := engine (setBoxingDay None w) in
  (getFullYear tz tY = Y /\ getMonth tz tY = 11 /\ getDate tz tY = 26 /\
   TimeWithinDay (LocalTime tz tY) = 0) /\
  (now <= tY -> targetDate e = Some (DateAt tY) /\ targetYear e = Some Y) /\
  (tY < now ->
   targetDate e = Some (boxingDay tz (Y + 1)) /\ targetYear e = Some (Y + 1)) /\
  (forall t1, Y <> -1 -> boxingDay tz (Y + 1) = DateAt t1 ->
     getFullYear tz t1 = Y + 1 /\ getMonth tz t1 = 11 /\ getDate tz t1 = 26 /\
     TimeWithinDay (LocalTime tz t1) = 0) /\
  (getMonth tz now = 11 -> getDate tz now = 27 -> targetYear e = Some (Y + 1)) /\
  (getMonth tz now = 11 -> getDate tz now = 25 -> targetYear e = Some Y).
Proof. exact (setBoxingDay_default_general w tY). Qed.

Lemma setBoxingDay_default_witness :
  (~ 0 <= getFullYear 0 (currentDate dec27) <= 99) /\
  boxingDay 0 (getFullYear 0 (currentDate dec27)) = DateAt boxing2026 /\
  getMonth 0 (currentDate dec27) = 11 /\ getDate 0 (currentDate dec27) = 27 /\
  targetYear (engine (setBoxingDay None dec27)) = Some 2027 /\
  getMonth 0 (currentDate dec25) = 11 /\ getDate 0 (currentDate dec25) = 25 /\
  targetYear (engine (setBoxingDay None dec25)) = Some 2026.
Proof.
  assert (H1 : ~ 0 <= getFullYear 0 (currentDate dec27) <= 99)
    by (vm_compute; intros [_ H]; apply H; reflexivity).
  assert (H2 : boxingDay 0 (getFullYear 0 (currentDate dec27)) = DateAt boxing2026)
    by (vm_compute; reflexivity).
  assert (H3 : ~ 0 <= getFullYear 0 (currentDate dec25) <= 99)
    by (vm_compute; intros [_ H]; apply H; reflexivity).
  assert (H4 : boxingDay 0 (getFullYear 0 (currentDate dec25)) = DateAt boxing2026)
    by (vm_compute; reflexivity).
  assert (M27 : getMonth 0 (currentDate dec27) = 11) by (vm_compute; reflexivity).
  assert (D27 : getDate 0 (currentDate dec27) = 27) by (vm_compute; reflexivity).
  assert (M25 : getMonth 0 (currentDate dec25) = 11) by (vm_compute; reflexivity).
  assert (D25 : getDate 0 (currentDate dec25) = 25) by (vm_compute; reflexivity).
  pose proof (setBoxingDay_default dec27 boxing2026 H1 H2) as P27.
  pose proof (setBoxingDay_default dec25 boxing2026 H3 H4) as P25.
  cbv zeta in P27, P25.
  destruct P27 as (_ & _ & _ & _ & Q27 & _).
  destruct P25 as (_ & _ & _ & _ & _ & Q25).
  split; [exact H1|]. split; [exact H2|]. split; [exact M27|]. split; [exact D27|].
  split; [exact (Q27 M27 D27)|]. split; [exact M25|]. split; [exact D25|].
  exact (Q25 M25 D25).
Defined.

(** C8.  [getAllBoxingDays] changes nothing on the engine and returns one
    entry per year of the configured range: the years are strictly ascending
    without duplicates, they are exactly the years from start to end, each
    entry holds the 26 December of its year, and the number of entries is
    end - start + 1, which is 12 for the range 2024 to 2035 the constructor
    configures.  Each entry of that range is a valid date, 26 December of its
    year at local midnight, labelled with the weekday of that date. *)
Theorem getAllBoxingDays_enumerates (w : World) :
  let tz := tza (host w) in
  let first := yr_start (yearRange (engine w)) in
  let last := yr_end (yearRange (engine w)) in
  let occs := fst (getAllBoxingDays w) in
  snd (getAllBoxingDays w) = w /\
  StronglySorted Z.lt (map year occs) /\
  NoDup (map year occs) /\
  (forall y, In y (map year occs) <-> first <= y <= last) /\
  (forall o, In o occs -> date o = getBoxingDayDate tz (year o)) /\
  (forall o t, In o occs -> ~ 0 <= year o <= 99 -> date o = DateAt t ->
     getFullYear tz t = year o /\ getMonth tz t = 11 /\ getDate tz t = 26) /\
  (first <= last + 1 -> Z.of_nat (List.length occs) = last - first + 1) /\
  (yearRange (engine w) = {| yr_start := 2024; yr_end := 2035 |} ->
   List.length occs = 12%nat) /\
  (forall o, In o occs -> ~ 0 <= year o <= 99 -> -200000 <= year o <= 200000 ->
     Z.abs tz <= msPerDay -> isBoxingDayOf tz o) /\
  (yearRange (engine w) = {| yr_start := 2024; yr_end := 2035 |} ->
   Z.abs tz <= msPerDay ->
   forall o, In o occs -> isBoxingDayOf tz o).
Proof.
  cbv zeta. unfold getAllBoxingDays. cbn [fst snd].
  set (tz := tza (host w)). set (a := yr_start _). set (b := yr_end _).
  split; [reflexivity|].
  split; [apply forYears_sorted|].
  split; [apply sorted_NoDup, forYears_sorted|].
  split.
  { intros y. rewrite in_map_iff. split.
    - intros (o & <- & Ho). apply forYears_In in Ho. tauto.
    - intros Hy. exists (occurrence tz y). split; [reflexivity|].
      apply forYears_In. cbn. tauto. }
  split.
  { intros o Ho. apply forYears_In in Ho as [_ ->]. reflexivity. }
  split.
  { intros o t Ho Hy Hd. apply forYears_In in Ho as [_ E].
    rewrite E in Hd. cbn in Hd.
    destruct (boxingDay_fields tz (year o) t Hy Hd) as (F1 & F2 & F3 & _). auto. }
  split.
  { intros Hab. rewrite forYears_length. lia. }
  split.
  { intros E. rewrite forYears_length. unfold a, b. rewrite E. reflexivity. }
  split.
  { intros o Ho Hy Hr Htz. apply forYears_In in Ho as [_ E]. rewrite E.
    apply occurrence_isBoxingDay; assumption. }
  intros E Htz o Ho. apply forYears_In in Ho as [R Eo].
  unfold a, b in R. rewrite E in R. cbn [yr_start yr_end] in R.
  rewrite Eo. apply occurrence_isBoxingDay; [lia | lia | exact Htz].
Qed.

Lemma getAllBoxingDays_enumerates_witness :
  yearRange (engine monthAhead) = {| yr_start := 2024; yr_end := 2035 |} /\
  Z.abs (tza (host monthAhead)) <= msPerDay /\
  List.length (fst (getAllBoxingDays monthAhead)) = 12%nat /\
  map year (fst (getAllBoxingDays monthAhead))
  = [2024; 2025; 2026; 2027; 2028; 2029; 2030; 2031; 2032; 2033; 2034; 2035] /\
  map date (fst (getAllBoxingDays monthAhead))
  = [DateAt 1735171200000; DateAt 1766707200000; DateAt 1798243200000;
     DateAt 1829779200000; DateAt 1861401600000; DateAt 1892937600000;
     DateAt 1924473600000; DateAt 1956009600000; DateAt 1987632000000;
     DateAt 2019168000000; DateAt 2050704000000; DateAt 2082240000000] /\
  (forall o, In o (fst (getAllBoxingDays monthAhead)) ->
             isBoxingDayOf (tza (host monthAhead)) o).
Proof.
  assert (H : yearRange (engine monthAhead) = {| yr_start := 2024; yr_end := 2035 |})
    by reflexivity.
  assert (Z : Z.abs (tza (host monthAhead)) <= msPerDay) by (vm_compute; discriminate).
  pose proof (getAllBoxingDays_enumerates monthAhead) as P. cbv zeta in P.
  destruct P as (_ & _ & _ & _ & _ & _ & _ & P8 & _ & P10).
  split; [exact H|]. split; [exact Z|]. split; [exact (P8 H)|].
  split; [vm_compute; reflexivity|]. split; [vm_compute; reflexivity|].
  exact (P10 H Z).
Defined.

(** C9, counterexample.  The recorded year 300000 is beyond the range of
    [Date]; a custom target in 2030 is still ahead of the clock, and the
    progress it reports is the string "NaN", not a decimal with two fraction
    digits. *)
Lemma progress_not_decimal :
  targetDate (engine farYear) = Some (DateAt 1893456000000) /\
  getHighPrecisionTime farYear = Fin (inject_Z nov26) /\
  (inject_Z nov26 < inject_Z 1893456000000)%Q /\
  progress (fst (calculateTimeRemaining farYear)) = VString "NaN" /\
  ~ (exists s, progress (fst (calculateTimeRemaining farYear)) = VString s /\
               fixedTwo false s = true).
Proof.
  split; [reflexivity|]. split; [vm_compute; reflexivity|].
  split; [vm_compute; reflexivity|]. split; [vm_compute; reflexivity|].
  intros (s & E & F). vm_compute in E. injection E as <-. discriminate.
Qed.

(** C9, amended.  For a difference above zero the progress is a string, the
    result of toFixed(2): digits, a point and exactly two digits when
    1 January of the tracked year is a valid date, and "NaN" when it is not;
    for a difference of zero or less it is the number 100. *)
Theorem progress_type_by_branch (w : World) (T : Z) (c : Q) :
  targetDate (engine w) = Some (DateAt T) ->
  getHighPrecisionTime w = Fin c ->
  let r := fst (calculateTimeRemaining w) in
  let yearStart := newDate (tza (host w)) (progressYear w) 0 1 0 0 0 0 in
  ((c < inject_Z T)%Q ->
   (forall s0, yearStart = DateAt s0 ->
      exists s, progress r = VString s /\ fixedTwo false s = true) /\
   (yearStart = InvalidDate -> progress r = VString "NaN")) /\
  ((inject_Z T <= c)%Q -> progress r = VNumber (ofZ 100)).
Proof.
  intros Ht Hn. cbv zeta. split.
  - intros Hlt. split.
    + intros s0 Hs.
      destruct (progress_valid w T s0 c Ht Hn Hlt Hs) as (q & R & E).
      eexists. split; [exact E|]. apply toFixed2_shape. exact R.
    + intros Hs. apply (progress_invalid w T c Ht Hn Hlt Hs).
  - intros Hle. rewrite (complete_general w T c Ht Hn Hle). reflexivity.
Qed.

Lemma progress_type_by_branch_witness :
  targetDate (engine monthAhead) = Some (DateAt boxing2026) /\
  getHighPrecisionTime monthAhead = Fin (inject_Z nov26) /\
  (inject_Z nov26 < inject_Z boxing2026)%Q /\
  newDate (tza (host monthAhead)) (progressYear monthAhead) 0 1 0 0 0 0
  = DateAt 1767225600000 /\
  exists s, progress (fst (calculateTimeRemaining monthAhead)) = VString s /\
            fixedTwo false s = true.
Proof.
  assert (H1 : targetDate (engine monthAhead) = Some (DateAt boxing2026))
    by reflexivity.
  assert (H2 : getHighPrecisionTime monthAhead = Fin (inject_Z nov26))
    by (vm_compute; reflexivity).
  assert (H3 : (inject_Z nov26 < inject_Z boxing2026)%Q) by (vm_compute; reflexivity).
  assert (H4 : newDate (tza (host monthAhead)) (progressYear monthAhead) 0 1 0 0 0 0
               = DateAt 1767225600000) by (vm_compute; reflexivity).
  split; [exact H1|]. split; [exact H2|]. split; [exact H3|]. split; [exact H4|].
  exact (proj1 (proj1 (progress_type_by_branch monthAhead boxing2026 _ H1 H2) H3)
           _ H4).
Defined.

(** C10.  [getReadableTime] answers "It's Boxing Day!" for a complete
    duration, and the empty string for an incomplete one whose months, weeks,
    days, hours, minutes and seconds are all zero; the computed duration is
    such a one whenever the difference is above 0 and below 1000 ms.  Called
    without an argument it answers for the duration it computes: "It's Boxing
    Day!" once the target is reached, the empty string in the last second
    before. *)
Theorem getReadableTime_quiet :
  (forall (w : World) (r : Remaining),
      isComplete r = true ->
      getReadableTime (Some r) w = ("It's Boxing Day!"%string, w)) /\
  (forall (w : World) (r : Remaining),
      isComplete r = false ->
      months r = ofZ 0 -> weeks r = ofZ 0 -> days r = ofZ 0 ->
      hours r = ofZ 0 -> minutes r = ofZ 0 -> seconds r = ofZ 0 ->
      getReadableTime (Some r) w = (EmptyString, w)) /\
  (forall (w : World) (T : Z) (c : Q),
      targetDate (engine w) = Some (DateAt T) ->
      getHighPrecisionTime w = Fin c ->
      (c < inject_Z T)%Q -> (inject_Z T - c < 1000)%Q ->
      getReadableTime None w = (EmptyString, w)) /\
  (forall (w : World) (T : Z) (c : Q),
      targetDate (engine w) = Some (DateAt T) ->
      getHighPrecisionTime w = Fin c ->
      (inject_Z T <= c)%Q ->
      getReadableTime None w = ("It's Boxing Day!"%string, w)) /\
  (forall w : World,
      getReadableTime None w
      = getReadableTime (Some (fst (calculateTimeRemaining w)))
                        (snd (calculateTimeRemaining w))).
Proof.
  split; [|split; [|split; [|split]]].
  - intros w r H. unfold getReadableTime. rewrite readable_complete by exact H.
    reflexivity.
  - intros w r Hc Hmo Hw Hd Hh Hmi Hs. unfold getReadableTime.
    rewrite readable_all_zero by assumption. reflexivity.
  - intros w T c Ht Hn Hlt Hsub. unfold getReadableTime.
    pose proof (subsecond_fields w T c Ht Hn Hlt Hsub) as F. cbv zeta in F.
    pose proof (calculate_unchanged w _ Ht) as U.
    destruct (calculateTimeRemaining w) as [r w1]. cbn [fst snd] in *. subst w1.
    destruct F as (Hc & Hmo & Hw & Hd & Hh & Hmi & Hs).
    rewrite readable_all_zero by assumption. reflexivity.
  - exact getReadableTime_reached.
  - exact getReadableTime_none.
Qed.

Lemma getReadableTime_quiet_witness :
  (targetDate (engine lastSecond) = Some (DateAt boxing2026) /\
   getHighPrecisionTime lastSecond = Fin (inject_Z boxing2026 - (801 # 2)) /\
   (inject_Z boxing2026 - (801 # 2) < inject_Z boxing2026)%Q /\
   (inject_Z boxing2026 - (inject_Z boxing2026 - (801 # 2)) < 1000)%Q /\
   getReadableTime None lastSecond = (EmptyString, lastSecond)) /\
  (targetDate (engine atTarget) = Some (DateAt boxing2026) /\
   getHighPrecisionTime atTarget = Fin (inject_Z boxing2026) /\
   (inject_Z boxing2026 <= inject_Z boxing2026)%Q /\
   getReadableTime None atTarget = ("It's Boxing Day!"%string, atTarget)).
Proof.
  assert (H1 : targetDate (engine lastSecond) = Some (DateAt boxing2026))
    by reflexivity.
  assert (H2 : getHighPrecisionTime lastSecond = Fin (inject_Z boxing2026 - (801 # 2)))
    by (vm_compute; reflexivity).
  assert (H3 : (inject_Z boxing2026 - (801 # 2) < inject_Z boxing2026)%Q)
    by (vm_compute; reflexivity).
  assert (H4 : (inject_Z boxing2026 - (inject_Z boxing2026 - (801 # 2)) < 1000)%Q)
    by (vm_compute; reflexivity).
  assert (K1 : targetDate (engine atTarget) = Some (DateAt boxing2026)) by reflexivity.
  assert (K2 : getHighPrecisionTime atTarget = Fin (inject_Z boxing2026))
    by (vm_compute; reflexivity).
  assert (K3 : (inject_Z boxing2026 <= inject_Z boxing2026)%Q) by apply Qle_refl.
  split.
  - split; [exact H1|]. split; [exact H2|]. split; [exact H3|]. split; [exact H4|].
    exact (proj1 (proj2 (proj2 getReadableTime_quiet))
             lastSecond boxing2026 _ H1 H2 H3 H4).
  - split; [exact K1|]. split; [exact K2|]. split; [exact K3|].
    exact (proj1 (proj2 (proj2 (proj2 getReadableTime_quiet)))
             atTarget boxing2026 _ K1 K2 K3).
Defined.

(* ------------------------------------------------------------------ *)
(** ** Consistency of the computed fields *)

Lemma clock_chain (n : Z) :
  0 <= n ->
  let S := n / 1000 in
  n / 86400000 * 86400000 + (n / 3600000) mod 24 * 3600000
  + (n / 60000) mod 60 * 60000 + S mod 60 * 1000 = 1000 * S.
Proof.
  intros Hn S.
  replace (n / 86400000) with (S / 86400)
    by (unfold S; rewrite Z.div_div by lia; reflexivity).
  replace (n / 3600000) with (S / 3600)
    by (unfold S; rewrite Z.div_div by lia; reflexivity).
  replace (n / 60000) with (S / 60)
    by (unfold S; rewrite Z.div_div by lia; reflexivity).
  clearbody S. clear n Hn.
  replace (S / 86400) with (S / 3600 / 24) by (rewrite Z.div_div by lia; reflexivity).
  replace (S / 3600) with (S / 60 / 60) by (rewrite Z.div_div by lia; reflexivity).
  Z.to_euclidean_division_equations. lia.
Qed.

Lemma fields_consistent_general (w : World) (T : Z) (c : Q) :
  targetDate (engine w) = Some (DateAt T) ->
  getHighPrecisionTime w = Fin c ->
  (c < inject_Z T)%Q ->
  let r := fst (calculateTimeRemaining w) in
  exists (D h m s mo wk d : Z) (ms : Q),
    totalDays r = VNumber (ofZ D) /\ hours r = ofZ h /\ minutes r = ofZ m /\
    seconds r = ofZ s /\ milliseconds r = Fin ms /\
    months r = ofZ mo /\ weeks r = ofZ wk /\ days r = ofZ d /\
    0 <= D /\ 0 <= h < 24 /\ 0 <= m < 60 /\ 0 <= s < 60 /\
    (0 <= ms < 1000)%Q /\
    (inject_Z (D * 86400000 + h * 3600000 + m * 60000 + s * 1000) + ms
     == inject_Z T - c)%Q /\
    0 <= d < 7 /\ 0 <= wk < 4 /\ 30 * mo <= D < 30 * mo + 30 /\
    D mod 28 = 7 * wk + d.
Proof.
  intros Ht Hn Hlt.
  destruct (decomposition_general w T c Ht Hn Hlt) as (_ & _ & Dc).
  cbv zeta. unfold documentedDecomposition in Dc. cbv zeta in Dc.
  set (diff := (inject_Z T - c)%Q) in *.
  assert (Hd : (0 < diff)%Q) by (unfold diff; lra).
  rewrite !Qfloor_div_pos in Dc by lia.
  destruct (Qfloor_bounds diff) as [Flo Fhi].
  set (n := Qfloor diff) in *.
  assert (Hn0 : 0 <= n).
  { unfold n. rewrite <- (Qfloor_Z 0). apply Qfloor_resp_le.
    change (inject_Z 0) with 0%Q. lra. }
  destruct Dc as (D1 & D2 & D3 & D4 & D5 & D6 & D7 & D8).
  exists (n / 86400000), ((n / 3600000) mod 24), ((n / 60000) mod 60),
    ((n / 1000) mod 60), (n / 86400000 / 30), ((n / 86400000 / 7) mod 4),
    ((n / 86400000) mod 7), (Qred (diff - inject_Z (1000 * (n / 1000)))).
  assert (Hms : (diff - inject_Z (1000 * (n / 1000)) ==
                 diff - inject_Z n + inject_Z (n mod 1000))%Q).
  { rewrite Z.mod_eq by lia.
    unfold Z.sub. rewrite inject_Z_plus, inject_Z_opp. ring. }
  pose proof (Z.mod_pos_bound n 1000 ltac:(lia)) as Hm1000.
  assert (Hm1 : (0 <= inject_Z (n mod 1000))%Q)
    by (change 0%Q with (inject_Z 0); rewrite <- Zle_Qle; lia).
  assert (Hm2 : (inject_Z (n mod 1000) <= 999)%Q)
    by (change 999%Q with (inject_Z 999); rewrite <- Zle_Qle; lia).
  rewrite inject_Z_plus in Fhi. change (inject_Z 1) with 1%Q in Fhi.
  repeat match goal with |- _ /\ _ => split end; try assumption;
    try (apply Z.mod_pos_bound; lia); try (apply Z.div_pos; lia).
  - rewrite Qred_correct, Hms. lra.
  - rewrite Qred_correct, Hms. lra.
  - rewrite Qred_correct. rewrite (clock_chain n Hn0). cbv zeta. ring.
  - Z.to_euclidean_division_equations. lia.
  - Z.to_euclidean_division_equations. lia.
  - Z.to_euclidean_division_equations. lia.
Qed.

(* ------------------------------------------------------------------ *)
(** ** Tracking of the scheduling primitives *)

Lemma filter_filter {A : Type} (p q : A -> bool) (l : list A) :
  filter p (filter q l) = filter (fun x => q x && p x) l.
Proof.
  induction l as [|a l IH]; [reflexivity|]. cbn.
  destruct (q a); cbn; [destruct (p a); cbn; rewrite IH; reflexivity | exact IH].
Qed.

Lemma stop_tasks (w : World) :
  tasks (stop w) = filter (fun t => negb (cancelledByStop (engine w) t)) (tasks w).
Proof.
  unfold stop, cancelledByStop.
  destruct (intervalId (engine w)) as [i|] eqn:Ei; cbn;
    destruct (rafId (engine w)) as [r|] eqn:Er; cbn.
  - rewrite filter_filter. apply filter_ext. intros t.
    rewrite negb_orb. reflexivity.
  - apply filter_ext. intros t. rewrite andb_false_r, orb_false_r. reflexivity.
  - apply filter_ext. intros t. rewrite andb_false_r. reflexivity.
  - symmetry. erewrite filter_ext; [apply filter_true|].
    intros t. cbn. rewrite !andb_false_r. reflexivity.
Qed.


Lemma stop_idempotent (w : World) : stop (stop w) = stop w.
Proof.
  destruct (stop_frame w) as (_ & _ & _ & _ & Hi & Hr & _).
  unfold stop at 1. rewrite Hi. cbv zeta. rewrite Hr. reflexivity.
Qed.

Lemma filter_nothing {A : Type} (p q : A -> bool) (l : list A) :
  (forall t, In t l -> p t = true -> q t = true) ->
  filter (fun t => negb (q t) && p t) l = [].
Proof.
  induction l as [|a l IH]; intros H; [reflexivity|]. cbn.
  destruct (p a) eqn:E.
  - rewrite (H a (or_introl eq_refl) E). cbn. apply IH.
    intros t Ht. apply H. right. exact Ht.
  - rewrite andb_false_r. apply IH. intros t Ht. apply H. right. exact Ht.
Qed.

Lemma stop_untracked_none (w : World) :
  tracked w -> activePrimitives (stop w) = [].
Proof.
  intros Tr. unfold activePrimitives, pendingOf. rewrite stop_tasks, filter_filter.
  apply filter_nothing. exact Tr.
Qed.

Lemma calculate_frame (w : World) :
  let w' := snd (calculateTimeRemaining w) in
  host w' = host w /\ clock w' = clock w /\ tasks w' = tasks w /\
  nextHandle w' = nextHandle w /\ trace w' = trace w /\
  intervalId (engine w') = intervalId (engine w) /\
  rafId (engine w') = rafId (engine w) /\
  updateFrequency (engine w') = updateFrequency (engine w) /\
  yearRange (engine w') = yearRange (engine w) /\
  useHighPrecision (engine w') = useHighPrecision (engine w) /\
  lastUpdateTime (engine w') = lastUpdateTime (engine w).
Proof.
  unfold calculateTimeRemaining.
  destruct (targetDate (engine w)) eqn:E.
  - cbv zeta. destruct (nle _ _); cbn; tauto.
  - cbv zeta. destruct (nle _ _); cbn [snd]; apply setBoxingDay_frame.
Qed.


Lemma calculate_none (w : World) :
  targetDate (engine w) = None ->
  calculateTimeRemaining w = calculateTimeRemaining (setBoxingDay None w).
Proof.
  intros E. destruct (setBoxingDay_target None w) as (d & y & Hd & _).
  unfold calculateTimeRemaining. rewrite E, Hd. reflexivity.
Qed.

Lemma calculate_twice (w : World) :
  calculateTimeRemaining (snd (calculateTimeRemaining w))
  = (fst (calculateTimeRemaining w), snd (calculateTimeRemaining w)).
Proof.
  assert (S : forall v d, targetDate (engine v) = Some d ->
              calculateTimeRemaining (snd (calculateTimeRemaining v))
              = (fst (calculateTimeRemaining v), snd (calculateTimeRemaining v))).
  { intros v d E. pose proof (calculate_unchanged v d E) as U.
    destruct (calculateTimeRemaining v) as [r v1] eqn:C. cbn in *. subst v1. exact C. }
  destruct (targetDate (engine w)) as [d|] eqn:E; [apply (S w d E)|].
  rewrite (calculate_none w E).
  destruct (setBoxingDay_target None w) as (d & y & Hd & _).
  apply (S _ d Hd).
Qed.

(** [update] in terms of the world [calculateTimeRemaining] leaves. *)
Lemma update_via_calculate (w : World) :
  update w = update (snd (calculateTimeRemaining w)).
Proof.
  unfold update at 2. rewrite calculate_twice.
  unfold update. destruct (calculateTimeRemaining w) as [r w1]. reflexivity.
Qed.

Lemma update_incomplete (w : World) :
  isComplete (fst (calculateTimeRemaining w)) = false ->
  update w = emit (OnUpdate (fst (calculateTimeRemaining w)))
                  (snd (calculateTimeRemaining w)).
Proof.
  intros H. unfold update. destruct (calculateTimeRemaining w) as [r w1].
  cbn in *. rewrite H. reflexivity.
Qed.

Lemma update_complete (w : World) :
  isComplete (fst (calculateTimeRemaining w)) = true ->
  update w =
  let w1 := snd (calculateTimeRemaining w) in
  let w4 := emit OnComplete
              (emit (OnUpdate (fst (calculateTimeRemaining w))) (stop w1)) in
  if beforeRangeEnd (engine w1)
  then snd (setTimeout CbRollover (ofZ 5000) w4)
  else w4.
Proof.
  intros H. unfold update. destruct (calculateTimeRemaining w) as [r w1].
  cbn [fst snd] in *. rewrite H. cbv zeta. rewrite stop_emit.
  replace (beforeRangeEnd (engine (emit OnComplete (emit (OnUpdate r) (stop w1)))))
    with (beforeRangeEnd (engine w1))
    by (symmetry; apply beforeRangeEnd_sameSetting; cbn; apply stop_sameSetting).
  reflexivity.
Qed.

Lemma stop_tasks_same (w v : World) :
  tasks v = tasks w -> intervalId (engine v) = intervalId (engine w) ->
  rafId (engine v) = rafId (engine w) -> tasks (stop v) = tasks (stop w).
Proof.
  intros Ht Hi Hr. rewrite !stop_tasks, Ht. apply filter_ext.
  intros t. unfold cancelledByStop. rewrite Hi, Hr. reflexivity.
Qed.

Lemma update_tickers (w : World) :
  activePrimitives (update w) = activePrimitives w \/
  activePrimitives (update w) = activePrimitives (stop w).
Proof.
  destruct (calculate_frame w) as (_ & _ & Ht & _ & _ & Hi & Hr & _).
  destruct (isComplete (fst (calculateTimeRemaining w))) eqn:C.
  - right. rewrite (update_complete w C). cbv zeta.
    unfold activePrimitives, pendingOf.
    destruct (beforeRangeEnd _); cbn.
    + rewrite filter_app. cbn. rewrite app_nil_r.
      f_equal. apply stop_tasks_same; assumption.
    + f_equal. apply stop_tasks_same; assumption.
  - left. rewrite (update_incomplete w C). unfold activePrimitives, pendingOf.
    cbn. rewrite Ht. reflexivity.
Qed.

Lemma update_handles (w : World) :
  (intervalId (engine (update w)) = intervalId (engine w) /\
   rafId (engine (update w)) = rafId (engine w)) \/
  (intervalId (engine (update w)) = None /\ rafId (engine (update w)) = None).
Proof.
  destruct (calculate_frame w) as (_ & _ & Ht & _ & _ & Hi & Hr & _).
  destruct (isComplete (fst (calculateTimeRemaining w))) eqn:C.
  - right. rewrite (update_complete w C). cbv zeta.
    destruct (stop_frame (snd (calculateTimeRemaining w))) as (_ & _ & _ & _ & A & B & _).
    destruct (beforeRangeEnd _); cbn; auto.
  - left. rewrite (update_incomplete w C). cbn. auto.
Qed.

Lemma update_setting (w : World) :
  host (update w) = host w /\ clock (update w) = clock w /\
  updateFrequency (engine (update w)) = updateFrequency (engine w) /\
  yearRange (engine (update w)) = yearRange (engine w) /\
  useHighPrecision (engine (update w)) = useHighPrecision (engine w) /\
  lastUpdateTime (engine (update w)) = lastUpdateTime (engine w) /\
  Pos.le (nextHandle w) (nextHandle (update w)).
Proof.
  destruct (calculate_frame w) as (Hh & Hc & Ht & Hn & _ & Hi & Hr & Hu & Hy & Hp & Hl).
  destruct (isComplete (fst (calculateTimeRemaining w))) eqn:C.
  - rewrite (update_complete w C). cbv zeta.
    destruct (stop_frame (snd (calculateTimeRemaining w))) as (A1 & A2 & A3 & _ & _ & _ & A7).
    destruct (stop_sameSetting (snd (calculateTimeRemaining w)))
      as (_ & _ & _ & _ & _ & _ & B7 & B8 & B9).
    destruct (beforeRangeEnd _); cbn; rewrite ?A1, ?A2, ?A3, ?A7, ?B7, ?B8, ?B9;
      repeat split; try congruence; rewrite Hn; lia.
  - rewrite (update_incomplete w C). cbn. repeat split; try congruence.
    rewrite Hn. lia.
Qed.

Lemma tracked_idle_no_ticker (w : World) :
  tracked w -> intervalId (engine w) = None -> rafId (engine w) = None ->
  activePrimitives w = [].
Proof.
  intros Tr Hi Hr. unfold activePrimitives, pendingOf.
  rewrite <- (filter_nothing isTicker (cancelledByStop (engine w)) (tasks w) Tr).
  apply filter_ext. intros t. unfold cancelledByStop. rewrite Hi, Hr. cbn.
  rewrite !andb_false_r. reflexivity.
Qed.

Lemma start_unfold (w : World) :
  start w =
  let w1 := match intervalId (engine w) with Some _ => stop w | None => w end in
  let w2 := update w1 in
  if frameBranch w2 then rafLoop w2
  else
    withEngine (setIntervalId (Some (nextHandle w2)) (engine w2))
      (withTasks (tasks w2 ++ [{| handle := nextHandle w2;
                                  kind := Interval (timerDelay (updateFrequency (engine w2)));
                                  due := (clock w2 + timerDelay (updateFrequency (engine w2)))%Q;
                                  callback := CbUpdate |}])
         {| host := host w2; clock := clock w2; engine := engine w2; tasks := tasks w2;
            nextHandle := Pos.succ (nextHandle w2); trace := trace w2 |}).
Proof. reflexivity. Qed.


Lemma start_interval_branch (w : World) :
  tracked w -> rafId (engine w) = None -> frameBranch w = false ->
  let w' := start w in
  tracked w' /\ rafId (engine w') = None /\ frameBranch w' = false /\
  exists t,
    activePrimitives w' = [t] /\ intervalId (engine w') = Some (handle t) /\
    kind t = Interval (timerDelay (updateFrequency (engine w))) /\
    due t = (clock w + timerDelay (updateFrequency (engine w)))%Q /\
    callback t = CbUpdate.
Proof.
  intros Tr Hr Hb. cbv zeta. rewrite start_unfold. cbv zeta.
  set (w1 := match intervalId (engine w) with Some _ => stop w | None => w end).
  assert (S1 : host w1 = host w /\ clock w1 = clock w /\
               updateFrequency (engine w1) = updateFrequency (engine w) /\
               rafId (engine w1) = None /\ activePrimitives w1 = []).
  { unfold w1. destruct (intervalId (engine w)) eqn:Ei.
    - destruct (stop_frame w) as (A1 & A2 & _ & _ & _ & A6 & _).
      destruct (stop_sameSetting w) as (_ & _ & _ & _ & _ & _ & B7 & _).
      repeat split; try assumption. apply stop_untracked_none, Tr.
    - repeat split; try assumption. apply tracked_idle_no_ticker; assumption. }
  destruct S1 as (H1 & C1 & U1 & R1 & P1).
  set (w2 := update w1).
  destruct (update_setting w1) as (H2 & C2 & U2 & _).
  fold w2 in H2, C2, U2.
  assert (R2 : rafId (engine w2) = None).
  { destruct (update_handles w1) as [[_ E] | [_ E]]; fold w2 in E; congruence. }
  assert (P2 : activePrimitives w2 = []).
  { destruct (update_tickers w1) as [E | E]; fold w2 in E; rewrite E; [exact P1|].
    unfold activePrimitives, pendingOf in *. rewrite stop_tasks, filter_filter.
    apply filter_nothing. intros t Ht Hk.
    assert (In t (filter isTicker (tasks w1))) by (apply filter_In; auto).
    rewrite P1 in H. contradiction. }
  assert (B2 : frameBranch w2 = false).
  { unfold frameBranch in *. rewrite H2, H1, U2, U1. exact Hb. }
  rewrite B2.
  set (t := {| handle := nextHandle w2; kind := _; due := _; callback := CbUpdate |}).
  assert (A : activePrimitives
                (withEngine (setIntervalId (Some (nextHandle w2)) (engine w2))
                   (withTasks (tasks w2 ++ [t])
                      {| host := host w2; clock := clock w2; engine := engine w2;
                         tasks := tasks w2; nextHandle := Pos.succ (nextHandle w2);
                         trace := trace w2 |})) = [t]).
  { unfold activePrimitives, pendingOf in *. cbn [tasks withEngine withTasks].
    rewrite filter_app, P2. reflexivity. }
  split.
  { intros u Hu Hk.
    assert (Hin : In u [t]).
    { rewrite <- A. unfold activePrimitives, pendingOf. apply filter_In. auto. }
    destruct Hin as [<- | []]. unfold cancelledByStop. cbn.
    rewrite Pos.eqb_refl. reflexivity. }
  split; [cbn; exact R2|].
  split; [unfold frameBranch in *; cbn; exact B2|].
  exists t. split; [exact A|]. split; [reflexivity|].
  unfold t. cbn. rewrite U2, U1, C2, C1. repeat split; reflexivity.
Qed.

(* ------------------------------------------------------------------ *)
(** ** Ticks and completions *)

Lemma update_trace (w : World) :
  trace (update w) =
  (if isComplete (fst (calculateTimeRemaining w)) then [OnComplete] else [])
    ++ OnUpdate (fst (calculateTimeRemaining w)) :: trace w.
Proof.
  destruct (calculate_frame w) as (_ & _ & _ & _ & Ht & _).
  destruct (isComplete (fst (calculateTimeRemaining w))) eqn:C.
  - rewrite (update_complete w C). cbv zeta.
    destruct (stop_frame (snd (calculateTimeRemaining w))) as (_ & _ & _ & A & _).
    destruct (beforeRangeEnd _); cbn; rewrite A, Ht; reflexivity.
  - rewrite (update_incomplete w C). cbn. rewrite Ht. reflexivity.
Qed.

Lemma update_tickCount (w : World) : tickCount (update w) = S (tickCount w).
Proof.
  unfold tickCount. rewrite update_trace.
  destruct (isComplete _); reflexivity.
Qed.

Lemma update_completeCount (w : World) :
  completeCount (update w) =
  if isComplete (fst (calculateTimeRemaining w))
  then S (completeCount w) else completeCount w.
Proof.
  unfold completeCount. rewrite update_trace.
  destruct (isComplete _); reflexivity.
Qed.

Lemma rafLoop_unfold (w : World) :
  rafLoop w =
  let w1 := if rafDue w
            then withEngine (setLastUpdateTime (getHighPrecisionTime w)
                                               (engine (update w))) (update w)
            else w in
  withEngine (setRafId (Some (nextHandle w1)) (engine w1))
    {| host := host w1; clock := clock w1; engine := engine w1;
       tasks := tasks w1 ++ [frameTask w1];
       nextHandle := Pos.succ (nextHandle w1); trace := trace w1 |}.
Proof. reflexivity. Qed.

Lemma rafLoop_tickCount (w : World) :
  tickCount (rafLoop w) = if rafDue w then S (tickCount w) else tickCount w.
Proof.
  rewrite rafLoop_unfold. cbv zeta. unfold tickCount at 1. cbn [trace withEngine].
  destruct (rafDue w); [|reflexivity].
  cbn [trace withEngine]. apply update_tickCount.
Qed.

Lemma start_first_step_trace (w : World) :
  trace (match intervalId (engine w) with Some _ => stop w | None => w end) = trace w.
Proof. destruct (intervalId (engine w)); [apply stop_frame | reflexivity]. Qed.

Lemma start_first_step_setting (w : World) :
  let w1 := match intervalId (engine w) with Some _ => stop w | None => w end in
  host w1 = host w /\ clock w1 = clock w /\
  updateFrequency (engine w1) = updateFrequency (engine w) /\
  lastUpdateTime (engine w1) = lastUpdateTime (engine w) /\
  useHighPrecision (engine w1) = useHighPrecision (engine w) /\
  targetDate (engine w1) = targetDate (engine w) /\
  targetYear (engine w1) = targetYear (engine w) /\
  yearRange (engine w1) = yearRange (engine w) /\
  nextHandle w1 = nextHandle w.
Proof.
  cbv zeta. destruct (intervalId (engine w)).
  - destruct (stop_frame w) as (A1 & A2 & A3 & _ & _ & _ & A7).
    destruct (stop_sameSetting w) as (_ & _ & B3 & B4 & _ & _ & B7 & B8 & B9).
    repeat split; assumption.
  - repeat split.
Qed.

Lemma frameBranch_update (w : World) : frameBranch (update w) = frameBranch w.
Proof.
  destruct (update_setting w) as (H & _ & U & _). unfold frameBranch.
  rewrite H, U. reflexivity.
Qed.

Lemma frameBranch_first_step (w : World) :
  frameBranch (match intervalId (engine w) with Some _ => stop w | None => w end)
  = frameBranch w.
Proof.
  destruct (start_first_step_setting w) as (H & _ & U & _). unfold frameBranch.
  cbv zeta in H, U. rewrite H, U. reflexivity.
Qed.

Lemma start_tickCount (w : World) :
  let w2 := update (match intervalId (engine w) with Some _ => stop w | None => w end) in
  tickCount (start w) =
  if frameBranch w && rafDue w2 then S (S (tickCount w)) else S (tickCount w).
Proof.
  cbv zeta. rewrite start_unfold. cbv zeta.
  set (w1 := match intervalId (engine w) with Some _ => stop w | None => w end).
  assert (T1 : tickCount w1 = tickCount w)
    by (unfold tickCount, w1; rewrite start_first_step_trace; reflexivity).
  assert (B : frameBranch (update w1) = frameBranch w)
    by (rewrite frameBranch_update; apply frameBranch_first_step).
  rewrite B. destruct (frameBranch w); cbn [andb].
  - rewrite rafLoop_tickCount, update_tickCount, T1. reflexivity.
  - unfold tickCount at 1. cbn [trace withEngine withTasks].
    fold (tickCount (update w1)). rewrite update_tickCount, T1. reflexivity.
Qed.

Lemma getHighPrecisionTime_ext (w v : World) :
  useHighPrecision (engine v) = useHighPrecision (engine w) ->
  clock v = clock w -> getHighPrecisionTime v = getHighPrecisionTime w.
Proof.
  intros H C. unfold getHighPrecisionTime, performanceTime, dateNow, currentDate.
  rewrite H, C. reflexivity.
Qed.

Lemma getHighPrecisionTime_mono (w v : World) (a : Q) :
  useHighPrecision (engine v) = useHighPrecision (engine w) ->
  (clock w <= clock v)%Q ->
  getHighPrecisionTime w = Fin a ->
  exists b, getHighPrecisionTime v = Fin b /\ (a <= b)%Q.
Proof.
  intros H C E. unfold getHighPrecisionTime, performanceTime, dateNow, currentDate in *.
  rewrite H. destruct (useHighPrecision (engine w)).
  - unfold fin in *. injection E as <-. eexists. split; [reflexivity|].
    rewrite !Qred_correct. exact C.
  - unfold ofZ in *. injection E as <-. eexists. split; [reflexivity|].
    rewrite <- Zle_Qle. apply Qfloor_resp_le. exact C.
Qed.

Lemma timerDelay_nonneg (n : Num) : (0 <= timerDelay n)%Q.
Proof.
  unfold timerDelay. destruct n; try apply Qle_refl.
  cbv zeta. change 0%Q with (inject_Z 0). rewrite <- Zle_Qle. lia.
Qed.

Lemma update_complete_parts (w : World) (d : JSDate) :
  targetDate (engine w) = Some d ->
  isComplete (fst (calculateTimeRemaining w)) = true ->
  tasks (update w)
  = tasks (stop w) ++ (if beforeRangeEnd (engine w) then [rolloverTask w] else []) /\
  nextHandle (update w)
  = (if beforeRangeEnd (engine w) then Pos.succ (nextHandle w) else nextHandle w) /\
  intervalId (engine (update w)) = None /\ rafId (engine (update w)) = None.
Proof.
  intros Hd C. rewrite (update_complete w C). cbv zeta.
  rewrite (calculate_unchanged w d Hd).
  destruct (stop_frame w) as (_ & A2 & A3 & _ & A5 & A6 & _).
  destruct (beforeRangeEnd (engine w)); cbn.
  - unfold rolloverTask. rewrite A2, A3. repeat split; assumption.
  - rewrite app_nil_r. repeat split; assumption.
Qed.

Lemma requeue_keeps (t u : Task) (ts : list Task) :
  In u ts -> handle u <> handle t -> In u (requeue t ts).
Proof.
  intros Hin Hne. unfold requeue.
  assert (S : sameTask t u = false)
    by (unfold sameTask; apply Pos.eqb_neq; congruence).
  destruct (kind t).
  - apply in_map_iff. exists u. rewrite S. auto.
  - apply filter_In. rewrite S. auto.
  - apply filter_In. rewrite S. auto.
Qed.

Lemma start_on_reached_general (w : World) (T : Z) (c : Q) :
  targetDate (engine w) = Some (DateAt T) ->
  getHighPrecisionTime w = Fin c ->
  (inject_Z T <= c)%Q ->
  frameBranch w = false ->
  let w' := start w in
  exists t,
    In t (tasks w') /\ intervalId (engine w') = Some (handle t) /\
    callback t = CbUpdate /\
    completeCount w' = S (completeCount w) /\
    completeCount (fire t w') = S (S (completeCount w)) /\
    intervalId (engine (fire t w')) = None /\
    rafId (engine (fire t w')) = None /\
    (beforeRangeEnd (engine w) = true ->
     exists r1 r2,
       handle r1 <> handle r2 /\ isRollover r1 = true /\ isRollover r2 = true /\
       In r1 (tasks (fire t w')) /\ In r2 (tasks (fire t w'))).
Proof.
  intros Hd Hn Hle Hb. cbv zeta. rewrite start_unfold. cbv zeta.
  set (w1 := match intervalId (engine w) with Some _ => stop w | None => w end).
  destruct (start_first_step_setting w)
    as (S1 & S2 & S3 & S4 & S5 & S6 & S7 & S8 & S9).
  cbv zeta in S1, S2, S3, S4, S5, S6, S7, S8, S9.
  fold w1 in S1, S2, S3, S4, S5, S6, S7, S8, S9.
  assert (Hd1 : targetDate (engine w1) = Some (DateAt T)) by congruence.
  assert (Hn1 : getHighPrecisionTime w1 = Fin c)
    by (rewrite <- Hn; apply getHighPrecisionTime_ext; assumption).
  pose proof (complete_general w1 T c Hd1 Hn1 Hle) as C1.
  assert (K1 : isComplete (fst (calculateTimeRemaining w1)) = true)
    by (rewrite C1; reflexivity).
  set (w2 := update w1).
  destruct (update_complete_parts w1 _ Hd1 K1) as (P1 & P2 & P3 & P4).
  fold w2 in P1, P2, P3, P4.
  destruct (update_setting w1) as (U1 & U2 & U3 & U4 & U5 & U6 & U7).
  fold w2 in U1, U2, U3, U4, U5, U6, U7.
  pose proof (update_sameSetting w1 _ Hd1) as SS. fold w2 in SS.
  destruct SS as (_ & _ & SS3 & SS4 & _).
  assert (B2 : frameBranch w2 = false).
  { unfold w2. rewrite frameBranch_update. unfold w1.
    rewrite frameBranch_first_step. exact Hb. }
  rewrite B2.
  assert (BR : beforeRangeEnd (engine w1) = beforeRangeEnd (engine w))
    by (unfold beforeRangeEnd; rewrite S7, S8; reflexivity).
  set (t := {| handle := nextHandle w2; kind := _; due := _; callback := CbUpdate |}).
  set (w3 := withEngine _ _).
  exists t.
  assert (CC2 : completeCount w2 = S (completeCount w)).
  { unfold w2. rewrite update_completeCount, K1. f_equal.
    unfold completeCount, w1. rewrite start_first_step_trace. reflexivity. }
  (* the world in which the interval callback runs *)
  set (v := withClock (if Qle_bool (clock w3) (due t) then due t else clock w3)
              (withTasks (requeue t (tasks w3)) w3)).
  assert (Fv : fire t w3 = update v) by reflexivity.
  assert (Hdv : targetDate (engine v) = Some (DateAt T)) by (cbn; congruence).
  assert (Clk : (clock w <= clock v)%Q).
  { cbn [v clock withClock]. change (clock w3) with (clock w2).
    destruct (Qle_bool (clock w2) (due t)) eqn:E.
    - apply Qle_bool_iff in E. rewrite <- S2, <- U2. exact E.
    - rewrite U2, S2. apply Qle_refl. }
  destruct (getHighPrecisionTime_mono w v c) as (b & Hnv & Hcb);
    [cbn; congruence | exact Clk | exact Hn |].
  pose proof (complete_general v T b Hdv Hnv ltac:(lra)) as Cv.
  assert (Kv : isComplete (fst (calculateTimeRemaining v)) = true)
    by (rewrite Cv; reflexivity).
  destruct (update_complete_parts v _ Hdv Kv) as (V1 & V2 & V3 & V4).
  split; [cbn; apply in_or_app; right; left; reflexivity|].
  split; [reflexivity|]. split; [reflexivity|].
  split; [exact CC2|].
  split; [rewrite Fv, update_completeCount, Kv; f_equal; exact CC2|].
  split; [rewrite Fv; exact V3|]. split; [rewrite Fv; exact V4|].
  intros Bw.
  assert (Bv : beforeRangeEnd (engine v) = true).
  { unfold beforeRangeEnd. cbn. unfold beforeRangeEnd in Bw.
    rewrite SS4, U4, S7, S8. exact Bw. }
  rewrite BR, Bw in P1, P2. rewrite Bv in V1.
  exists (rolloverTask w1), (rolloverTask v).
  split.
  { cbn. rewrite P2, S9. lia. }
  split; [reflexivity|]. split; [reflexivity|].
  rewrite Fv, V1. split; apply in_or_app; [left | right; left; reflexivity].
  apply stop_keeps_timeout; [|reflexivity|].
  - cbn [v tasks withClock withTasks]. apply requeue_keeps.
    + cbn. rewrite P1. apply in_or_app. left. apply in_or_app. right. left. reflexivity.
    + cbn. rewrite P2. lia.
  - cbn. rewrite P2. intros E. injection E as E. lia.
Qed.

(* ------------------------------------------------------------------ *)
(** ** Explicit years, the clock, and the default target *)

Lemma boxingDay_two_digit (tz y : Z) :
  0 <= y <= 99 -> boxingDay tz y = boxingDay tz (1900 + y).
Proof.
  intros H. unfold boxingDay, newDate.
  replace ((0 <=? y) && (y <=? 99)) with true
    by (symmetry; apply andb_true_iff; split; apply Z.leb_le; lia).
  rewrite (full_year (1900 + y)) by lia. reflexivity.
Qed.

Lemma setBoxingDay_zero (w : World) : setBoxingDay (Some 0) w = setBoxingDay None w.
Proof. unfold setBoxingDay. cbv zeta. change (0 =? 0) with true. cbv iota. reflexivity. Qed.

Lemma setBoxingDay_explicit_general (w : World) (y : Z) :
  y <> 0 ->
  let tz := tza (host w) in
  let w' := setBoxingDay (Some y) w in
  targetYear (engine w') = Some y /\
  targetDate (engine w') = Some (boxingDay tz y) /\
  tasks w' = tasks w /\ trace w' = trace w /\ clock w' = clock w /\
  intervalId (engine w') = intervalId (engine w) /\
  rafId (engine w') = rafId (engine w) /\
  (forall t, boxingDay tz y = DateAt t ->
     getFullYear tz t = (if (0 <=? y) && (y <=? 99) then 1900 + y else y) /\
     getMonth tz t = 11 /\ getDate tz t = 26 /\
     TimeWithinDay (LocalTime tz t) = 0).
Proof.
  intros Hy. cbv zeta.
  destruct (setBoxingDay_given y w Hy) as [Hd Hyr].
  destruct (setBoxingDay_frame (Some y) w) as (_ & F2 & F3 & _ & F5 & F6 & F7 & _).
  split; [exact Hyr|]. split; [exact Hd|]. split; [exact F3|]. split; [exact F5|].
  split; [exact F2|]. split; [exact F6|]. split; [exact F7|].
  clear Hd Hyr F2 F3 F5 F6 F7.
  intros t Ht.
  destruct (Z.leb_spec 0 y) as [A|A]; destruct (Z.leb_spec y 99) as [B|B]; cbn [andb].
  - rewrite boxingDay_two_digit in Ht by (split; assumption).
    apply boxingDay_fields; [|exact Ht]. intros [C1 C2]. clear - A C2. lia.
  - apply boxingDay_fields; [|exact Ht]. intros [C1 C2]. clear - B C2. lia.
  - apply boxingDay_fields; [|exact Ht]. intros [C1 C2]. clear - A C1. lia.
  - apply boxingDay_fields; [|exact Ht]. intros [C1 C2]. clear - A C1. lia.
Qed.

(* calculateTimeRemaining: reading, and the default target *)
Lemma calculate_lazy_default (w : World) :
  (forall d, targetDate (engine w) = Some d -> snd (calculateTimeRemaining w) = w) /\
  (targetDate (engine w) = None ->
   calculateTimeRemaining w = calculateTimeRemaining (setBoxingDay None w) /\
   snd (calculateTimeRemaining w) = setBoxingDay None w).
Proof.
  split; [apply calculate_unchanged|].
  intros E. split; [apply calculate_none, E|].
  rewrite (calculate_none w E).
  destruct (setBoxingDay_target None w) as (d & y & Hd & _).
  apply (calculate_unchanged _ d Hd).
Qed.

(* ------------------------------------------------------------------ *)
(** ** Rendering of units and of the remaining time *)









(* readable *)
Lemma append_not_empty_r (s1 s2 : string) : s2 <> EmptyString -> (s1 ++ s2)%string <> EmptyString.
Proof. destruct s1; cbn; [auto | discriminate]. Qed.

Lemma part_not_empty (h : Host) (n : Num) (u : string) : part h n u <> EmptyString.
Proof. unfold part. apply append_not_empty_r. discriminate. Qed.

Lemma join_not_empty (sep s : string) (rest : list string) :
  s <> EmptyString -> join sep (s :: rest) <> EmptyString.
Proof.
  intros H. cbn. destruct rest; [exact H|].
  destruct s; [congruence | discriminate].
Qed.

Lemma readable_empty_iff (h : Host) (r : Remaining) :
  isComplete r = false ->
  (readable h r = EmptyString <->
   ngt (months r) (ofZ 0) = false /\ ngt (weeks r) (ofZ 0) = false /\
   ngt (days r) (ofZ 0) = false /\ ngt (hours r) (ofZ 0) = false /\
   ngt (minutes r) (ofZ 0) = false /\ ngt (seconds r) (ofZ 0) = false).
Proof.
  intros Hc. unfold readable. rewrite Hc. cbv zeta.
  pose proof (part_not_empty h (months r) "month") as P1.
  pose proof (part_not_empty h (weeks r) "week") as P2.
  pose proof (part_not_empty h (days r) "day") as P3.
  pose proof (part_not_empty h (hours r) "hour") as P4.
  pose proof (part_not_empty h (minutes r) "minute") as P5.
  pose proof (part_not_empty h (seconds r) "second") as P6.
  generalize dependent (part h (months r) "month").
  generalize dependent (part h (weeks r) "week").
  generalize dependent (part h (days r) "day").
  generalize dependent (part h (hours r) "hour").
  generalize dependent (part h (minutes r) "minute").
  generalize dependent (part h (seconds r) "second").
  intros s6 P6 s5 P5 s4 P4 s3 P3 s2 P2 s1 P1.
  destruct (ngt (months r) (ofZ 0)), (ngt (weeks r) (ofZ 0)), (ngt (days r) (ofZ 0)),
    (ngt (hours r) (ofZ 0)), (ngt (minutes r) (ofZ 0)), (ngt (seconds r) (ofZ 0));
    unfold pushIf; cbn [app];
    (split; [intros E; exfalso; revert E; apply join_not_empty; assumption
            | intros (? & ? & ? & ? & ? & ?); discriminate])
    || (split; [intros _; repeat split | intros _; reflexivity]).
Qed.

(* ------------------------------------------------------------------ *)
(** ** Reachable pages *)

Lemma handlesFresh_same (w v : World) :
  tasks v = tasks w -> nextHandle v = nextHandle w ->
  intervalId (engine v) = intervalId (engine w) ->
  rafId (engine v) = rafId (engine w) ->
  handlesFresh w -> handlesFresh v.
Proof.
  intros Ht Hn Hi Hr (F1 & F2 & F3 & F4). unfold handlesFresh.
  rewrite Ht, Hn, Hi, Hr. auto.
Qed.

Lemma setBoxingDay_fresh (y : option Z) (w : World) :
  handlesFresh w -> handlesFresh (setBoxingDay y w).
Proof.
  destruct (setBoxingDay_frame y w) as (_ & _ & Ht & Hn & _ & Hi & Hr & _).
  apply handlesFresh_same; assumption.
Qed.

Lemma calculate_fresh (w : World) :
  handlesFresh w -> handlesFresh (snd (calculateTimeRemaining w)).
Proof.
  destruct (calculate_frame w) as (_ & _ & Ht & Hn & _ & Hi & Hr & _).
  apply handlesFresh_same; assumption.
Qed.

Lemma stop_fresh (w : World) : handlesFresh w -> handlesFresh (stop w).
Proof.
  intros (F1 & F2 & F3 & F4).
  destruct (stop_frame w) as (_ & _ & Hn & _ & Hi & Hr & _).
  unfold handlesFresh. rewrite Hn, Hi, Hr.
  split; [intros t Ht; apply F1, stop_tasks_incl, Ht|].
  repeat split; discriminate.
Qed.

Lemma emit_fresh (ev : Event) (w : World) : handlesFresh w -> handlesFresh (emit ev w).
Proof. apply handlesFresh_same; reflexivity. Qed.

Lemma schedule_idle_fresh (k : TaskKind) (q : Q) (cb : Callback) (w : World) :
  handlesFresh w -> handlesFresh (snd (schedule k q cb w)).
Proof.
  intros (F1 & F2 & F3 & F4). unfold handlesFresh, schedule. cbn.
  split.
  { intros t Ht. apply in_app_or in Ht as [Ht | [<- | []]].
    - specialize (F1 t Ht). lia.
    - cbn. lia. }
  split; [intros i Hi; specialize (F2 i Hi); lia|].
  split; [intros i Hi; specialize (F3 i Hi); lia|].
  intros t Ht Hi. apply in_app_or in Ht as [Ht | [<- | []]].
  - apply F4; assumption.
  - cbn in Hi. specialize (F2 _ Hi). lia.
Qed.

Lemma update_fresh (w : World) : handlesFresh w -> handlesFresh (update w).
Proof.
  intros F. apply calculate_fresh in F.
  destruct (isComplete (fst (calculateTimeRemaining w))) eqn:C.
  - rewrite (update_complete w C). cbv zeta.
    apply stop_fresh in F.
    apply (emit_fresh (OnUpdate (fst (calculateTimeRemaining w)))) in F.
    apply (emit_fresh OnComplete) in F.
    destruct (beforeRangeEnd _); [|exact F].
    apply schedule_idle_fresh. exact F.
  - rewrite (update_incomplete w C). apply emit_fresh. exact F.
Qed.

Lemma rafLoop_fresh (w : World) : handlesFresh w -> handlesFresh (rafLoop w).
Proof.
  intros F. rewrite rafLoop_unfold. cbv zeta.
  set (w1 := if rafDue w then _ else w).
  assert (F1 : handlesFresh w1).
  { unfold w1. destruct (rafDue w); [|exact F].
    apply (handlesFresh_same (update w)); try reflexivity. apply update_fresh, F. }
  destruct F1 as (A1 & A2 & A3 & A4). unfold handlesFresh. cbn.
  split.
  { intros t Ht. apply in_app_or in Ht as [Ht | [<- | []]].
    - specialize (A1 t Ht). lia.
    - cbn. lia. }
  split; [intros i Hi; specialize (A2 i Hi); lia|].
  split; [intros i Hi; injection Hi as <-; lia|].
  intros t Ht Hi. apply in_app_or in Ht as [Ht | [<- | []]].
  - apply A4; assumption.
  - cbn in Hi. specialize (A2 _ Hi). lia.
Qed.

Lemma start_fresh (w : World) : handlesFresh w -> handlesFresh (start w).
Proof.
  intros F. rewrite start_unfold. cbv zeta.
  set (w1 := match intervalId (engine w) with Some _ => stop w | None => w end).
  assert (F1 : handlesFresh w1)
    by (unfold w1; destruct (intervalId (engine w)); [apply stop_fresh|]; exact F).
  apply update_fresh in F1. set (w2 := update w1) in *.
  destruct (frameBranch w2); [apply rafLoop_fresh, F1|].
  destruct F1 as (A1 & A2 & A3 & A4). unfold handlesFresh. cbn.
  split.
  { intros t Ht. apply in_app_or in Ht as [Ht | [<- | []]].
    - specialize (A1 t Ht). lia.
    - cbn. lia. }
  split; [intros i Hi; injection Hi as <-; lia|].
  split; [intros i Hi; specialize (A3 i Hi); lia|].
  intros t Ht Hi. apply in_app_or in Ht as [Ht | [<- | []]].
  - injection Hi as Hi. specialize (A1 t Ht). lia.
  - reflexivity.
Qed.

Lemma requeue_fresh (t : Task) (w : World) :
  handlesFresh w -> handlesFresh (withTasks (requeue t (tasks w)) w).
Proof.
  intros (F1 & F2 & F3 & F4). unfold handlesFresh. cbn.
  assert (R : forall u, In u (requeue t (tasks w)) ->
              exists u0, In u0 (tasks w) /\ handle u = handle u0 /\
                         isTicker u = isTicker u0).
  { intros u Hu. unfold requeue in Hu. destruct (kind t).
    - apply in_map_iff in Hu as (u0 & E & H0). exists u0. split; [exact H0|].
      destruct (sameTask t u0); subst u; auto.
    - apply filter_In in Hu as [H0 _]. eauto.
    - apply filter_In in Hu as [H0 _]. eauto. }
  split; [intros u Hu; destruct (R u Hu) as (u0 & H0 & E & _); rewrite E; auto|].
  split; [exact F2|]. split; [exact F3|].
  intros u Hu Hi. destruct (R u Hu) as (u0 & H0 & E & K). rewrite K.
  apply F4; [exact H0 | congruence].
Qed.

Lemma fire_fresh (t : Task) (w : World) : handlesFresh w -> handlesFresh (fire t w).
Proof.
  intros F. unfold fire.
  set (v := withClock _ _).
  assert (Fv : handlesFresh v).
  { apply (handlesFresh_same (withTasks (requeue t (tasks w)) w)); try reflexivity.
    apply requeue_fresh, F. }
  destruct (callback t); cbn [runCallback].
  - apply update_fresh, Fv.
  - apply rafLoop_fresh, Fv.
  - unfold rollover. apply start_fresh, setBoxingDay_fresh, Fv.
Qed.

Lemma step_fresh (w w' : World) : step w w' -> handlesFresh w -> handlesFresh w'.
Proof.
  intros S F. destruct S.
  - apply setBoxingDay_fresh, F.
  - exact F.
  - apply calculate_fresh, F.
  - unfold getReadableTime. destruct r; [exact F|].
    pose proof (calculate_fresh w F) as C.
    destruct (calculateTimeRemaining w); exact C.
  - exact F.
  - apply start_fresh, F.
  - apply stop_fresh, F.
  - exact F.
  - apply fire_fresh, F.
Qed.

Lemma reachable_fresh (w : World) : reachable w -> handlesFresh w.
Proof.
  induction 1 as [h o now | w w' _ IH S].
  - unfold handlesFresh. cbn. repeat split; intros; try contradiction; discriminate.
  - exact (step_fresh w w' S IH).
Qed.

(* ------------------------------------------------------------------ *)
(** ** What never changes on a page *)

Lemma sameConfig_refl (w : World) : sameConfig w w.
Proof. unfold sameConfig. tauto. Qed.

Lemma sameConfig_trans (a b c : World) :
  sameConfig a b -> sameConfig b c -> sameConfig a c.
Proof.
  unfold sameConfig. intros (A1 & A2 & A3 & A4) (B1 & B2 & B3 & B4).
  repeat split; congruence.
Qed.

Lemma setBoxingDay_config (y : option Z) (w : World) : sameConfig w (setBoxingDay y w).
Proof.
  destruct (setBoxingDay_frame y w) as (H & _ & _ & _ & _ & _ & _ & U & R & P & _).
  unfold sameConfig. tauto.
Qed.

Lemma stop_config (w : World) : sameConfig w (stop w).
Proof.
  destruct (stop_sameSetting w) as (H & _ & _ & _ & _ & _ & U & R & P).
  unfold sameConfig. tauto.
Qed.

Lemma update_config (w : World) : sameConfig w (update w).
Proof.
  destruct (update_setting w) as (H & _ & U & R & P & _). unfold sameConfig. tauto.
Qed.

Lemma rafLoop_config (w : World) : sameConfig w (rafLoop w).
Proof.
  rewrite rafLoop_unfold. cbv zeta. destruct (rafDue w).
  - destruct (update_config w) as (H & U & R & P). unfold sameConfig. cbn. tauto.
  - unfold sameConfig. cbn. tauto.
Qed.

Lemma start_config (w : World) : sameConfig w (start w).
Proof.
  rewrite start_unfold. cbv zeta.
  set (w1 := match intervalId (engine w) with Some _ => stop w | None => w end).
  assert (C1 : sameConfig w w1)
    by (unfold w1; destruct (intervalId (engine w));
        [apply stop_config | apply sameConfig_refl]).
  pose proof (update_config w1) as C2.
  destruct (frameBranch (update w1)).
  - eapply sameConfig_trans; [exact C1|].
    eapply sameConfig_trans; [exact C2|]. apply rafLoop_config.
  - eapply sameConfig_trans; [exact C1|].
    eapply sameConfig_trans; [exact C2|]. unfold sameConfig. cbn. tauto.
Qed.

Lemma fire_config (t : Task) (w : World) : sameConfig w (fire t w).
Proof.
  unfold fire. set (v := withClock _ _).
  assert (Cv : sameConfig w v) by (unfold sameConfig; cbn; tauto).
  eapply sameConfig_trans; [exact Cv|].
  destruct (callback t); cbn [runCallback].
  - apply update_config.
  - apply rafLoop_config.
  - unfold rollover. eapply sameConfig_trans;
      [apply setBoxingDay_config | apply start_config].
Qed.

Lemma step_config (w w' : World) : step w w' -> sameConfig w w'.
Proof.
  intros S. destruct S.
  - apply setBoxingDay_config.
  - unfold sameConfig. cbn. tauto.
  - destruct (calculate_frame w) as (H & _ & _ & _ & _ & _ & _ & U & R & P & _).
    unfold sameConfig. tauto.
  - unfold getReadableTime. destruct r; [apply sameConfig_refl|].
    destruct (calculate_frame w) as (H & _ & _ & _ & _ & _ & _ & U & R & P & _).
    destruct (calculateTimeRemaining w). unfold sameConfig. cbn in *. tauto.
  - apply sameConfig_refl.
  - apply start_config.
  - apply stop_config.
  - unfold sameConfig. cbn. tauto.
  - apply fire_config.
Qed.

Lemma reachable_config (w : World) :
  reachable w ->
  yearRange (engine w) = {| yr_start := 2024; yr_end := 2035 |} /\
  truthy (updateFrequency (engine w)) = true.
Proof.
  induction 1 as [h o now | w w' _ IH S].
  - split; [reflexivity|]. cbn.
    destruct (opt_updateFrequency o) as [f|]; [|reflexivity].
    destruct (truthy f) eqn:E; [exact E | reflexivity].
  - destruct (step_config w w' S) as (_ & U & R & _). rewrite U, R. exact IH.
Qed.

Lemma reachable_stop_keeps (w : World) (t : Task) :
  reachable w -> In t (tasks w) -> isRollover t = true -> In t (tasks (stop w)).
Proof.
  intros R Hin Hr. destruct (reachable_fresh w R) as (_ & _ & _ & F4).
  destruct (isRollover_inv t Hr) as [Hk Hc].
  apply stop_keeps_timeout; [exact Hin | exact Hk |].
  intros Hi. specialize (F4 t Hin Hi). unfold isTicker in F4.
  rewrite Hk in F4. discriminate.
Qed.

Lemma forYears_configured (tz : Z) :
  map year (forYears tz 2024 2035)
  = [2024; 2025; 2026; 2027; 2028; 2029; 2030; 2031; 2032; 2033; 2034; 2035].
Proof.
  repeat (rewrite forYears_le by lia; cbn [map year occurrence Z.add Pos.add Pos.succ]).
  rewrite forYears_gt by lia. reflexivity.
Qed.

(* ------------------------------------------------------------------ *)
(** ** Restarting, and the year selector *)

Lemma stop_no_ticker (w : World) :
  activePrimitives w = [] -> activePrimitives (stop w) = [].
Proof.
  intros H. unfold activePrimitives, pendingOf in *.
  rewrite stop_tasks, filter_filter. apply filter_nothing.
  intros t Ht Hk.
  assert (In t (filter isTicker (tasks w))) by (apply filter_In; auto).
  rewrite H in *. contradiction.
Qed.

Lemma update_no_ticker (w : World) :
  activePrimitives w = [] -> activePrimitives (update w) = [].
Proof.
  intros H. destruct (update_tickers w) as [E | E]; rewrite E;
    [exact H | apply stop_no_ticker, H].
Qed.

Lemma rafLoop_from_no_ticker (w : World) :
  activePrimitives w = [] ->
  exists t,
    activePrimitives (rafLoop w) = [t] /\ kind t = AnimationFrame /\
    callback t = CbRafLoop /\ rafId (engine (rafLoop w)) = Some (handle t).
Proof.
  intros H. rewrite rafLoop_unfold. cbv zeta.
  set (w1 := if rafDue w then _ else w).
  assert (H1 : activePrimitives w1 = []).
  { unfold w1. destruct (rafDue w); [|exact H].
    unfold activePrimitives, pendingOf. cbn [tasks withEngine].
    apply update_no_ticker, H. }
  exists (frameTask w1). unfold activePrimitives, pendingOf in *. cbn.
  rewrite filter_app, H1. repeat split; reflexivity.
Qed.

Lemma start_from_no_ticker (w : World) :
  activePrimitives w = [] ->
  exists t,
    activePrimitives (start w) = [t] /\
    cancelledByStop (engine (start w)) t = true /\
    kind t = (if frameBranch w then AnimationFrame
              else Interval (timerDelay (updateFrequency (engine w)))).
Proof.
  intros H. rewrite start_unfold. cbv zeta.
  set (w1 := match intervalId (engine w) with Some _ => stop w | None => w end).
  assert (H1 : activePrimitives w1 = [])
    by (unfold w1; destruct (intervalId (engine w)); [apply stop_no_ticker|]; exact H).
  pose proof (update_no_ticker w1 H1) as H2.
  assert (B : frameBranch (update w1) = frameBranch w)
    by (rewrite frameBranch_update; apply frameBranch_first_step).
  rewrite B. destruct (frameBranch w).
  - destruct (rafLoop_from_no_ticker (update w1) H2) as (t & A & K & C & R).
    exists t. split; [exact A|]. split; [|exact K].
    unfold cancelledByStop. rewrite K, R. cbn. rewrite Pos.eqb_refl.
    rewrite ?orb_true_r. reflexivity.
  - eexists. unfold activePrimitives, pendingOf in *. cbn.
    rewrite filter_app, H2. cbn. split; [reflexivity|].
    unfold cancelledByStop. cbn. rewrite Pos.eqb_refl. cbn.
    split; [reflexivity|].
    destruct (update_setting w1) as (_ & _ & U & _).
    destruct (start_first_step_setting w) as (_ & _ & U1 & _).
    cbv zeta in U1. fold w1 in U1. rewrite U, U1. reflexivity.
Qed.

Lemma tickers_after_set (w v : World) :
  tasks v = tasks w -> activePrimitives v = activePrimitives w.
Proof. intros H. unfold activePrimitives, pendingOf. rewrite H. reflexivity. Qed.

Lemma restart_pattern (w : World) (set : World -> World) :
  tracked w ->
  (forall v, tasks (set v) = tasks v) ->
  exists t,
    activePrimitives (start (set (stop w))) = [t] /\
    cancelledByStop (engine (start (set (stop w)))) t = true /\
    tracked (start (set (stop w))).
Proof.
  intros Tr Hset.
  assert (H : activePrimitives (set (stop w)) = []).
  { rewrite (tickers_after_set (stop w)) by apply Hset.
    apply stop_untracked_none, Tr. }
  destruct (start_from_no_ticker _ H) as (t & A & C & _).
  exists t. split; [exact A|]. split; [exact C|].
  intros u Hu Hk.
  assert (Hin : In u [t]).
  { rewrite <- A. unfold activePrimitives, pendingOf. apply filter_In. auto. }
  destruct Hin as [<- | []]. exact C.
Qed.

(* the year selector *)
Lemma findIndexFrom_map {A B : Type} (f : A -> B) (p : B -> bool) (l : list A) (i : Z) :
  App.findIndexFrom (fun a => p (f a)) l i = App.findIndexFrom p (map f l) i.
Proof.
  revert i. induction l as [|a l IH]; intros i; [reflexivity|].
  cbn. destruct (p (f a)); [reflexivity | apply IH].
Qed.

Lemma nextYear_by_years (c : option Z) (l : list Occurrence) :
  App.nextYear c l =
  let currentIndex :=
    App.findIndex (fun y => match c with Some c => y =? c | None => false end)
                  (map year l) in
  match map year l with
  | [] => None
  | _ => nth_error (map year l)
           (Z.to_nat ((currentIndex + 1) mod Z.of_nat (List.length (map year l))))
  end.
Proof.
  unfold App.nextYear, App.findIndex. cbv zeta.
  rewrite (findIndexFrom_map year
             (fun y => match c with Some c => y =? c | None => false end)).
  rewrite length_map. destruct l as [|o l]; [reflexivity|].
  cbn [map]. rewrite <- nth_error_map. reflexivity.
Qed.

Lemma nextYear_configured (c : option Z) (l : list Occurrence) :
  map year l = [2024; 2025; 2026; 2027; 2028; 2029; 2030; 2031; 2032; 2033; 2034; 2035] ->
  App.nextYear c l =
  Some (match c with
        | Some y => if (2024 <=? y) && (y <? 2035) then y + 1 else 2024
        | None => 2024
        end).
Proof.
  intros E. rewrite nextYear_by_years, E. cbv zeta. destruct c as [y|]; [|reflexivity].
  unfold App.findIndex. cbn [App.findIndexFrom].
  repeat match goal with
         | |- context [?a =? y] =>
             destruct (Z.eqb_spec a y); [subst y; reflexivity|]
         end.
  replace ((2024 <=? y) && (y <? 2035)) with false; [reflexivity|].
  symmetry. apply andb_false_iff.
  destruct (Z.leb_spec 2024 y); [right; apply Z.ltb_ge; lia | left; reflexivity].
Qed.

(* ------------------------------------------------------------------ *)
(** ** Further properties *)

Lemma configured_years_on_reachable (w : World) :
  reachable w ->
  yearRange (engine w) = {| yr_start := 2024; yr_end := 2035 |} /\
  map year (fst (getAllBoxingDays w))
  = [2024; 2025; 2026; 2027; 2028; 2029; 2030; 2031; 2032; 2033; 2034; 2035].
Proof.
  intros R. destruct (reachable_config w R) as [Y U].
  split; [exact Y|].
  unfold getAllBoxingDays. cbn [fst]. rewrite Y. cbn [yr_start yr_end].
  apply forYears_configured.
Qed.

(** X1.  For a difference above zero the clock fields are in range (hours
    below 24, minutes and seconds below 60, milliseconds below 1000) and
    rebuild the difference exactly: totalDays, hours, minutes, seconds and
    milliseconds add up to target - now.  The days and weeks fields are the
    remainder of totalDays by 28 (days below 7, weeks below 4), and months is
    totalDays over 30, rounded down. *)
Theorem remaining_fields_consistent (w : World) (T : Z) (c : Q) :
  targetDate (engine w) = Some (DateAt T) ->
  getHighPrecisionTime w = Fin c ->
  (c < inject_Z T)%Q ->
  let r := fst (calculateTimeRemaining w) in
  exists (D h m s mo wk d : Z) (ms : Q),
    totalDays r = VNumber (ofZ D) /\ hours r = ofZ h /\ minutes r = ofZ m /\
    seconds r = ofZ s /\ milliseconds r = Fin ms /\
    months r = ofZ mo /\ weeks r = ofZ wk /\ days r = ofZ d /\
    0 <= D /\ 0 <= h < 24 /\ 0 <= m < 60 /\ 0 <= s < 60 /\
    (0 <= ms < 1000)%Q /\
    (inject_Z (D * 86400000 + h * 3600000 + m * 60000 + s * 1000) + ms
     == inject_Z T - c)%Q /\
    0 <= d < 7 /\ 0 <= wk < 4 /\ 30 * mo <= D < 30 * mo + 30 /\
    D mod 28 = 7 * wk + d.
Proof. exact (fields_consistent_general w T c). Qed.

Lemma remaining_fields_consistent_witness :
  targetDate (engine lastSecond) = Some (DateAt boxing2026) /\
  getHighPrecisionTime lastSecond = Fin (inject_Z boxing2026 - (801 # 2)) /\
  (inject_Z boxing2026 - (801 # 2) < inject_Z boxing2026)%Q /\
  exists (D h m s mo wk d : Z) (ms : Q),
    totalDays (fst (calculateTimeRemaining lastSecond)) = VNumber (ofZ D) /\
    milliseconds (fst (calculateTimeRemaining lastSecond)) = Fin ms /\
    (inject_Z (D * 86400000 + h * 3600000 + m * 60000 + s * 1000) + ms
     == inject_Z boxing2026 - (inject_Z boxing2026 - (801 # 2)))%Q.
Proof.
  assert (H1 : targetDate (engine lastSecond) = Some (DateAt boxing2026))
    by reflexivity.
  assert (H2 : getHighPrecisionTime lastSecond = Fin (inject_Z boxing2026 - (801 # 2)))
    by (vm_compute; reflexivity).
  assert (H3 : (inject_Z boxing2026 - (801 # 2) < inject_Z boxing2026)%Q)
    by (vm_compute; reflexivity).
  split; [exact H1|]. split; [exact H2|]. split; [exact H3|].
  destruct (remaining_fields_consistent lastSecond boxing2026 _ H1 H2 H3)
    as (D & h & m & s & mo & wk & d & ms & E1 & _ & _ & _ & E5 & _ & _ & _ & _ & _
        & _ & _ & _ & E & _).
  exists D, h, m, s, mo, wk, d, ms. split; [exact E1|]. split; [exact E5|exact E].
Defined.

(** X2.  [stop()] leaves both handles null, changes neither the callbacks
    delivered nor the clock, cancels nothing but what it holds a handle of,
    and doing it twice is doing it once.  When every pending ticker is one
    the engine holds the handle of, none is left pending. *)
Theorem stop_clears_and_is_idempotent (w : World) :
  intervalId (engine (stop w)) = None /\ rafId (engine (stop w)) = None /\
  trace (stop w) = trace w /\ clock (stop w) = clock w /\
  stop (stop w) = stop w /\
  tasks (stop w) = filter (fun t => negb (cancelledByStop (engine w) t)) (tasks w) /\
  (tracked w -> activePrimitives (stop w) = []).
Proof.
  destruct (stop_frame w) as (_ & A2 & _ & A4 & A5 & A6 & _).
  split; [exact A5|]. split; [exact A6|]. split; [exact A4|]. split; [exact A2|].
  split; [apply stop_idempotent|]. split; [apply stop_tasks|].
  apply stop_untracked_none.
Qed.

Lemma stop_clears_and_is_idempotent_witness :
  tracked startedOnce /\ activePrimitives (stop startedOnce) = [].
Proof.
  assert (T : tracked startedOnce).
  { intros t Ht Hk. vm_compute in Ht. destruct Ht as [<- | []]. reflexivity. }
  split; [exact T|].
  exact (proj2 (proj2 (proj2 (proj2 (proj2 (proj2
           (stop_clears_and_is_idempotent startedOnce)))))) T).
Defined.

(** X3.  With the interval timer as scheduling primitive (no animation
    frames, or an update frequency of 100 ms or more), on a page whose
    tickers the engine holds the handles of: [start()] leaves exactly one
    pending ticker, an interval of the update frequency first due one period
    from now, with its handle in [intervalId]; a second [start()] again leaves
    exactly one; and [stop()] after [start()] leaves none. *)
Theorem start_keeps_one_timer (w : World) :
  tracked w -> rafId (engine w) = None -> frameBranch w = false ->
  (exists t,
     activePrimitives (start w) = [t] /\ intervalId (engine (start w)) = Some (handle t) /\
     kind t = Interval (timerDelay (updateFrequency (engine w))) /\
     due t = (clock w + timerDelay (updateFrequency (engine w)))%Q /\
     callback t = CbUpdate) /\
  (exists t', activePrimitives (start (start w)) = [t'] /\
              intervalId (engine (start (start w))) = Some (handle t')) /\
  activePrimitives (stop (start w)) = [].
Proof.
  intros Tr Hr Hb.
  destruct (start_interval_branch w Tr Hr Hb) as (Tr1 & Hr1 & Hb1 & t & P).
  destruct (start_interval_branch (start w) Tr1 Hr1 Hb1)
    as (_ & _ & _ & t' & A' & I' & _).
  split; [exists t; exact P|]. split; [exists t'; auto|].
  apply stop_untracked_none, Tr1.
Qed.

Lemma start_keeps_one_timer_witness :
  tracked monthAhead /\ rafId (engine monthAhead) = None /\
  frameBranch monthAhead = false /\
  exists t', activePrimitives (start (start monthAhead)) = [t'] /\
             intervalId (engine (start (start monthAhead))) = Some (handle t').
Proof.
  assert (T : tracked monthAhead) by (intros t Ht; vm_compute in Ht; contradiction).
  assert (R : rafId (engine monthAhead) = None) by reflexivity.
  assert (B : frameBranch monthAhead = false) by (vm_compute; reflexivity).
  split; [exact T|]. split; [exact R|]. split; [exact B|].
  exact (proj1 (proj2 (start_keeps_one_timer monthAhead T R B))).
Defined.

(** X4.  [start()] delivers its first tick before it returns: exactly one
    with the interval timer; with the frame loop one more when, after that
    tick, [lastUpdateTime] is at least the update frequency back (as it is on
    a new engine, whose [lastUpdateTime] is 0). *)
Theorem start_ticks_before_returning (w : World) :
  let w2 := update (match intervalId (engine w) with Some _ => stop w | None => w end) in
  tickCount (start w) =
  (if frameBranch w && rafDue w2 then S (S (tickCount w)) else S (tickCount w)) /\
  (frameBranch w = false -> tickCount (stop (start w)) = S (tickCount w)).
Proof.
  cbv zeta. split; [apply start_tickCount|].
  intros B. unfold tickCount at 1.
  destruct (stop_frame (start w)) as (_ & _ & _ & E & _). rewrite E.
  fold (tickCount (start w)). rewrite start_tickCount. cbv zeta. rewrite B.
  reflexivity.
Qed.

Lemma start_ticks_before_returning_witness :
  frameBranch monthAhead = false /\
  tickCount (stop (start monthAhead)) = S (tickCount monthAhead).
Proof.
  assert (B : frameBranch monthAhead = false) by (vm_compute; reflexivity).
  split; [exact B|]. exact (proj2 (start_ticks_before_returning monthAhead) B).
Defined.

(** X5.  A tick on an engine with a target.  While the target is ahead, the
    tick only hands the computed duration to onUpdate: nothing else changes.
    When the target is reached, onUpdate and then onComplete are called, both
    handles are null afterwards, and what is pending is what [stop()] leaves,
    plus the rollover timeout if the recorded year is below the end of the
    year range, and nothing more if it is not. *)
Theorem tick_cycle (w : World) (d : JSDate) :
  targetDate (engine w) = Some d ->
  let r := fst (calculateTimeRemaining w) in
  (isComplete r = false -> update w = emit (OnUpdate r) w) /\
  (isComplete r = true ->
   trace (update w) = OnComplete :: OnUpdate r :: trace w /\
   intervalId (engine (update w)) = None /\ rafId (engine (update w)) = None /\
   tasks (update w)
   = tasks (stop w) ++ (if beforeRangeEnd (engine w) then [rolloverTask w] else [])).
Proof.
  intros Hd. cbv zeta. split.
  - intros C. rewrite (update_incomplete w C), (calculate_unchanged w d Hd).
    reflexivity.
  - intros C. destruct (update_complete_parts w d Hd C) as (P1 & _ & P3 & P4).
    split; [rewrite update_trace, C; reflexivity|].
    split; [exact P3|]. split; [exact P4 | exact P1].
Qed.

Lemma tick_cycle_witness :
  targetDate (engine atTarget) = Some (DateAt boxing2026) /\
  isComplete (fst (calculateTimeRemaining atTarget)) = true /\
  tasks (update atTarget) = tasks (stop atTarget) ++ [rolloverTask atTarget].
Proof.
  assert (H : targetDate (engine atTarget) = Some (DateAt boxing2026)) by reflexivity.
  assert (C : isComplete (fst (calculateTimeRemaining atTarget)) = true)
    by (vm_compute; reflexivity).
  split; [exact H|]. split; [exact C|].
  exact (proj2 (proj2 (proj2 (proj2 (tick_cycle atTarget _ H) C)))).
Defined.

(** X6.  [start()] on a target already reached, with the interval timer:
    the first tick reports completion and stops the engine, and [start()] then
    creates the timer all the same.  When that timer fires, completion is
    reported a second time and only then is the engine idle; with a recorded
    year below the end of the range two rollover timeouts are pending. *)
Theorem start_on_reached_target_completes_twice (w : World) (T : Z) (c : Q) :
  targetDate (engine w) = Some (DateAt T) ->
  getHighPrecisionTime w = Fin c ->
  (inject_Z T <= c)%Q ->
  frameBranch w = false ->
  let w' := start w in
  exists t,
    In t (tasks w') /\ intervalId (engine w') = Some (handle t) /\
    callback t = CbUpdate /\
    completeCount w' = S (completeCount w) /\
    completeCount (fire t w') = S (S (completeCount w)) /\
    intervalId (engine (fire t w')) = None /\
    rafId (engine (fire t w')) = None /\
    (beforeRangeEnd (engine w) = true ->
     exists r1 r2,
       handle r1 <> handle r2 /\ isRollover r1 = true /\ isRollover r2 = true /\
       In r1 (tasks (fire t w')) /\ In r2 (tasks (fire t w'))).
Proof. exact (start_on_reached_general w T c). Qed.

Lemma start_on_reached_target_completes_twice_witness :
  targetDate (engine atTarget) = Some (DateAt boxing2026) /\
  getHighPrecisionTime atTarget = Fin (inject_Z boxing2026) /\
  (inject_Z boxing2026 <= inject_Z boxing2026)%Q /\
  frameBranch atTarget = false /\
  exists t,
    In t (tasks (start atTarget)) /\
    completeCount (fire t (start atTarget)) = S (S (completeCount atTarget)).
Proof.
  assert (H1 : targetDate (engine atTarget) = Some (DateAt boxing2026)) by reflexivity.
  assert (H2 : getHighPrecisionTime atTarget = Fin (inject_Z boxing2026))
    by (vm_compute; reflexivity).
  assert (H3 : (inject_Z boxing2026 <= inject_Z boxing2026)%Q) by apply Qle_refl.
  assert (H4 : frameBranch atTarget = false) by (vm_compute; reflexivity).
  split; [exact H1|]. split; [exact H2|]. split; [exact H3|]. split; [exact H4|].
  destruct (start_on_reached_target_completes_twice atTarget _ _ H1 H2 H3 H4)
    as (t & A & _ & _ & _ & B & _).
  exists t. split; [exact A | exact B].
Defined.

(** X7.  [setBoxingDay(year)] with a year other than 0 records exactly that
    year and sets the target to its Boxing Day without looking at the clock,
    touching neither timers nor callbacks; the target is 26 December, local
    midnight, of that year, except that a year from 1 to 99 gives the date in
    1900 + year while the recorded year stays the two-digit one.
    [setBoxingDay(0)] is [setBoxingDay()]. *)
Theorem setBoxingDay_explicit_year (w : World) (y : Z) :
  y <> 0 ->
  let tz := tza (host w) in
  let w' := setBoxingDay (Some y) w in
  targetYear (engine w') = Some y /\
  targetDate (engine w') = Some (boxingDay tz y) /\
  tasks w' = tasks w /\ trace w' = trace w /\ clock w' = clock w /\
  intervalId (engine w') = intervalId (engine w) /\
  rafId (engine w') = rafId (engine w) /\
  (forall t, boxingDay tz y = DateAt t ->
     getFullYear tz t = (if (0 <=? y) && (y <=? 99) then 1900 + y else y) /\
     getMonth tz t = 11 /\ getDate tz t = 26 /\
     TimeWithinDay (LocalTime tz t) = 0) /\
  setBoxingDay (Some 0) w = setBoxingDay None w.
Proof.
  intros Hy. cbv zeta.
  destruct (setBoxingDay_explicit_general w y Hy) as (A & B & C & D & E & F & G & H).
  split; [exact A|]. split; [exact B|]. split; [exact C|]. split; [exact D|].
  split; [exact E|]. split; [exact F|]. split; [exact G|]. split; [exact H|].
  apply setBoxingDay_zero.
Qed.

Lemma setBoxingDay_explicit_year_witness :
  50 <> 0 /\
  targetYear (engine (setBoxingDay (Some 50) monthAhead)) = Some 50 /\
  boxingDay (tza (host monthAhead)) 50 = DateAt (-600134400000) /\
  getFullYear (tza (host monthAhead)) (-600134400000) = 1950.
Proof.
  assert (H : 50 <> 0) by discriminate.
  assert (B : boxingDay (tza (host monthAhead)) 50 = DateAt (-600134400000))
    by (vm_compute; reflexivity).
  pose proof (setBoxingDay_explicit_year monthAhead 50 H) as P. cbv zeta in P.
  destruct P as (P1 & _ & _ & _ & _ & _ & _ & P8 & _).
  split; [exact H|]. split; [exact P1|]. split; [exact B|].
  exact (proj1 (P8 _ B)).
Defined.

(** X8.  For a duration that is not complete, [getReadableTime] is the empty
    string exactly when none of months, weeks, days, hours, minutes and
    seconds is above zero (NaN counts as not above zero); the milliseconds
    never show. *)
Theorem getReadableTime_empty_iff (w : World) (r : Remaining) :
  isComplete r = false ->
  (fst (getReadableTime (Some r) w) = EmptyString <->
   ngt (months r) (ofZ 0) = false /\ ngt (weeks r) (ofZ 0) = false /\
   ngt (days r) (ofZ 0) = false /\ ngt (hours r) (ofZ 0) = false /\
   ngt (minutes r) (ofZ 0) = false /\ ngt (seconds r) (ofZ 0) = false).
Proof. intros H. cbn [getReadableTime fst]. apply readable_empty_iff, H. Qed.

Lemma getReadableTime_empty_iff_witness :
  isComplete (fst (calculateTimeRemaining garbage)) = false /\
  fst (getReadableTime (Some (fst (calculateTimeRemaining garbage))) garbage)
  = EmptyString.
Proof.
  assert (H : isComplete (fst (calculateTimeRemaining garbage)) = false)
    by (vm_compute; reflexivity).
  split; [exact H|].
  apply (proj2 (getReadableTime_empty_iff garbage _ H)).
  vm_compute. repeat split.
Defined.



(** X10.  [rafLoop] always ends by requesting the next frame and keeping its
    handle in [rafId], also when its tick has just completed the countdown and
    [update] has stopped the engine: the frame loop does not end by itself.
    It ticks only when [lastUpdateTime] is at least the update frequency back,
    and then moves [lastUpdateTime] to now; otherwise no callback is called. *)
Theorem rafLoop_requests_next_frame (w : World) :
  (exists t,
     In t (tasks (rafLoop w)) /\ kind t = AnimationFrame /\ callback t = CbRafLoop /\
     rafId (engine (rafLoop w)) = Some (handle t)) /\
  tickCount (rafLoop w) = (if rafDue w then S (tickCount w) else tickCount w) /\
  completeCount (rafLoop w) =
    (if rafDue w && isComplete (fst (calculateTimeRemaining w))
     then S (completeCount w) else completeCount w) /\
  (rafDue w = true ->
   lastUpdateTime (engine (rafLoop w)) = getHighPrecisionTime w) /\
  (rafDue w = false ->
   trace (rafLoop w) = trace w /\
   lastUpdateTime (engine (rafLoop w)) = lastUpdateTime (engine w) /\
   tasks (rafLoop w) = tasks w ++ [frameTask w]).
Proof.
  split.
  { rewrite rafLoop_unfold. cbv zeta. eexists. cbn.
    split; [apply in_or_app; right; left; reflexivity|]. repeat split. }
  split; [apply rafLoop_tickCount|].
  rewrite rafLoop_unfold. cbv zeta. destruct (rafDue w); cbn [andb].
  - split; [|split; [reflexivity | discriminate]].
    unfold completeCount at 1. cbn [trace withEngine].
    fold (completeCount (update w)). apply update_completeCount.
  - split; [reflexivity|]. split; [discriminate|]. intros _. repeat split.
Qed.

Lemma rafLoop_requests_next_frame_witness :
  rafDue startedOnce = false /\
  trace (rafLoop startedOnce) = trace startedOnce /\
  tasks (rafLoop startedOnce) = tasks startedOnce ++ [frameTask startedOnce].
Proof.
  assert (H : rafDue startedOnce = false) by (vm_compute; reflexivity).
  split; [exact H|].
  destruct (proj2 (proj2 (proj2 (proj2 (rafLoop_requests_next_frame startedOnce)))) H)
    as (A & _ & B).
  split; [exact A | exact B].
Defined.

(** X11.  On every page that can be reached from a new engine, whatever
    the UI calls and whichever callbacks the browser has run, [stop()] leaves
    every pending rollover timeout in place. *)
Theorem reachable_stop_keeps_rollovers (w : World) (t : Task) :
  reachable w -> In t (tasks w) -> isRollover t = true -> In t (tasks (stop w)).
Proof. exact (reachable_stop_keeps w t). Qed.

Lemma reachable_stop_keeps_rollovers_witness :
  reachable completed /\
  In (rolloverTask atTarget) (tasks completed) /\
  In (rolloverTask atTarget) (tasks (stop completed)).
Proof.
  assert (R : reachable completed).
  { unfold completed, atTarget.
    eapply ReachStep; [|apply StepStart].
    eapply ReachStep; [|apply StepSetBoxingDay]. apply ReachPage. }
  assert (I : In (rolloverTask atTarget) (tasks completed)) by (left; reflexivity).
  split; [exact R|]. split; [exact I|].
  exact (reachable_stop_keeps_rollovers completed _ R I eq_refl).
Defined.

(** X12.  No method and no callback changes what the constructor
    configures: on every reachable page the year range is 2024 to 2035 and the
    update frequency is a number other than 0 and NaN, and
    [getAllBoxingDays] lists the twelve years 2024, ..., 2035. *)
Theorem reachable_configuration (w : World) :
  reachable w ->
  yearRange (engine w) = {| yr_start := 2024; yr_end := 2035 |} /\
  truthy (updateFrequency (engine w)) = true /\
  map year (fst (getAllBoxingDays w))
  = [2024; 2025; 2026; 2027; 2028; 2029; 2030; 2031; 2032; 2033; 2034; 2035].
Proof.
  intros R. destruct (reachable_config w R) as [Y U].
  split; [exact Y|]. split; [exact U|].
  unfold getAllBoxingDays. cbn [fst]. rewrite Y. cbn [yr_start yr_end].
  apply forYears_configured.
Qed.

Lemma reachable_configuration_witness :
  reachable afterWindow /\
  yearRange (engine afterWindow) = {| yr_start := 2024; yr_end := 2035 |}.
Proof.
  assert (R : reachable completed).
  { unfold completed, atTarget.
    eapply ReachStep; [|apply StepStart].
    eapply ReachStep; [|apply StepSetBoxingDay]. apply ReachPage. }
  assert (R2 : reachable afterWindow).
  { unfold afterWindow, stoppedInWindow.
    change (reachable
              (fire {| handle := 1; kind := Timeout;
                       due := inject_Z (boxing2026 + 5000); callback := CbRollover |}
                 (stop (withClock (inject_Z (boxing2026 + 500)) completed)))).
    eapply ReachStep; [|apply StepFire; left; reflexivity].
    eapply ReachStep; [|apply StepStop].
    eapply ReachStep; [exact R|]. apply StepTime. vm_compute. discriminate. }
  split; [exact R2|]. exact (proj1 (reachable_configuration afterWindow R2)).
Defined.

(** X13.  The year selector of the page, on every reachable page: from a
    current year between 2024 and 2034 it moves to the next year, and from
    2035, from any year outside the range and from no year at all it moves to
    2024; the engine is stopped, given that year and started, so the recorded
    target year is the year shown. *)
Theorem showYearSelector_cycles (w : World) (currentYear : option Z) :
  reachable w ->
  let next :=
    match currentYear with
    | Some y => if (2024 <=? y) && (y <? 2035) then y + 1 else 2024
    | None => 2024
    end in
  App.showYearSelector currentYear w
  = Some (next, start (setBoxingDay (Some next) (stop w))) /\
  2024 <= next <= 2035 /\
  targetYear (engine (start (setBoxingDay (Some next) (stop w)))) = Some next.
Proof.
  intros R. cbv zeta.
  destruct (configured_years_on_reachable w R) as [Y L].
  set (next := match currentYear with
               | Some y => if (2024 <=? y) && (y <? 2035) then y + 1 else 2024
               | None => 2024
               end).
  assert (B : 2024 <= next <= 2035).
  { unfold next. destruct currentYear as [y|]; [|lia].
    destruct (Z.leb_spec 2024 y), (Z.ltb_spec y 2035); cbn [andb]; lia. }
  split.
  { unfold App.showYearSelector, getAllBoxingDays. cbv iota beta.
    unfold getAllBoxingDays in L. cbn [fst] in L.
    rewrite (nextYear_configured currentYear _ L). reflexivity. }
  split; [exact B|].
  destruct (setBoxingDay_given next (stop w) ltac:(lia)) as [Hd Hy].
  destruct (start_sameSetting _ _ Hd) as (_ & _ & _ & E & _). congruence.
Qed.

Lemma showYearSelector_cycles_witness :
  reachable completed /\
  fst (match App.showYearSelector (Some 2035) completed with
       | Some p => p
       | None => (0, completed)
       end) = 2024.
Proof.
  assert (R : reachable completed).
  { unfold completed, atTarget.
    eapply ReachStep; [|apply StepStart].
    eapply ReachStep; [|apply StepSetBoxingDay]. apply ReachPage. }
  split; [exact R|].
  rewrite (proj1 (showYearSelector_cycles completed (Some 2035) R)). reflexivity.
Defined.

(** X14.  The way the page changes the target, [stop()], then
    [setBoxingDay] or [setCustomDate], then [start()], leaves exactly one
    ticker pending, held by the engine, in the interval branch and in the
    frame branch alike, whenever the engine held the handles of its tickers
    before. *)
Theorem stop_set_start_leaves_one_ticker (w : World) :
  tracked w ->
  (forall y, exists t,
      activePrimitives (start (setBoxingDay y (stop w))) = [t] /\
      cancelledByStop (engine (start (setBoxingDay y (stop w)))) t = true /\
      tracked (start (setBoxingDay y (stop w)))) /\
  (forall s n, exists t,
      activePrimitives (start (setCustomDate s n (stop w))) = [t] /\
      cancelledByStop (engine (start (setCustomDate s n (stop w)))) t = true /\
      tracked (start (setCustomDate s n (stop w)))).
Proof.
  intros Tr. split.
  - intros y. apply (restart_pattern w (setBoxingDay y) Tr).
    intros v. apply setBoxingDay_frame.
  - intros s n. apply (restart_pattern w (setCustomDate s n) Tr).
    intros v. reflexivity.
Qed.

Lemma stop_set_start_leaves_one_ticker_witness :
  tracked startedOnce /\
  exists t, activePrimitives (start (setBoxingDay (Some 2027) (stop startedOnce))) = [t].
Proof.
  assert (T : tracked startedOnce).
  { intros t Ht Hk. vm_compute in Ht. destruct Ht as [<- | []]. reflexivity. }
  split; [exact T|].
  destruct (proj1 (stop_set_start_leaves_one_ticker startedOnce T) (Some 2027))
    as (t & A & _).
  exists t. exact A.
Defined.

(** X16.  [calculateTimeRemaining] only reads once a target is set: the
    engine and the browser are as before.  With no target yet it first sets
    the default one, exactly as [setBoxingDay()] does, and answers as it would
    after that call. *)
Theorem calculateTimeRemaining_sets_default_once (w : World) :
  (forall d, targetDate (engine w) = Some d -> snd (calculateTimeRemaining w) = w) /\
  (targetDate (engine w) = None ->
   calculateTimeRemaining w = calculateTimeRemaining (setBoxingDay None w) /\
   snd (calculateTimeRemaining w) = setBoxingDay None w) /\
  calculateTimeRemaining (snd (calculateTimeRemaining w))
  = (fst (calculateTimeRemaining w), snd (calculateTimeRemaining w)).
Proof.
  destruct (calculate_lazy_default w) as [A B].
  split; [exact A|]. split; [exact B|]. apply calculate_twice.
Qed.

Lemma calculateTimeRemaining_sets_default_once_witness :
  targetDate (engine (page (browser 0) defaults (inject_Z nov26))) = None /\
  snd (calculateTimeRemaining (page (browser 0) defaults (inject_Z nov26)))
  = monthAhead.
Proof.
  assert (H : targetDate (engine (page (browser 0) defaults (inject_Z nov26))) = None)
    by reflexivity.
  split; [exact H|].
  exact (proj2 (proj1 (proj2 (calculateTimeRemaining_sets_default_once
                                (page (browser 0) defaults (inject_Z nov26)))) H)).
Defined.

(* ------------------------------------------------------------------ *)
(** ** Two frame loops *)

Lemma isComplete_same (w v : World) (d : JSDate) :
  sameSetting w v -> targetDate (engine w) = Some d ->
  isComplete (fst (calculateTimeRemaining v)) = isComplete (fst (calculateTimeRemaining w)).
Proof.
  intros (_ & Hc & Ht & _ & _ & _ & _ & _ & Hp) Hd.
  assert (Hdv : targetDate (engine v) = Some d) by congruence.
  unfold calculateTimeRemaining. rewrite Hd, Hdv. cbv zeta.
  unfold targetTime. rewrite Hd, Hdv.
  rewrite (getHighPrecisionTime_ext w v Hp Hc).
  destruct (nle _ _); reflexivity.
Qed.

Lemma update_incomplete_some (w : World) (d : JSDate) :
  targetDate (engine w) = Some d ->
  isComplete (fst (calculateTimeRemaining w)) = false ->
  update w = emit (OnUpdate (fst (calculateTimeRemaining w))) w.
Proof.
  intros Hd C. rewrite (update_incomplete w C), (calculate_unchanged w d Hd).
  reflexivity.
Qed.

(** [rafLoop] while the target is ahead: one more frame request, nothing
    else pending changes. *)
Lemma rafLoop_ahead (w : World) (d : JSDate) :
  targetDate (engine w) = Some d ->
  isComplete (fst (calculateTimeRemaining w)) = false ->
  exists t,
    tasks (rafLoop w) = tasks w ++ [t] /\ handle t = nextHandle w /\
    isTicker t = true /\ kind t = AnimationFrame /\
    nextHandle (rafLoop w) = Pos.succ (nextHandle w) /\
    intervalId (engine (rafLoop w)) = intervalId (engine w) /\
    rafId (engine (rafLoop w)) = Some (nextHandle w) /\
    sameSetting w (rafLoop w).
Proof.
  intros Hd C. rewrite rafLoop_unfold. cbv zeta.
  destruct (rafDue w).
  - rewrite (update_incomplete_some w d Hd C). eexists. cbn.
    repeat split; reflexivity.
  - eexists. cbn. repeat split; reflexivity.
Qed.

Lemma start_frame_ahead (w : World) (d : JSDate) :
  frameBranch w = true -> intervalId (engine w) = None ->
  targetDate (engine w) = Some d ->
  isComplete (fst (calculateTimeRemaining w)) = false ->
  exists t,
    tasks (start w) = tasks w ++ [t] /\ handle t = nextHandle w /\
    isTicker t = true /\ kind t = AnimationFrame /\
    nextHandle (start w) = Pos.succ (nextHandle w) /\
    intervalId (engine (start w)) = None /\
    rafId (engine (start w)) = Some (nextHandle w) /\
    sameSetting w (start w).
Proof.
  intros Hb Hi Hd C. rewrite start_unfold. cbv zeta. rewrite Hi.
  rewrite frameBranch_update, Hb.
  rewrite (update_incomplete_some w d Hd C).
  set (v := emit _ w).
  assert (Sv : sameSetting w v) by apply emit_sameSetting.
  assert (Hdv : targetDate (engine v) = Some d) by (cbn; exact Hd).
  assert (Cv : isComplete (fst (calculateTimeRemaining v)) = false)
    by (rewrite (isComplete_same w v d Sv Hd); exact C).
  destruct (rafLoop_ahead v d Hdv Cv) as (t & A1 & A2 & A3 & A4 & A5 & A6 & A7 & A8).
  exists t.
  split; [exact A1|]. split; [exact A2|]. split; [exact A3|]. split; [exact A4|].
  split; [exact A5|]. split; [rewrite A6; exact Hi|]. split; [exact A7|].
  eapply sameSetting_trans; [exact Sv | exact A8].
Qed.

Lemma start_twice_frame_general (w : World) (d : JSDate) :
  frameBranch w = true -> intervalId (engine w) = None ->
  activePrimitives w = [] ->
  targetDate (engine w) = Some d ->
  isComplete (fst (calculateTimeRemaining w)) = false ->
  exists t1 t2,
    activePrimitives (start w) = [t1] /\
    activePrimitives (start (start w)) = [t1; t2] /\
    handle t1 <> handle t2 /\
    kind t1 = AnimationFrame /\ kind t2 = AnimationFrame /\
    intervalId (engine (start (start w))) = None /\
    rafId (engine (start (start w))) = Some (handle t2) /\
    activePrimitives (stop (start (start w))) = [t1].
Proof.
  intros Hb Hi Ha Hd C.
  destruct (start_frame_ahead w d Hb Hi Hd C)
    as (t1 & A1 & A2 & A3 & A4 & A5 & A6 & A7 & A8).
  set (s1 := start w) in *.
  assert (Hb1 : frameBranch s1 = true).
  { destruct A8 as (H & _ & _ & _ & _ & _ & U & _). unfold frameBranch in *.
    rewrite H, U. exact Hb. }
  assert (Hd1 : targetDate (engine s1) = Some d)
    by (destruct A8 as (_ & _ & E & _); congruence).
  assert (C1 : isComplete (fst (calculateTimeRemaining s1)) = false)
    by (rewrite (isComplete_same w s1 d A8 Hd); exact C).
  destruct (start_frame_ahead s1 d Hb1 A6 Hd1 C1)
    as (t2 & B1 & B2 & B3 & B4 & B5 & B6 & B7 & B8).
  exists t1, t2.
  assert (P1 : activePrimitives s1 = [t1]).
  { unfold activePrimitives, pendingOf in *. rewrite A1, filter_app, Ha. cbn.
    rewrite A3. reflexivity. }
  assert (P2 : activePrimitives (start s1) = [t1; t2]).
  { unfold activePrimitives, pendingOf in *. rewrite B1, filter_app, P1. cbn.
    rewrite B3. reflexivity. }
  assert (N : handle t1 <> handle t2) by (rewrite A2, B2, A5; lia).
  split; [exact P1|]. split; [exact P2|]. split; [exact N|].
  split; [exact A4|]. split; [exact B4|]. split; [exact B6|].
  split; [rewrite B7, B2; reflexivity|].
  unfold activePrimitives, pendingOf in *.
  rewrite stop_tasks, filter_filter.
  rewrite (filter_ext (fun t => negb (cancelledByStop (engine (start s1)) t) && isTicker t)
             (fun t => isTicker t && negb (Pos.eqb (handle t) (handle t2) && isFrame (kind t)))).
  - rewrite <- filter_filter. rewrite P2. cbn.
    rewrite A4, B4. cbn. rewrite Pos.eqb_refl. cbn.
    replace (Pos.eqb (handle t1) (handle t2)) with false
      by (symmetry; apply Pos.eqb_neq; exact N).
    reflexivity.
  - intros t. unfold cancelledByStop. rewrite B6, B7, B2. cbn.
    rewrite andb_false_r. cbn.
    rewrite (andb_comm (isFrame (kind t))). apply andb_comm.
Qed.

(** X17.  In the frame branch, with the target ahead and no ticker
    pending, [start()] leaves one pending frame callback and a second
    [start()] leaves two, since [intervalId] is null and nothing is stopped;
    [rafId] holds the handle of the later one only, so [stop()] cancels that
    one and the earlier callback stays pending. *)
Theorem start_twice_two_frame_loops (w : World) (d : JSDate) :
  frameBranch w = true -> intervalId (engine w) = None ->
  activePrimitives w = [] ->
  targetDate (engine w) = Some d ->
  isComplete (fst (calculateTimeRemaining w)) = false ->
  exists t1 t2,
    activePrimitives (start w) = [t1] /\
    activePrimitives (start (start w)) = [t1; t2] /\
    handle t1 <> handle t2 /\
    kind t1 = AnimationFrame /\ kind t2 = AnimationFrame /\
    intervalId (engine (start (start w))) = None /\
    rafId (engine (start (start w))) = Some (handle t2) /\
    activePrimitives (stop (start (start w))) = [t1].
Proof. exact (start_twice_frame_general w d). Qed.

Lemma start_twice_two_frame_loops_witness :
  frameBranch fastPage = true /\ intervalId (engine fastPage) = None /\
  activePrimitives fastPage = [] /\
  targetDate (engine fastPage) = Some (DateAt boxing2026) /\
  isComplete (fst (calculateTimeRemaining fastPage)) = false /\
  exists t1 t2,
    activePrimitives (start (start fastPage)) = [t1; t2] /\
    activePrimitives (stop (start (start fastPage))) = [t1].
Proof.
  assert (H1 : frameBranch fastPage = true) by (vm_compute; reflexivity).
  assert (H2 : intervalId (engine fastPage) = None) by reflexivity.
  assert (H3 : activePrimitives fastPage = []) by reflexivity.
  assert (H4 : targetDate (engine fastPage) = Some (DateAt boxing2026)) by reflexivity.
  assert (H5 : isComplete (fst (calculateTimeRemaining fastPage)) = false)
    by (vm_compute; reflexivity).
  split; [exact H1|]. split; [exact H2|]. split; [exact H3|]. split; [exact H4|].
  split; [exact H5|].
  destruct (start_twice_two_frame_loops fastPage _ H1 H2 H3 H4 H5)
    as (t1 & t2 & _ & A & _ & _ & _ & _ & _ & B).
  exists t1, t2. split; [exact A | exact B].
Defined.
